(** * corrupt-watch: complaint submission, tracking codes and audit trail

    A shallow embedding of the parts of the repository that carry its
    behaviour:

    - the SQL migrations (the two under [supabase/migrations] and the one
      that opens the tables to public reading): tables, triggers, row-level
      security policies;
    - [src/pages/Submit.tsx]: [complaintSchema], [handleFileChange],
      [calculateFileHash], [handleSubmit];
    - the edge functions [verify-tracking] and [analyze-complaint];
    - the lookup of the Verify page and the status update of the Admin page.

    Text is [string]: a character stands for a code unit of a JavaScript
    string or a character of a PostgreSQL [TEXT]; characters beyond Latin-1
    are not represented, and nothing here depends on more than lengths and
    ASCII characters.  Row identifiers (UUIDs) are natural numbers and timestamps are readings
    of the database clock.  Random digests, fresh identifiers, clock readings
    and the faults of the object store come from an explicit environment. *)

From Stdlib Require Import List String Ascii Bool Arith NArith ZArith Lia.
From Stdlib Require Import DecimalString.
Import ListNotations.

Set Warnings "-register-all".

Local Open Scope string_scope.

(** ** Text functions of PostgreSQL and JavaScript *)

Module Text.

(** [upper] of PostgreSQL on one character (ASCII letters only). *)
Definition upper_char (c : ascii) : ascii :=
  let n := nat_of_ascii c in
  if (97 <=? n)%nat && (n <=? 122)%nat then ascii_of_nat (n - 32) else c.

Fixpoint upper (s : string) : string :=
  match s with
  | EmptyString => EmptyString
  | String c s' => String (upper_char c) (upper s')
  end.

(** The lowercase hexadecimal digit of a value below 16. *)
Definition nibble_char (n : N) : ascii :=
  match n with
  | 0%N => "0" | 1%N => "1" | 2%N => "2" | 3%N => "3"
  | 4%N => "4" | 5%N => "5" | 6%N => "6" | 7%N => "7"
  | 8%N => "8" | 9%N => "9" | 10%N => "a" | 11%N => "b"
  | 12%N => "c" | 13%N => "d" | 14%N => "e" | _ => "f"
  end%char.

(** The [k] low hexadecimal digits of [d], most significant first. *)
Fixpoint hex_digits (k : nat) (d : N) : string :=
  match k with
  | O => EmptyString
  | S k' => String (nibble_char ((d / 16 ^ N.of_nat k') mod 16)) (hex_digits k' d)
  end.

(** [b.toString(16).padStart(2, "0")] for a byte [b]. *)
Definition byte_hex (b : Byte.byte) : string := hex_digits 2 (Byte.to_N b).

(** [Array.prototype.join] with a separator. *)
Fixpoint join (sep : string) (l : list string) : string :=
  match l with
  | [] => ""
  | [x] => x
  | x :: rest => x ++ sep ++ join sep rest
  end.

(** [substring(s from 1 for n)] of PostgreSQL. *)
Definition substring_from_1_for (n : nat) (s : string) : string := substring 0 n s.

Definition is_upper_alnum (c : ascii) : bool :=
  let n := nat_of_ascii c in
  ((48 <=? n)%nat && (n <=? 57)%nat) || ((65 <=? n)%nat && (n <=? 90)%nat).

Definition is_upper_hex (c : ascii) : bool :=
  let n := nat_of_ascii c in
  ((48 <=? n)%nat && (n <=? 57)%nat) || ((65 <=? n)%nat && (n <=? 70)%nat).

Fixpoint forallb_string (p : ascii -> bool) (s : string) : bool :=
  match s with
  | EmptyString => true
  | String c s' => p c && forallb_string p s'
  end.

(** The format [CW-XXXX-XXXX] with every [X] in the class [cls]: the
    regular expression [^CW-cls{4}-cls{4}$]. *)
Definition cw_format (cls : ascii -> bool) (s : string) : bool :=
  (String.length s =? 12)%nat
  && String.eqb (substring 0 3 s) "CW-"
  && forallb_string cls (substring 3 4 s)
  && String.eqb (substring 7 1 s) "-"
  && forallb_string cls (substring 8 4 s).

(** White space of JavaScript within Latin-1. *)
Definition is_space (c : ascii) : bool :=
  let n := nat_of_ascii c in
  ((9 <=? n)%nat && (n <=? 13)%nat) || (n =? 32)%nat || (n =? 160)%nat.

Fixpoint trim_start (s : string) : string :=
  match s with
  | String c s' => if is_space c then trim_start s' else s
  | EmptyString => EmptyString
  end.

Fixpoint trim_end (s : string) : string :=
  match s with
  | EmptyString => EmptyString
  | String c s' =>
      match trim_end s' with
      | EmptyString => if is_space c then EmptyString else String c EmptyString
      | t => String c t
      end
  end.

(** [String.prototype.trim] *)
Definition trim (s : string) : string := trim_end (trim_start s).

(** The position of the last occurrence of a character. *)
Fixpoint last_index (c : ascii) (s : string) : option nat :=
  match s with
  | EmptyString => None
  | String a r =>
      match last_index c r with
      | Some k => Some (S k)
      | None => if Ascii.eqb a c then Some 0%nat else None
      end
  end.

(** The decimal text of an integer. *)
Definition decimal (z : Z) : string := NilEmpty.string_of_int (Z.to_int z).

Definition newline : string := String (ascii_of_nat 10) "".

(** [CW-[A-Z0-9]{4}-[A-Z0-9]{4}] *)
Definition matches_tracking_pattern : string -> bool := cw_format is_upper_alnum.

(** The codes the generator can produce: hexadecimal digits only. *)
Definition is_hex_tracking_code : string -> bool := cw_format is_upper_hex.

End Text.

(** ** The tracking-code generator (second migration) *)

Module TrackingCode.
Import Text.

(** The text of [md5(random()::text)]: thirty-two lowercase hexadecimal
    digits of a 128-bit digest.  The digest is drawn from the environment. *)
Definition md5_text (digest : N) : string := hex_digits 32 digest.

(** [code := 'CW-' || upper(substring(md5(..) from 1 for 4)) || '-' ||
    upper(substring(md5(..) from 1 for 4))] *)
Definition candidate (d1 d2 : N) : string :=
  "CW-" ++ upper (substring_from_1_for 4 (md5_text d1)) ++ "-"
        ++ upper (substring_from_1_for 4 (md5_text d2)).

(** [SELECT EXISTS(SELECT 1 FROM complaints WHERE tracking_code = code)]
    over the tracking-code column of the table ([None] is SQL NULL, which
    equals nothing). *)
Definition code_exists (column : list (option string)) (code : string) : bool :=
  existsb (fun tc => match tc with Some c => String.eqb c code | None => false end) column.

(** The [LOOP .. EXIT WHEN NOT exists; END LOOP] of
    [generate_tracking_code].  [rand k] is the digest of the [k]-th
    evaluation of [md5(random()::text)]; [pos] counts the evaluations made
    so far.  The loop has no bound: [fuel] is the number of iterations
    observed, and [None] says that the loop has not left yet. *)
Fixpoint generate_tracking_code (fuel : nat) (rand : nat -> N) (pos : nat)
         (column : list (option string)) : option (string * nat) :=
  match fuel with
  | O => None
  | S fuel' =>
      let code := candidate (rand pos) (rand (S pos)) in
      let exists_ := code_exists column code in
      if negb exists_ then Some (code, S (S pos))
      else generate_tracking_code fuel' rand (S (S pos)) column
  end.

(** The candidate of the [k]-th iteration of a loop started at [pos]. *)
Definition nth_candidate (rand : nat -> N) (pos k : nat) : string :=
  candidate (rand (pos + 2 * k)) (rand (S (pos + 2 * k))).

End TrackingCode.

(** ** JSON values, as the edge functions build and read them *)

Module Json.

Inductive json : Type :=
| JNull
| JBool (b : bool)
| JNum (z : Z)
| JStr (s : string)
| JArr (items : list json)
| JObj (fields : list (string * json)).

(** Property access [o.key]: [None] is JavaScript's [undefined]. *)
Fixpoint lookup (key : string) (fields : list (string * json)) : option json :=
  match fields with
  | [] => None
  | (k, v) :: rest => if String.eqb k key then Some v else lookup key rest
  end.

Definition keys (fields : list (string * json)) : list string := map fst fields.

Definition of_option (o : option string) : json :=
  match o with Some s => JStr s | None => JNull end.

Definition of_option_num (o : option Z) : json :=
  match o with Some z => JNum z | None => JNull end.

End Json.

(** A reader for a subset of JSON texts (no escapes in strings, integers
    only).  [JSON.parse] itself is a parameter of the functions that call it;
    this reader instantiates the parameter where a function is run on a
    concrete text. *)

Module JsonText.
Import Json.

Definition dquote : ascii := ascii_of_nat 34.
Definition backslash : ascii := ascii_of_nat 92.

Definition is_ws (c : ascii) : bool :=
  let n := nat_of_ascii c in
  (n =? 32)%nat || (n =? 9)%nat || (n =? 10)%nat || (n =? 13)%nat.

Definition is_digit (c : ascii) : bool :=
  let n := nat_of_ascii c in (48 <=? n)%nat && (n <=? 57)%nat.

Fixpoint skip_ws (s : string) : string :=
  match s with
  | String c r => if is_ws c then skip_ws r else s
  | EmptyString => EmptyString
  end.

Fixpoint read_string (s : string) : option (string * string) :=
  match s with
  | EmptyString => None
  | String c r =>
      if Ascii.eqb c dquote then Some (EmptyString, r)
      else if Ascii.eqb c backslash || (nat_of_ascii c <? 32)%nat then None
      else match read_string r with
           | Some (t, r') => Some (String c t, r')
           | None => None
           end
  end.

Fixpoint read_digits (s : string) (acc : Z) : Z * string :=
  match s with
  | String c r =>
      if is_digit c then read_digits r (10 * acc + Z.of_nat (nat_of_ascii c - 48))%Z
      else (acc, s)
  | EmptyString => (acc, EmptyString)
  end.

Definition read_natural (s : string) : option (Z * string) :=
  match s with
  | String c r =>
      if negb (is_digit c) then None
      else
        let '(z, rest) := read_digits s 0%Z in
        let leading_zero :=
          Ascii.eqb c "0" && match r with String c' _ => is_digit c' | _ => false end in
        let continues :=
          match rest with
          | String c' _ => Ascii.eqb c' "." || Ascii.eqb c' "e" || Ascii.eqb c' "E"
          | EmptyString => false
          end in
        if leading_zero || continues then None else Some (z, rest)
  | EmptyString => None
  end.

Definition read_number (s : string) : option (Z * string) :=
  match s with
  | String c r =>
      if Ascii.eqb c "-" then
        match read_natural r with
        | Some (z, rest) => Some ((- z)%Z, rest)
        | None => None
        end
      else read_natural s
  | EmptyString => None
  end.

Fixpoint strip_prefix (p s : string) : option string :=
  match p, s with
  | EmptyString, _ => Some s
  | String a p', String b s' => if Ascii.eqb a b then strip_prefix p' s' else None
  | String _ _, EmptyString => None
  end.

Definition read_atom (s : string) : option (json * string) :=
  match strip_prefix "null" s with
  | Some r => Some (JNull, r)
  | None =>
      match strip_prefix "true" s with
      | Some r => Some (JBool true, r)
      | None =>
          match strip_prefix "false" s with
          | Some r => Some (JBool false, r)
          | None =>
              match read_number s with
              | Some (z, r) => Some (JNum z, r)
              | None => None
              end
          end
      end
  end.

Fixpoint value (fuel : nat) (s : string) : option (json * string) :=
  match fuel with
  | O => None
  | S f =>
      match skip_ws s with
      | EmptyString => None
      | String c r =>
          if Ascii.eqb c dquote then
            match read_string r with
            | Some (t, r') => Some (JStr t, r')
            | None => None
            end
          else if Ascii.eqb c "[" then
            match skip_ws r with
            | String c' r' => if Ascii.eqb c' "]" then Some (JArr [], r') else items f r []
            | EmptyString => None
            end
          else if Ascii.eqb c "{" then
            match skip_ws r with
            | String c' r' => if Ascii.eqb c' "}" then Some (JObj [], r') else members f r []
            | EmptyString => None
            end
          else read_atom (String c r)
      end
  end
with items (fuel : nat) (s : string) (acc : list json) : option (json * string) :=
  match fuel with
  | O => None
  | S f =>
      match value f s with
      | Some (v, r) =>
          match skip_ws r with
          | String c r' =>
              if Ascii.eqb c "," then items f r' (v :: acc)
              else if Ascii.eqb c "]" then Some (JArr (rev (v :: acc)), r')
              else None
          | EmptyString => None
          end
      | None => None
      end
  end
with members (fuel : nat) (s : string) (acc : list (string * json))
     : option (json * string) :=
  match fuel with
  | O => None
  | S f =>
      match skip_ws s with
      | String c r =>
          if Ascii.eqb c dquote then
            match read_string r with
            | Some (k, r1) =>
                match skip_ws r1 with
                | String c1 r2 =>
                    if Ascii.eqb c1 ":" then
                      match value f r2 with
                      | Some (v, r3) =>
                          match skip_ws r3 with
                          | String c3 r4 =>
                              if Ascii.eqb c3 "," then members f r4 ((k, v) :: acc)
                              else if Ascii.eqb c3 "}"
                              then Some (JObj (rev ((k, v) :: acc)), r4)
                              else None
                          | EmptyString => None
                          end
                      | None => None
                      end
                    else None
                | EmptyString => None
                end
            | None => None
            end
          else None
      | EmptyString => None
      end
  end.

Definition read (s : string) : option json :=
  match value (2 * String.length s + 2) s with
  | Some (v, r) => match skip_ws r with EmptyString => Some v | _ => None end
  | None => None
  end.

End JsonText.

(** ** What an edge function answers *)

Module Http.
Import Json.

(** Exceptions raised by the runtime rather than by the program; their
    message is the engine's. *)
Inductive exception := SyntaxError | TypeError | NetworkError.

(** The [error] field of a response. *)
Inductive error_message :=
| message (text : string)
| message_of (e : exception).

(** The body of a response: nothing, [{ error, .. }], or the payload. *)
Inductive body :=
| no_body
| error_body (error : error_message)
| payload (name : string) (value : json).

Record response := { status : Z; content : body }.

(** JavaScript truthiness of a value ([None] is [undefined]). *)
Definition truthy (v : option json) : bool :=
  match v with
  | None | Some JNull | Some (JBool false) => false
  | Some (JNum z) => negb (z =? 0)%Z
  | Some (JStr s) => negb (String.eqb s "")
  | Some _ => true
  end.

(** [v.key] for a key that no prototype defines and that is no index:
    [inl TypeError] on [undefined] and [null], the member of an object,
    [undefined] on every other value. *)
Definition get (key : string) (v : option json) : exception + option json :=
  match v with
  | None | Some JNull => inl TypeError
  | Some (JObj fields) => inr (lookup key fields)
  | Some _ => inr None
  end.

(** [v[0]] *)
Definition get0 (v : option json) : exception + option json :=
  match v with
  | None | Some JNull => inl TypeError
  | Some (JArr items) => inr (match items with x :: _ => Some x | [] => None end)
  | Some (JStr (String c _)) => inr (Some (JStr (String c EmptyString)))
  | Some (JObj fields) => inr (lookup "0" fields)
  | Some _ => inr None
  end.

End Http.

(** ** The database: tables, triggers and row-level security *)

Module Db.
Import Text TrackingCode Json.

Definition uuid := nat.

Inductive app_role := citizen | government | admin.

Inductive complaint_category :=
| bribery | misconduct | misuse_of_funds | negligence | infrastructure | other.

Inductive complaint_status := pending | in_review | verified | resolved | rejected.

Definition app_role_eqb (a b : app_role) : bool :=
  match a, b with
  | citizen, citizen | government, government | admin, admin => true
  | _, _ => false
  end.

Definition category_text (c : complaint_category) : string :=
  match c with
  | bribery => "bribery" | misconduct => "misconduct"
  | misuse_of_funds => "misuse_of_funds" | negligence => "negligence"
  | infrastructure => "infrastructure" | other => "other"
  end.

Definition status_text (s : complaint_status) : string :=
  match s with
  | pending => "pending" | in_review => "in_review" | verified => "verified"
  | resolved => "resolved" | rejected => "rejected"
  end.

(** The text of an identifier (its decimal digits stand for the UUID text). *)
Definition uuid_text (u : uuid) : string := NilEmpty.string_of_uint (Nat.to_uint u).

(** [public.complaints], with the [tracking_code] column of the second
    migration.  [latitude] and [longitude] are fixed-point values scaled by
    [10^8] ([DECIMAL(10,8)], [DECIMAL(11,8)]). *)
Module Complaint.
Record row := {
  id : uuid;
  user_id : option uuid;
  is_anonymous : bool;
  title : string;
  description : string;
  category : complaint_category;
  urgency_score : Z;
  status : complaint_status;
  location : string;
  latitude : option Z;
  longitude : option Z;
  ai_metadata : string;
  evidence_hashes : list string;
  complaint_hash : option string;
  created_at : N;
  updated_at : N;
  tracking_code : option string
}.

Definition set_tracking_code_column (code : option string) (r : row) : row :=
  {| id := id r; user_id := user_id r; is_anonymous := is_anonymous r;
     title := title r; description := description r; category := category r;
     urgency_score := urgency_score r; status := status r; location := location r;
     latitude := latitude r; longitude := longitude r; ai_metadata := ai_metadata r;
     evidence_hashes := evidence_hashes r; complaint_hash := complaint_hash r;
     created_at := created_at r; updated_at := updated_at r;
     tracking_code := code |}.

Definition set_evidence_hashes (hashes : list string) (r : row) : row :=
  {| id := id r; user_id := user_id r; is_anonymous := is_anonymous r;
     title := title r; description := description r; category := category r;
     urgency_score := urgency_score r; status := status r; location := location r;
     latitude := latitude r; longitude := longitude r; ai_metadata := ai_metadata r;
     evidence_hashes := hashes; complaint_hash := complaint_hash r;
     created_at := created_at r; updated_at := updated_at r;
     tracking_code := tracking_code r |}.

Definition set_status (s : complaint_status) (r : row) : row :=
  {| id := id r; user_id := user_id r; is_anonymous := is_anonymous r;
     title := title r; description := description r; category := category r;
     urgency_score := urgency_score r; status := s; location := location r;
     latitude := latitude r; longitude := longitude r; ai_metadata := ai_metadata r;
     evidence_hashes := evidence_hashes r; complaint_hash := complaint_hash r;
     created_at := created_at r; updated_at := updated_at r;
     tracking_code := tracking_code r |}.

Definition set_updated_at (t : N) (r : row) : row :=
  {| id := id r; user_id := user_id r; is_anonymous := is_anonymous r;
     title := title r; description := description r; category := category r;
     urgency_score := urgency_score r; status := status r; location := location r;
     latitude := latitude r; longitude := longitude r; ai_metadata := ai_metadata r;
     evidence_hashes := evidence_hashes r; complaint_hash := complaint_hash r;
     created_at := created_at r; updated_at := t;
     tracking_code := tracking_code r |}.

(** The value of a column in the JSON a query returns. *)
Definition column (name : string) (r : row) : option json :=
  if String.eqb name "id" then Some (JStr (uuid_text (id r)))
  else if String.eqb name "user_id" then
    Some (of_option (option_map uuid_text (user_id r)))
  else if String.eqb name "is_anonymous" then Some (JBool (is_anonymous r))
  else if String.eqb name "title" then Some (JStr (title r))
  else if String.eqb name "description" then Some (JStr (description r))
  else if String.eqb name "category" then Some (JStr (category_text (category r)))
  else if String.eqb name "urgency_score" then Some (JNum (urgency_score r))
  else if String.eqb name "status" then Some (JStr (status_text (status r)))
  else if String.eqb name "location" then Some (JStr (location r))
  else if String.eqb name "latitude" then Some (of_option_num (latitude r))
  else if String.eqb name "longitude" then Some (of_option_num (longitude r))
  else if String.eqb name "ai_metadata" then Some (JStr (ai_metadata r))
  else if String.eqb name "evidence_hashes" then
    Some (JArr (map JStr (evidence_hashes r)))
  else if String.eqb name "complaint_hash" then Some (of_option (complaint_hash r))
  else if String.eqb name "created_at" then Some (JNum (Z.of_N (created_at r)))
  else if String.eqb name "updated_at" then Some (JNum (Z.of_N (updated_at r)))
  else if String.eqb name "tracking_code" then Some (of_option (tracking_code r))
  else None.
End Complaint.

(** [public.evidence_files] *)
Module EvidenceFile.
Record row := {
  id : uuid;
  complaint_id : uuid;
  file_url : string;
  file_name : string;
  file_type : string;
  file_size : Z;
  file_hash : string;
  created_at : N
}.

Definition column (name : string) (r : row) : option json :=
  if String.eqb name "id" then Some (JStr (uuid_text (id r)))
  else if String.eqb name "complaint_id" then Some (JStr (uuid_text (complaint_id r)))
  else if String.eqb name "file_url" then Some (JStr (file_url r))
  else if String.eqb name "file_name" then Some (JStr (file_name r))
  else if String.eqb name "file_type" then Some (JStr (file_type r))
  else if String.eqb name "file_size" then Some (JNum (file_size r))
  else if String.eqb name "file_hash" then Some (JStr (file_hash r))
  else if String.eqb name "created_at" then Some (JNum (Z.of_N (created_at r)))
  else None.
End EvidenceFile.

(** [public.public_logs], the audit trail *)
Module PublicLog.
Record row := {
  id : uuid;
  complaint_id : uuid;
  metadata_hash : string;
  action : string;
  timestamp : N
}.
End PublicLog.

(** [public.gov_notes] *)
Module GovNote.
Record row := {
  id : uuid;
  complaint_id : uuid;
  official_id : option uuid;
  note : string;
  created_at : N
}.

Definition column (name : string) (r : row) : option json :=
  if String.eqb name "id" then Some (JStr (uuid_text (id r)))
  else if String.eqb name "complaint_id" then Some (JStr (uuid_text (complaint_id r)))
  else if String.eqb name "official_id" then
    Some (of_option (option_map uuid_text (official_id r)))
  else if String.eqb name "note" then Some (JStr (note r))
  else if String.eqb name "created_at" then Some (JNum (Z.of_N (created_at r)))
  else None.
End GovNote.

Record database := {
  complaints : list Complaint.row;
  evidence_files : list EvidenceFile.row;
  public_logs : list PublicLog.row;
  gov_notes : list GovNote.row;
  user_roles : list (uuid * app_role)
}.

(** Who issues a statement: the [anon] role, the [authenticated] role with
    its [auth.uid()], or the service role, which bypasses row-level
    security. *)
Inductive caller := anon | authenticated (uid : uuid) | service_role.

Definition auth_uid (who : caller) : option uuid :=
  match who with authenticated u => Some u | _ => None end.

(** [public.has_role(_user_id, _role)] *)
Definition has_role (d : database) (_user_id : option uuid) (_role : app_role) : bool :=
  match _user_id with
  | None => false
  | Some u =>
      existsb (fun ur => Nat.eqb (fst ur) u && app_role_eqb (snd ur) _role) (user_roles d)
  end.

(** SQL [a = b] on nullable identifiers, read as a condition (NULL is not true). *)
Definition sql_eq_uuid (a b : option uuid) : bool :=
  match a, b with
  | Some x, Some y => Nat.eqb x y
  | _, _ => false
  end.

Inductive command := SELECT | INSERT | UPDATE | DELETE.

Definition command_eqb (a b : command) : bool :=
  match a, b with
  | SELECT, SELECT | INSERT, INSERT | UPDATE, UPDATE | DELETE, DELETE => true
  | _, _ => false
  end.

Inductive pg_role := to_anon | to_authenticated | to_public.

(** [CREATE POLICY name ON table FOR cmd TO role USING / WITH CHECK (expr)] *)
Record policy (Row : Type) := {
  policy_name : string;
  policy_cmd : command;
  policy_to : pg_role;
  policy_expr : database -> caller -> Row -> bool
}.
Arguments policy_name {Row}.
Arguments policy_cmd {Row}.
Arguments policy_to {Row}.
Arguments policy_expr {Row}.

Definition applies_to (to : pg_role) (who : caller) : bool :=
  match to, who with
  | to_public, _ => true
  | to_anon, anon => true
  | to_authenticated, authenticated _ => true
  | _, _ => false
  end.

(** Row-level security is enabled on every table: a statement of kind
    [cmd] may touch a row when some permissive policy for [cmd] that
    applies to the caller's role accepts it; no policy, no access. *)
Definition permitted {Row : Type} (policies : list (policy Row)) (cmd : command)
           (d : database) (who : caller) (r : Row) : bool :=
  match who with
  | service_role => true
  | _ =>
      existsb (fun p => command_eqb (policy_cmd p) cmd
                        && applies_to (policy_to p) who
                        && policy_expr p d who r) policies
  end.

Definition is_government_or_admin (d : database) (who : caller) : bool :=
  has_role d (auth_uid who) government || has_role d (auth_uid who) admin.

Definition complaints_policies : list (policy Complaint.row) :=
  [ {| policy_name := "Users can view own complaints";
       policy_cmd := SELECT; policy_to := to_authenticated;
       policy_expr := fun d who r => sql_eq_uuid (auth_uid who) (Complaint.user_id r) |};
    {| policy_name := "Government can view all complaints";
       policy_cmd := SELECT; policy_to := to_authenticated;
       policy_expr := fun d who r => is_government_or_admin d who |};
    {| policy_name := "Users can insert complaints";
       policy_cmd := INSERT; policy_to := to_authenticated;
       policy_expr := fun d who r => sql_eq_uuid (auth_uid who) (Complaint.user_id r) |};
    {| policy_name := "Government can update complaints";
       policy_cmd := UPDATE; policy_to := to_authenticated;
       policy_expr := fun d who r => is_government_or_admin d who |};
    {| policy_name := "Anyone can insert anonymous complaints";
       policy_cmd := INSERT; policy_to := to_anon;
       policy_expr := fun d who r =>
         Complaint.is_anonymous r
         && match Complaint.user_id r with None => true | Some _ => false end |};
    {| policy_name := "Anyone can view complaints with tracking code";
       policy_cmd := SELECT; policy_to := to_anon;
       policy_expr := fun d who r =>
         match Complaint.tracking_code r with Some _ => true | None => false end |};
    {| policy_name := "Anyone can view all complaints";
       policy_cmd := SELECT; policy_to := to_public;
       policy_expr := fun d who r => true |} ].

(** The complaints a caller sees ([SELECT] under row-level security). *)
Definition visible_complaints (d : database) (who : caller) : list Complaint.row :=
  filter (permitted complaints_policies SELECT d who) (complaints d).

Definition evidence_files_policies : list (policy EvidenceFile.row) :=
  [ {| policy_name := "Users can view evidence for own complaints";
       policy_cmd := SELECT; policy_to := to_authenticated;
       policy_expr := fun d who r =>
         existsb (fun c => Nat.eqb (Complaint.id c) (EvidenceFile.complaint_id r)
                           && sql_eq_uuid (Complaint.user_id c) (auth_uid who))
                 (visible_complaints d who) |};
    {| policy_name := "Government can view all evidence";
       policy_cmd := SELECT; policy_to := to_authenticated;
       policy_expr := fun d who r => is_government_or_admin d who |};
    {| policy_name := "Users can insert evidence";
       policy_cmd := INSERT; policy_to := to_authenticated;
       policy_expr := fun d who r =>
         existsb (fun c => Nat.eqb (Complaint.id c) (EvidenceFile.complaint_id r)
                           && sql_eq_uuid (Complaint.user_id c) (auth_uid who))
                 (visible_complaints d who) |};
    {| policy_name := "Anonymous users can insert evidence";
       policy_cmd := INSERT; policy_to := to_anon;
       policy_expr := fun d who r =>
         existsb (fun c => Nat.eqb (Complaint.id c) (EvidenceFile.complaint_id r)
                           && Complaint.is_anonymous c)
                 (visible_complaints d who) |};
    {| policy_name := "Anyone can view all evidence files";
       policy_cmd := SELECT; policy_to := to_public;
       policy_expr := fun d who r => true |} ].

(** No policy of [public_logs] is [FOR INSERT]. *)
Definition public_logs_policies : list (policy PublicLog.row) :=
  [ {| policy_name := "Anyone can view public logs";
       policy_cmd := SELECT; policy_to := to_authenticated;
       policy_expr := fun d who r => true |};
    {| policy_name := "Anonymous users can view public logs";
       policy_cmd := SELECT; policy_to := to_anon;
       policy_expr := fun d who r => true |} ].

Definition gov_notes_policies : list (policy GovNote.row) :=
  [ {| policy_name := "Users can view notes on own complaints";
       policy_cmd := SELECT; policy_to := to_authenticated;
       policy_expr := fun d who r =>
         existsb (fun c => Nat.eqb (Complaint.id c) (GovNote.complaint_id r)
                           && sql_eq_uuid (Complaint.user_id c) (auth_uid who))
                 (visible_complaints d who) |};
    {| policy_name := "Government can view all notes";
       policy_cmd := SELECT; policy_to := to_authenticated;
       policy_expr := fun d who r => is_government_or_admin d who |};
    {| policy_name := "Government can insert notes";
       policy_cmd := INSERT; policy_to := to_authenticated;
       policy_expr := fun d who r => is_government_or_admin d who |};
    {| policy_name := "Anyone can view all notes";
       policy_cmd := SELECT; policy_to := to_public;
       policy_expr := fun d who r => true |} ].

(** *** The environment and the state of the backend *)

(** What the program cannot decide: the digest of the [k]-th
    [md5(random()::text)], the [k]-th [gen_random_uuid()], the [k]-th
    reading of [NOW()], and the refusals of the object store that do not
    depend on its contents (size limits, network). *)
Record environment := {
  rand_md5 : nat -> N;
  gen_random_uuid : nat -> uuid;
  now : nat -> N;
  upload_fault : string -> option string
}.

Record world := {
  db : database;
  storage_objects : list string;
  rand_pos : nat;
  uuid_pos : nat;
  clock_pos : nat
}.

Definition with_db (d : database) (w : world) : world :=
  {| db := d; storage_objects := storage_objects w; rand_pos := rand_pos w;
     uuid_pos := uuid_pos w; clock_pos := clock_pos w |}.

Definition with_storage_objects (o : list string) (w : world) : world :=
  {| db := db w; storage_objects := o; rand_pos := rand_pos w;
     uuid_pos := uuid_pos w; clock_pos := clock_pos w |}.

Definition with_rand_pos (p : nat) (w : world) : world :=
  {| db := db w; storage_objects := storage_objects w; rand_pos := p;
     uuid_pos := uuid_pos w; clock_pos := clock_pos w |}.

Definition next_uuid (w : world) : world :=
  {| db := db w; storage_objects := storage_objects w; rand_pos := rand_pos w;
     uuid_pos := S (uuid_pos w); clock_pos := clock_pos w |}.

Definition next_clock (w : world) : world :=
  {| db := db w; storage_objects := storage_objects w; rand_pos := rand_pos w;
     uuid_pos := uuid_pos w; clock_pos := S (clock_pos w) |}.

Definition with_complaints (l : list Complaint.row) (d : database) : database :=
  {| complaints := l; evidence_files := evidence_files d; public_logs := public_logs d;
     gov_notes := gov_notes d; user_roles := user_roles d |}.

Definition with_evidence_files (l : list EvidenceFile.row) (d : database) : database :=
  {| complaints := complaints d; evidence_files := l; public_logs := public_logs d;
     gov_notes := gov_notes d; user_roles := user_roles d |}.

Definition with_public_logs (l : list PublicLog.row) (d : database) : database :=
  {| complaints := complaints d; evidence_files := evidence_files d; public_logs := l;
     gov_notes := gov_notes d; user_roles := user_roles d |}.

Definition with_gov_notes (l : list GovNote.row) (d : database) : database :=
  {| complaints := complaints d; evidence_files := evidence_files d;
     public_logs := public_logs d; gov_notes := l; user_roles := user_roles d |}.

Definition empty_database : database :=
  {| complaints := []; evidence_files := []; public_logs := []; gov_notes := [];
     user_roles := [] |}.

Definition empty_world : world :=
  {| db := empty_database; storage_objects := []; rand_pos := 0; uuid_pos := 0;
     clock_pos := 0 |}.

(** *** Errors of a statement *)

Inductive pg_error :=
| rls_violation (table : string)
| unique_violation (constraint_name : string)
| check_violation (table constraint_name : string)
| foreign_key_violation (table constraint_name : string)
| numeric_field_overflow
| integer_out_of_range
| invalid_enum_input (enum_name value : string)
| multiple_rows.

Definition dq : string := String (ascii_of_nat 34) "".

Definition pg_message (e : pg_error) : string :=
  match e with
  | rls_violation t =>
      "new row violates row-level security policy for table " ++ dq ++ t ++ dq
  | unique_violation c =>
      "duplicate key value violates unique constraint " ++ dq ++ c ++ dq
  | check_violation t c =>
      "new row for relation " ++ dq ++ t ++ dq ++ " violates check constraint "
      ++ dq ++ c ++ dq
  | foreign_key_violation t c =>
      "insert or update on table " ++ dq ++ t ++ dq
      ++ " violates foreign key constraint " ++ dq ++ c ++ dq
  | numeric_field_overflow => "numeric field overflow"
  | integer_out_of_range => "integer out of range"
  | invalid_enum_input e v =>
      "invalid input value for enum " ++ e ++ ": " ++ dq ++ v ++ dq
  | multiple_rows => "JSON object requested, multiple (or no) rows returned"
  end.

(** The result of a statement: done, refused (the statement changes no
    table), or still inside the loop of the tracking-code trigger. *)
Inductive outcome (A : Type) :=
| Done (a : A) (w : world)
| Failed (e : pg_error) (w : world)
| Running.
Arguments Done {A}.
Arguments Failed {A}.
Arguments Running {A}.

(** *** Trigger [set_complaint_tracking_code] (BEFORE INSERT, FOR EACH ROW) *)

Definition tracking_codes (d : database) : list (option string) :=
  map Complaint.tracking_code (complaints d).

(** [IF NEW.is_anonymous = true AND NEW.tracking_code IS NULL THEN
       NEW.tracking_code := public.generate_tracking_code();
     END IF; RETURN NEW;]
    The function is SECURITY DEFINER: its query reads the whole table. *)
Definition set_tracking_code (fuel : nat) (rand : nat -> N) (pos : nat)
           (d : database) (NEW : Complaint.row) : option (Complaint.row * nat) :=
  if Complaint.is_anonymous NEW
     && match Complaint.tracking_code NEW with None => true | Some _ => false end
  then
    match generate_tracking_code fuel rand pos (tracking_codes d) with
    | Some (code, pos') => Some (Complaint.set_tracking_code_column (Some code) NEW, pos')
    | None => None
    end
  else Some (NEW, pos).

(** *** Statements on [complaints] *)

(** The columns [handleSubmit] gives to [insert]. *)
Record complaint_values := {
  v_user_id : option uuid;
  v_is_anonymous : bool;
  v_title : string;
  v_description : string;
  v_category : complaint_category;
  v_location : string;
  v_latitude : option Z;
  v_longitude : option Z;
  v_urgency_score : Z
}.

Definition fits_decimal (digits_before : Z) (v : option Z) : bool :=
  match v with
  | None => true
  | Some z => (Z.abs z <? 10 ^ (digits_before + 8))%Z
  end.

(** [INSERT INTO complaints (..) VALUES (..)], with [RETURNING *] when the
    client chains [.select()]: column defaults, the BEFORE INSERT trigger,
    the INSERT policies (and the SELECT policies for RETURNING), then the
    CHECK, primary-key and UNIQUE constraints. *)
Definition insert_complaint (fuel : nat) (E : environment) (who : caller)
           (v : complaint_values) (returning : bool) (w : world)
  : outcome Complaint.row :=
  if negb (fits_decimal 2 (v_latitude v) && fits_decimal 3 (v_longitude v))
  then Failed numeric_field_overflow w
  else
    let t := now E (clock_pos w) in
    let NEW0 :=
      {| Complaint.id := gen_random_uuid E (uuid_pos w);
         Complaint.user_id := v_user_id v;
         Complaint.is_anonymous := v_is_anonymous v;
         Complaint.title := v_title v;
         Complaint.description := v_description v;
         Complaint.category := v_category v;
         Complaint.urgency_score := v_urgency_score v;
         Complaint.status := pending;
         Complaint.location := v_location v;
         Complaint.latitude := v_latitude v;
         Complaint.longitude := v_longitude v;
         Complaint.ai_metadata := "{}";
         Complaint.evidence_hashes := [];
         Complaint.complaint_hash := None;
         Complaint.created_at := t;
         Complaint.updated_at := t;
         Complaint.tracking_code := None |} in
    let w1 := next_clock (next_uuid w) in
    match set_tracking_code fuel (rand_md5 E) (rand_pos w1) (db w1) NEW0 with
    | None => Running
    | Some (NEW, pos') =>
        let w2 := with_rand_pos pos' w1 in
        if negb (permitted complaints_policies INSERT (db w2) who NEW)
        then Failed (rls_violation "complaints") w2
        else if returning && negb (permitted complaints_policies SELECT (db w2) who NEW)
        then Failed (rls_violation "complaints") w2
        else if negb ((0 <=? Complaint.urgency_score NEW)%Z
                      && (Complaint.urgency_score NEW <=? 10)%Z)
        then Failed (check_violation "complaints" "complaints_urgency_score_check") w2
        else if existsb (fun r => Nat.eqb (Complaint.id r) (Complaint.id NEW))
                        (complaints (db w2))
        then Failed (unique_violation "complaints_pkey") w2
        else if match Complaint.tracking_code NEW with
                | Some code => code_exists (tracking_codes (db w2)) code
                | None => false
                end
        then Failed (unique_violation "complaints_tracking_code_key") w2
        else Done NEW (with_db (with_complaints (complaints (db w2) ++ [NEW]) (db w2)) w2)
    end.

(** [UPDATE complaints SET .. WHERE id = target]: only the rows the caller
    may select and update are touched, the others are skipped without an
    error; trigger [update_complaints_updated_at] stamps every touched
    row.  [set] assigns columns that carry no constraint
    ([evidence_hashes], [status]). *)
Definition update_complaints (E : environment) (who : caller)
           (set : Complaint.row -> Complaint.row) (target : uuid) (w : world)
  : outcome nat :=
  let t := now E (clock_pos w) in
  let d := db w in
  let touched r :=
    Nat.eqb (Complaint.id r) target
    && permitted complaints_policies SELECT d who r
    && permitted complaints_policies UPDATE d who r in
  let NEW r := Complaint.set_updated_at t (set r) in
  let w1 := next_clock w in
  if existsb (fun r => touched r && negb (permitted complaints_policies UPDATE d who (NEW r)))
             (complaints d)
  then Failed (rls_violation "complaints") w1
  else
    Done (List.length (filter touched (complaints d)))
         (with_db (with_complaints
                     (map (fun r => if touched r then NEW r else r) (complaints d)) d) w1).

(** [SELECT .. FROM complaints WHERE ..] as [who]. *)
Definition select_complaints (who : caller) (where_ : Complaint.row -> bool)
           (d : database) : list Complaint.row :=
  filter where_ (visible_complaints d who).

(** [.maybeSingle()] of the client library. *)
Definition maybeSingle {A : Type} (rows : list A) : pg_error + option A :=
  match rows with
  | [] => inr None
  | [r] => inr (Some r)
  | _ => inl multiple_rows
  end.

(** *** Statements on the other tables *)

Definition fits_int4 (z : Z) : bool := (- 2 ^ 31 <=? z)%Z && (z <? 2 ^ 31)%Z.

Definition complaint_exists (d : database) (cid : uuid) : bool :=
  existsb (fun c => Nat.eqb (Complaint.id c) cid) (complaints d).

(** [INSERT INTO evidence_files (complaint_id, file_url, ..) VALUES (..)] *)
Definition insert_evidence_file (E : environment) (who : caller)
           (complaint_id : uuid) (file_url file_name file_type : string)
           (file_size : Z) (file_hash : string) (w : world) : outcome unit :=
  if negb (fits_int4 file_size) then Failed integer_out_of_range w
  else
    let NEW :=
      {| EvidenceFile.id := gen_random_uuid E (uuid_pos w);
         EvidenceFile.complaint_id := complaint_id;
         EvidenceFile.file_url := file_url;
         EvidenceFile.file_name := file_name;
         EvidenceFile.file_type := file_type;
         EvidenceFile.file_size := file_size;
         EvidenceFile.file_hash := file_hash;
         EvidenceFile.created_at := now E (clock_pos w) |} in
    let w1 := next_clock (next_uuid w) in
    let d := db w1 in
    if negb (permitted evidence_files_policies INSERT d who NEW)
    then Failed (rls_violation "evidence_files") w1
    else if existsb (fun r => Nat.eqb (EvidenceFile.id r) (EvidenceFile.id NEW))
                    (evidence_files d)
    then Failed (unique_violation "evidence_files_pkey") w1
    else if negb (complaint_exists d complaint_id)
    then Failed (foreign_key_violation "evidence_files"
                                       "evidence_files_complaint_id_fkey") w1
    else Done tt (with_db (with_evidence_files (evidence_files d ++ [NEW]) d) w1).

(** [INSERT INTO public_logs (complaint_id, metadata_hash, action) VALUES (..)] *)
Definition insert_public_log (E : environment) (who : caller)
           (complaint_id : uuid) (metadata_hash action : string) (w : world)
  : outcome unit :=
  let NEW :=
    {| PublicLog.id := gen_random_uuid E (uuid_pos w);
       PublicLog.complaint_id := complaint_id;
       PublicLog.metadata_hash := metadata_hash;
       PublicLog.action := action;
       PublicLog.timestamp := now E (clock_pos w) |} in
  let w1 := next_clock (next_uuid w) in
  let d := db w1 in
  if negb (permitted public_logs_policies INSERT d who NEW)
  then Failed (rls_violation "public_logs") w1
  else if existsb (fun r => Nat.eqb (PublicLog.id r) (PublicLog.id NEW)) (public_logs d)
  then Failed (unique_violation "public_logs_pkey") w1
  else if negb (complaint_exists d complaint_id)
  then Failed (foreign_key_violation "public_logs" "public_logs_complaint_id_fkey") w1
  else Done tt (with_db (with_public_logs (public_logs d ++ [NEW]) d) w1).

(** [INSERT INTO gov_notes (complaint_id, official_id, note) VALUES (..)] *)
Definition insert_gov_note (E : environment) (who : caller)
           (complaint_id : uuid) (official_id : option uuid) (note : string) (w : world)
  : outcome unit :=
  let NEW :=
    {| GovNote.id := gen_random_uuid E (uuid_pos w);
       GovNote.complaint_id := complaint_id;
       GovNote.official_id := official_id;
       GovNote.note := note;
       GovNote.created_at := now E (clock_pos w) |} in
  let w1 := next_clock (next_uuid w) in
  let d := db w1 in
  if negb (permitted gov_notes_policies INSERT d who NEW)
  then Failed (rls_violation "gov_notes") w1
  else if existsb (fun r => Nat.eqb (GovNote.id r) (GovNote.id NEW)) (gov_notes d)
  then Failed (unique_violation "gov_notes_pkey") w1
  else if negb (complaint_exists d complaint_id)
  then Failed (foreign_key_violation "gov_notes" "gov_notes_complaint_id_fkey") w1
  else Done tt (with_db (with_gov_notes (gov_notes d ++ [NEW]) d) w1).

(** *** The object store, bucket [evidence] *)

(** [storage.from("evidence").upload(path, file)]: the INSERT policies of
    [storage.objects] accept every object of this bucket for both roles;
    without [upsert] an existing path is refused. *)
Definition storage_upload (E : environment) (path : string) (w : world)
  : string + world :=
  match upload_fault E path with
  | Some message => inl message
  | None =>
      if existsb (String.eqb path) (storage_objects w)
      then inl "The resource already exists"
      else inr (with_storage_objects (storage_objects w ++ [path]) w)
  end.

(** [storage.from("evidence").getPublicUrl(path)], relative to the project. *)
Definition getPublicUrl (path : string) : string :=
  "/storage/v1/object/public/evidence/" ++ path.

End Db.

(** ** The submission page, [src/pages/Submit.tsx] *)

Module Submit.
Import Text Db.

(** A [File] of the browser, with the SHA-256 digest of its content as
    [crypto.subtle.digest] returns it. *)
Record file := {
  f_name : string;
  f_type : string;
  f_size : Z;
  f_digest : list Byte.byte
}.

Record form := {
  title : string;
  description : string;
  category : string;
  location : string;
  latitude : option Z;
  longitude : option Z
}.

(** *** [complaintSchema] *)

Record issue := { path : string; message : string }.

Definition category_of_text (s : string) : option complaint_category :=
  if String.eqb s "bribery" then Some bribery
  else if String.eqb s "misconduct" then Some misconduct
  else if String.eqb s "misuse_of_funds" then Some misuse_of_funds
  else if String.eqb s "negligence" then Some negligence
  else if String.eqb s "infrastructure" then Some infrastructure
  else if String.eqb s "other" then Some other
  else None.

(** [z.string().min(n, message)] *)
Definition min_issue (p : string) (n : nat) (msg : string) (v : string) : list issue :=
  if (String.length v <? n)%nat then [ {| path := p; message := msg |} ] else [].

(** [z.string().max(n, message)] *)
Definition max_issue (p : string) (n : nat) (msg : string) (v : string) : list issue :=
  if (n <? String.length v)%nat then [ {| path := p; message := msg |} ] else [].

(** [z.enum([..])], with the message of the library. *)
Definition enum_issue (p : string) (v : string) : list issue :=
  match category_of_text v with
  | Some _ => []
  | None =>
      [ {| path := p;
           message := "Invalid enum value. Expected 'bribery' | 'misconduct' | "
                      ++ "'misuse_of_funds' | 'negligence' | 'infrastructure' | 'other', "
                      ++ "received '" ++ v ++ "'" |} ]
  end.

Definition complaintSchema_issues (f : form) : list issue :=
  (min_issue "title" 10 "Title must be at least 10 characters" (title f)
   ++ max_issue "title" 200 "Title must be less than 200 characters" (title f))
  ++ (min_issue "description" 50 "Description must be at least 50 characters"
                (description f)
      ++ max_issue "description" 5000 "Description must be less than 5000 characters"
                   (description f))
  ++ enum_issue "category" (category f)
  ++ min_issue "location" 3 "Location is required" (location f).

Record validated := {
  valid_title : string;
  valid_description : string;
  valid_category : complaint_category;
  valid_location : string
}.

(** [complaintSchema.parse(formData)]: the parsed object, or the issues of
    the [ZodError] it throws. *)
Definition complaintSchema_parse (f : form) : list issue + validated :=
  match complaintSchema_issues f, category_of_text (category f) with
  | [], Some c =>
      inr {| valid_title := title f; valid_description := description f;
             valid_category := c; valid_location := location f |}
  | issues, _ => inl issues
  end.

(** *** [handleFileChange] *)

(** The new [files] state and the toast shown, for the [FileList] of the
    input ([None] when [e.target.files] is null). *)
Definition handleFileChange (target_files : option (list file)) (files : list file)
  : list file * option string :=
  match target_files with
  | Some selectedFiles =>
      if (5 <? List.length selectedFiles + List.length files)%nat
      then (files, Some "Maximum 5 files allowed")
      else ((files ++ selectedFiles)%list, None)
  | None => (files, None)
  end.

(** The [files] state after a sequence of change events, from [files]. *)
Fixpoint after_changes (events : list (option (list file))) (files : list file)
  : list file :=
  match events with
  | [] => files
  | e :: rest => after_changes rest (fst (handleFileChange e files))
  end.

(** *** [calculateFileHash] *)

Definition calculateFileHash (f : file) : string :=
  fold_right String.append "" (map byte_hex (f_digest f)).

(** *** [handleSubmit] *)

(** What the page shows at the end of [handleSubmit]. *)
Inductive notice :=
| toast_error (message : string)
| tracking_dialog (trackingCode : string)
| toast_submitted (complaint_id : uuid).

(** [error.message || "Failed to submit complaint"] *)
Definition message_or_default (m : string) : string :=
  if String.eqb m "" then "Failed to submit complaint" else m.

(** The world after an awaited statement whose result the page does not
    look at. *)
Definition unchecked {A : Type} (o : outcome A) (w : world) : world :=
  match o with
  | Done _ w' => w'
  | Failed _ w' => w'
  | Running => w
  end.

(** The [for (const file of files)] loop: [inl] is the thrown
    [uploadError] with the world at that point, [inr] the accumulated
    [evidenceHashes]. *)
Fixpoint upload_evidence (E : environment) (who : caller) (userId : string)
         (complaint_id : uuid) (files : list file) (evidenceHashes : list string)
         (w : world) : (string * world) + (list string * world) :=
  match files with
  | [] => inr (evidenceHashes, w)
  | file :: rest =>
      let fileHash := calculateFileHash file in
      let evidenceHashes := (evidenceHashes ++ [fileHash])%list in
      let filePath := userId ++ "/" ++ uuid_text complaint_id ++ "/" ++ f_name file in
      match storage_upload E filePath w with
      | inl uploadError => inl (uploadError, w)
      | inr w1 =>
          let publicUrl := getPublicUrl filePath in
          let w2 :=
            unchecked (insert_evidence_file E who complaint_id publicUrl (f_name file)
                                            (f_type file) (f_size file) fileHash w1) w1 in
          upload_evidence E who userId complaint_id rest evidenceHashes w2
      end
  end.

Definition caller_of (session : option uuid) : caller :=
  match session with Some u => authenticated u | None => anon end.

(** The object given to [insert]: [user_id: isAnonymous ? null : user?.id],
    [urgency_score: 5], the validated fields and the coordinates of the form. *)
Definition inserted_values (session : option uuid) (isAnonymous : bool) (formData : form)
           (v : validated) : complaint_values :=
  {| v_user_id := if isAnonymous then None else session;
     v_is_anonymous := isAnonymous;
     v_title := valid_title v;
     v_description := valid_description v;
     v_category := valid_category v;
     v_location := valid_location v;
     v_latitude := latitude formData;
     v_longitude := longitude formData;
     v_urgency_score := 5 |}.

(** [const userId = isAnonymous ? "anonymous" : user?.id], as the template
    string prints it. *)
Definition path_owner (session : option uuid) (isAnonymous : bool) : string :=
  if isAnonymous then "anonymous"
  else match session with Some u => uuid_text u | None => "undefined" end.

(** The end of a complete run: the audit entry, then the dialog or the toast. *)
Definition finish (E : environment) (who : caller) (isAnonymous : bool)
           (complaint : Complaint.row) (evidenceHashes : list string) (w2 : world)
  : notice * world :=
  let w3 :=
    unchecked (update_complaints E who (Complaint.set_evidence_hashes evidenceHashes)
                                 (Complaint.id complaint) w2) w2 in
  let w4 :=
    unchecked (insert_public_log E who (Complaint.id complaint)
                                 (join "," evidenceHashes) "complaint_created" w3) w3 in
  match Complaint.tracking_code complaint with
  | Some code =>
      if isAnonymous && negb (String.eqb code "")
      then (tracking_dialog code, w4)
      else (toast_submitted (Complaint.id complaint), w4)
  | None => (toast_submitted (Complaint.id complaint), w4)
  end.

(** [handleSubmit] for the signed-in user [session] (if any) and the
    [anonymous] flag of the URL.  [None]: the insert is still inside the
    loop of the tracking-code trigger after [fuel] iterations. *)
Definition handleSubmit (fuel : nat) (E : environment) (session : option uuid)
           (isAnonymous : bool) (formData : form) (files : list file) (w : world)
  : option (notice * world) :=
  match complaintSchema_parse formData with
  | inl issues =>
      Some (toast_error (match issues with i :: _ => message i | [] => "" end), w)
  | inr v =>
      let who := caller_of session in
      match insert_complaint fuel E who (inserted_values session isAnonymous formData v)
                             true w with
      | Running => None
      | Failed complaintError w1 =>
          Some (toast_error (message_or_default (pg_message complaintError)), w1)
      | Done complaint w1 =>
          match upload_evidence E who (path_owner session isAnonymous)
                                (Complaint.id complaint) files [] w1 with
          | inl (uploadError, w2) => Some (toast_error (message_or_default uploadError), w2)
          | inr (evidenceHashes, w2) =>
              Some (finish E who isAnonymous complaint evidenceHashes w2)
          end
      end
  end.

End Submit.

(** ** The officer's page: status update and notes *)

Module Admin.
Import Text Db.

Definition status_of_text (s : string) : option complaint_status :=
  if String.eqb s "pending" then Some pending
  else if String.eqb s "in_review" then Some in_review
  else if String.eqb s "verified" then Some verified
  else if String.eqb s "resolved" then Some resolved
  else if String.eqb s "rejected" then Some rejected
  else None.

(** [handleUpdateStatus]: the toast shown and the world afterwards. *)
Definition handleUpdateStatus (E : environment) (session : option uuid)
           (selectedComplaint : option uuid) (newStatus : string) (w : world)
  : option string * world :=
  match selectedComplaint with
  | None => (None, w)
  | Some target =>
      if String.eqb newStatus "" then (None, w)
      else
        match status_of_text newStatus with
        | None => (Some "Failed to update status", w)
        | Some s =>
            match update_complaints E (Submit.caller_of session)
                                    (Complaint.set_status s) target w with
            | Done _ w' => (Some "Status updated successfully", w')
            | Failed _ w' => (Some "Failed to update status", w')
            | Running => (None, w)
            end
        end
  end.

(** [handleAddNote] *)
Definition handleAddNote (E : environment) (userId : option uuid)
           (selectedComplaint : option uuid) (newNote : string) (w : world)
  : option string * world :=
  match selectedComplaint, userId with
  | Some target, Some u =>
      if String.eqb (trim newNote) "" then (None, w)
      else
        match insert_gov_note E (authenticated u) target (Some u) (trim newNote) w with
        | Done _ w' => (Some "Note added successfully", w')
        | Failed _ w' => (Some "Failed to add note", w')
        | Running => (None, w)
        end
  | _, _ => (None, w)
  end.

End Admin.

(** ** Edge function [verify-tracking] and the Verify page *)

Module VerifyTracking.
Import Text Json Http Db.

(** The object a query returns for a row: the selected columns, in order. *)
Definition select_columns {Row : Type} (column : string -> Row -> option json)
           (names : list string) (r : Row) : list (string * json) :=
  flat_map (fun n => match column n r with Some v => [(n, v)] | None => [] end) names.

(** [String(v)], as the client library writes a filter value. *)
Fixpoint js_string (v : json) : string :=
  match v with
  | JNull => "null"
  | JBool true => "true"
  | JBool false => "false"
  | JNum z => decimal z
  | JStr s => s
  | JArr items =>
      join "," (map (fun x => match x with JNull => "" | _ => js_string x end) items)
  | JObj _ => "[object Object]"
  end.

(** SQL [column = text] on a nullable text column. *)
Definition sql_eq_text (a : option string) (b : string) : bool :=
  match a with Some x => String.eqb x b | None => false end.

(** [ORDER BY created_at DESC] (insertion sort; the order of rows with
    equal stamps is the store's). *)
Fixpoint insert_desc (n : GovNote.row) (l : list GovNote.row) : list GovNote.row :=
  match l with
  | [] => [n]
  | m :: rest =>
      if (GovNote.created_at m <=? GovNote.created_at n)%N then n :: l
      else m :: insert_desc n rest
  end.

Definition order_desc (l : list GovNote.row) : list GovNote.row :=
  fold_right insert_desc [] l.

Definition complaint_columns : list string :=
  ["id"; "title"; "description"; "category"; "status"; "location"; "latitude";
   "longitude"; "urgency_score"; "created_at"; "updated_at"; "tracking_code"].

Definition failure (code : Z) (text : string) : response :=
  {| status := code; content := error_body (message text) |}.

(** The handler of [Deno.serve].  [req_json] is what [req.json()] resolves
    to ([None]: it rejects).  The client is built with the service-role
    key, so every query bypasses row-level security, whoever calls. *)
Definition handler (method : string) (req_json : option json) (d : database)
  : response :=
  if String.eqb method "OPTIONS" then {| status := 200; content := no_body |}
  else
    match req_json with
    | None => {| status := 500; content := error_body (message_of SyntaxError) |}
    | Some JNull => {| status := 500; content := error_body (message_of TypeError) |}
    | Some v =>
        let trackingCode := match v with JObj f => lookup "trackingCode" f | _ => None end in
        match trackingCode with
        | None => failure 400 "Tracking code is required"
        | Some tc =>
            if negb (truthy trackingCode) then failure 400 "Tracking code is required"
            else
              match maybeSingle
                      (select_complaints service_role
                         (fun r => sql_eq_text (Complaint.tracking_code r) (js_string tc))
                         d) with
              | inl _ => failure 500 "Failed to fetch complaint"
              | inr None => failure 404 "Complaint not found with this tracking code"
              | inr (Some complaint) =>
                  let evidence :=
                    filter (fun e => Nat.eqb (EvidenceFile.complaint_id e)
                                             (Complaint.id complaint))
                           (evidence_files d) in
                  let notes :=
                    order_desc
                      (filter (fun n => Nat.eqb (GovNote.complaint_id n)
                                                (Complaint.id complaint))
                              (gov_notes d)) in
                  {| status := 200;
                     content :=
                       payload "complaint"
                         (JObj (select_columns Complaint.column complaint_columns complaint
                                ++ [ ("evidence",
                                      JArr (map (fun e => JObj
                                              (select_columns EvidenceFile.column
                                                 ["id"; "file_name"; "file_url";
                                                  "file_type"; "created_at"] e))
                                              evidence));
                                     ("notes",
                                      JArr (map (fun n => JObj
                                              (select_columns GovNote.column
                                                 ["id"; "note"; "created_at"] n))
                                              notes)) ])%list) |}
              end
        end
    end.

(** *** The Verify page *)

(** [/^CW-[A-Z0-9]{4}-[A-Z0-9]{4}$/i.test(s)] *)
Definition isTrackingCode (s : string) : bool := matches_tracking_pattern (upper s).

Inductive verdict :=
| nothing_entered
| not_found
| verified (data : list (string * json)).

(** [handleVerify], issued by the browser of [session]. *)
Definition handleVerify (session : option uuid) (complaintId : string) (d : database)
  : verdict :=
  let entered := trim complaintId in
  if String.eqb entered "" then nothing_entered
  else
    let who := match session with Some u => authenticated u | None => anon end in
    let rows :=
      if isTrackingCode entered
      then select_complaints who
             (fun r => sql_eq_text (Complaint.tracking_code r) (upper entered)) d
      else select_complaints who
             (fun r => String.eqb (uuid_text (Complaint.id r)) entered) d in
    match maybeSingle rows with
    | inr (Some data) =>
        verified (select_columns Complaint.column
                    ["id"; "title"; "category"; "status"; "created_at"; "location";
                     "complaint_hash"] data)
    | _ => not_found
    end.

End VerifyTracking.

(** ** Edge function [analyze-complaint] *)

Module AnalyzeComplaint.
Import Text Json Http.

(** The answer of the AI gateway to [fetch]: its status and what
    [response.json()] resolves to ([None]: the body is not JSON). *)
Record gateway_response := {
  gw_status : Z;
  gw_json : option json
}.

Definition ok (r : gateway_response) : bool :=
  (200 <=? gw_status r)%Z && (gw_status r <=? 299)%Z.

Definition fence_open : string := "```json" ++ newline.
Definition fence_close : string := newline ++ "```".

(** [content.match(/```json\n([\s\S]*?)\n```/)]: the whole match and its
    group. *)
Definition match_fenced (content : string) : option (string * string) :=
  match index 0 fence_open content with
  | Some i =>
      match index (i + 8) fence_close content with
      | Some j => Some (substring i (j + 4 - i) content,
                        substring (i + 8) (j - (i + 8)) content)
      | None => None
      end
  | None => None
  end.

(** [content.match(/\{[\s\S]*\}/)]: from the first opening brace to the
    last closing one. *)
Definition match_braces (content : string) : option string :=
  match index 0 "{" content, last_index "}" content with
  | Some i, Some j => if (i <? j)%nat then Some (substring i (j + 1 - i) content) else None
  | _, _ => None
  end.

(** [jsonMatch ? (jsonMatch[1] || jsonMatch[0]) : content] *)
Definition jsonStr (content : string) : string :=
  match match_fenced content with
  | Some (whole, group) => if String.eqb group "" then whole else group
  | None =>
      match match_braces content with
      | Some whole => whole
      | None => content
      end
  end.

(** The object built in the [catch] of the parse. *)
Definition fallback (content : string) : json :=
  JObj [ ("urgency_score", JNum 5);
         ("sentiment", JStr "neutral");
         ("key_issues", JArr [JStr "Analysis pending"]);
         ("recommended_actions", JArr [JStr "Manual review required"]);
         ("patterns", JStr "Unable to determine patterns");
         ("risk_level", JStr "medium");
         ("summary", JStr (substring 0 200 content));
         ("raw_response", JStr content) ].

Definition failure (code : Z) (text : string) : response :=
  {| status := code; content := error_body (message text) |}.

Definition raised (e : exception) : response :=
  {| status := 500; content := error_body (message_of e) |}.

Section Handler.

(** [JSON.parse]: the value of a text, [None] when it throws. *)
Variable JSON_parse : string -> option json.

(** The inner [try .. catch]: the parsed analysis, or the fallback. *)
Definition analysis_of (content : string) : json :=
  match JSON_parse (jsonStr content) with
  | Some analysis => analysis
  | None => fallback content
  end.

(** [data.choices[0].message.content] *)
Definition content_of (data : json) : exception + option json :=
  match get "choices" (Some data) with
  | inl e => inl e
  | inr choices =>
      match get0 choices with
      | inl e => inl e
      | inr first =>
          match get "message" first with
          | inl e => inl e
          | inr msg => get "content" msg
          end
      end
  end.

(** The handler of [serve].  [req_json] is what [req.json()] resolves to,
    [fetched] the answer to the one [fetch] ([None]: it rejects). *)
Definition handler (method : string) (req_json : option json)
           (LOVABLE_API_KEY : option string) (fetched : option gateway_response)
  : response :=
  if String.eqb method "OPTIONS" then {| status := 200; content := no_body |}
  else
    match req_json with
    | None => raised SyntaxError
    | Some JNull => raised TypeError
    | Some _ =>
        match LOVABLE_API_KEY with
        | None => failure 500 "LOVABLE_API_KEY is not configured"
        | Some key =>
            if String.eqb key "" then failure 500 "LOVABLE_API_KEY is not configured"
            else
              match fetched with
              | None => raised NetworkError
              | Some response =>
                  if negb (ok response) then
                    if (gw_status response =? 429)%Z then
                      failure 429 "Rate limit exceeded. Please try again later."
                    else if (gw_status response =? 402)%Z then
                      failure 402 "Payment required. Please add credits to continue."
                    else
                      failure 500 ("AI Gateway error: " ++ decimal (gw_status response))
                  else
                    match gw_json response with
                    | None => raised SyntaxError
                    | Some data =>
                        match content_of data with
                        | inl e => raised e
                        | inr (Some (JStr content)) =>
                            {| status := 200;
                               content := payload "analysis" (analysis_of content) |}
                        | inr _ => raised TypeError
                        end
                    end
              end
        end
    end.

End Handler.

End AnalyzeComplaint.

(** ** Vocabulary of the properties *)

Module Props.
Import Text TrackingCode Json Db Submit.

(** The text [CW-a1a2a3a4-b1b2b3b4]. *)
Definition cw_string (a1 a2 a3 a4 b1 b2 b3 b4 : ascii) : string :=
  String "C" (String "W" (String "-" (String a1 (String a2 (String a3 (String a4
    (String "-" (String b1 (String b2 (String b3 (String b4 "")))))))))))%char.


(** The non-null tracking codes of the table, in row order. *)
Definition assigned_codes (d : database) : list string :=
  flat_map (fun r => match Complaint.tracking_code r with Some c => [c] | None => [] end)
           (complaints d).

(** No two rows share a non-null tracking code. *)
Definition unique_tracking_codes (d : database) : Prop := NoDup (assigned_codes d).

(** A row as far as its identity and its tracking code go. *)
Definition code_of_row (r : Complaint.row) : uuid * option string :=
  (Complaint.id r, Complaint.tracking_code r).

(** The non-null code of such a pair, as a list. *)
Definition code_of_key (k : uuid * option string) : list string :=
  match snd k with Some c => [c] | None => [] end.

(** The operations of the application that write to the backend. *)
Inductive operation :=
| submit (session : option uuid) (isAnonymous : bool) (formData : form)
         (files : list file)
| update_status (session : option uuid) (selectedComplaint : option uuid)
                (newStatus : string)
| add_note (userId : option uuid) (selectedComplaint : option uuid) (newNote : string).

Definition run_operation (fuel : nat) (E : environment) (op : operation) (w : world)
  : option world :=
  match op with
  | submit session isAnonymous formData files =>
      option_map snd (handleSubmit fuel E session isAnonymous formData files w)
  | update_status session selected newStatus =>
      Some (snd (Admin.handleUpdateStatus E session selected newStatus w))
  | add_note userId selected newNote =>
      Some (snd (Admin.handleAddNote E userId selected newNote w))
  end.

Fixpoint run (fuel : nat) (E : environment) (ops : list operation) (w : world)
  : option world :=
  match ops with
  | [] => Some w
  | op :: rest =>
      match run_operation fuel E op w with
      | Some w' => run fuel E rest w'
      | None => None
      end
  end.

(** A form that breaks a constraint of the Create operation. *)
Definition violates_constraints (f : form) : Prop :=
  (String.length (title f) < 10)%nat \/ (200 < String.length (title f))%nat
  \/ (String.length (description f) < 50)%nat
  \/ (5000 < String.length (description f))%nat
  \/ category_of_text (category f) = None
  \/ (String.length (location f) < 3)%nat.

(** The evidence rows that reference a complaint. *)
Definition evidence_of (d : database) (cid : uuid) : list EvidenceFile.row :=
  filter (fun e => Nat.eqb (EvidenceFile.complaint_id e) cid) (evidence_files d).

(** The audit entries of a complaint with a given action. *)
Definition logs_of (d : database) (cid : uuid) (action : string) : list PublicLog.row :=
  filter (fun l => Nat.eqb (PublicLog.complaint_id l) cid
                   && String.eqb (PublicLog.action l) action)
         (public_logs d).

(** Foreign key of [evidence_files]: every evidence row refers to a
    complaint of the table. *)
Definition evidence_refers_to_complaints (d : database) : Prop :=
  forall e, In e (evidence_files d) ->
            complaint_exists d (EvidenceFile.complaint_id e) = true.

(** The world a loop over the files ends in, thrown or not. *)
Definition world_of (res : (string * world) + (list string * world)) : world :=
  match res with inl (_, w) => w | inr (_, w) => w end.

End Props.

(** ** Concrete inputs *)

Module Examples.
Import Text TrackingCode Json Db Submit.

(** An environment: the [k]-th digest starts with the digits of [k / 4]
    (so that the first two candidates coincide), identifiers count from
    100, the clock ticks once per statement, the object store refuses
    nothing by itself. *)
Definition env : environment :=
  {| rand_md5 := fun k => (N.of_nat (k / 4) * 16 ^ 28)%N;
     gen_random_uuid := fun k => (100 + k)%nat;
     now := fun k => N.of_nat k;
     upload_fault := fun _ => None |}.


Definition good_form : form :=
  {| title := "Bribe at the land office";
     description := "An officer asked for money to process my application form.";
     category := "bribery";
     location := "Pune";
     latitude := None;
     longitude := None |}.

Definition short_title_form : form :=
  {| title := "Bribe";
     description := "An officer asked for money to process my application form.";
     category := "bribery";
     location := "Pune";
     latitude := None;
     longitude := None |}.

Definition photo : file :=
  {| f_name := "photo.png"; f_type := "image/png"; f_size := 2048;
     f_digest := [Byte.x0a; Byte.xff] |}.

Definition receipt : file :=
  {| f_name := "receipt.pdf"; f_type := "application/pdf"; f_size := 4096;
     f_digest := [Byte.x01; Byte.x02] |}.

Definition video : file :=
  {| f_name := "video.mp4"; f_type := "video/mp4"; f_size := 1048576;
     f_digest := [Byte.x10; Byte.x20] |}.

Definition audio : file :=
  {| f_name := "call.mp3"; f_type := "audio/mpeg"; f_size := 65536;
     f_digest := [Byte.x30; Byte.x40] |}.

Definition letter : file :=
  {| f_name := "letter.pdf"; f_type := "application/pdf"; f_size := 1024;
     f_digest := [Byte.x50; Byte.x60] |}.

Definition scan : file :=
  {| f_name := "scan.png"; f_type := "image/png"; f_size := 512;
     f_digest := [Byte.x70; Byte.x80] |}.

(** A complaint of user 1, not anonymous. *)
Definition owned_complaint : Complaint.row :=
  {| Complaint.id := 100;
     Complaint.user_id := Some 1%nat;
     Complaint.is_anonymous := false;
     Complaint.title := "Bribe at the land office";
     Complaint.description :=
       "An officer asked for money to process my application form.";
     Complaint.category := bribery;
     Complaint.urgency_score := 5;
     Complaint.status := pending;
     Complaint.location := "Pune";
     Complaint.latitude := None;
     Complaint.longitude := None;
     Complaint.ai_metadata := "{}";
     Complaint.evidence_hashes := [];
     Complaint.complaint_hash := None;
     Complaint.created_at := 0;
     Complaint.updated_at := 0;
     Complaint.tracking_code := None |}.

(** Users 1 and 2 are citizens, user 3 is a government officer; no
    complaint yet. *)
Definition registered : database :=
  {| complaints := [];
     evidence_files := [];
     public_logs := [];
     gov_notes := [];
     user_roles := [(1%nat, citizen); (2%nat, citizen); (3%nat, government)] |}.

(** The same users; the table holds the complaint of user 1. *)
Definition citizens_database : database :=
  with_complaints [owned_complaint] registered.

(** An anonymous complaint with its tracking code, one evidence file and a
    note of officer 3. *)
Definition anonymous_complaint : Complaint.row :=
  {| Complaint.id := 101;
     Complaint.user_id := None;
     Complaint.is_anonymous := true;
     Complaint.title := "Kickback for a road contract";
     Complaint.description :=
       "The contractor told us that a share of every payment goes to the engineer.";
     Complaint.category := misuse_of_funds;
     Complaint.urgency_score := 5;
     Complaint.status := in_review;
     Complaint.location := "Nashik";
     Complaint.latitude := None;
     Complaint.longitude := None;
     Complaint.ai_metadata := "{}";
     Complaint.evidence_hashes := [];
     Complaint.complaint_hash := None;
     Complaint.created_at := 1;
     Complaint.updated_at := 4;
     Complaint.tracking_code := Some "CW-0000-0000" |}.

Definition mixed_database : database :=
  {| complaints := [owned_complaint; anonymous_complaint];
     evidence_files :=
       [ {| EvidenceFile.id := 102;
            EvidenceFile.complaint_id := 101;
            EvidenceFile.file_url :=
              "/storage/v1/object/public/evidence/anonymous/101/photo.png";
            EvidenceFile.file_name := "photo.png";
            EvidenceFile.file_type := "image/png";
            EvidenceFile.file_size := 2048;
            EvidenceFile.file_hash := "0aff";
            EvidenceFile.created_at := 2 |} ];
     public_logs := [];
     gov_notes :=
       [ {| GovNote.id := 103;
            GovNote.complaint_id := 101;
            GovNote.official_id := Some 3%nat;
            GovNote.note := "Forwarded to the vigilance cell.";
            GovNote.created_at := 3 |} ];
     user_roles := [(1%nat, citizen); (2%nat, citizen); (3%nat, government)] |}.

End Examples.
From Stdlib Require Import DecimalNat Permutation.


(** ** Further vocabulary *)

Module Reading.
Import Text Json Db Submit.

(** The database with every trace of who owns a complaint and who wrote a
    note removed: [user_id] and [official_id] are null, no role is granted. *)
Definition without_owner (r : Complaint.row) : Complaint.row :=
  {| Complaint.id := Complaint.id r; Complaint.user_id := None;
     Complaint.is_anonymous := Complaint.is_anonymous r;
     Complaint.title := Complaint.title r;
     Complaint.description := Complaint.description r;
     Complaint.category := Complaint.category r;
     Complaint.urgency_score := Complaint.urgency_score r;
     Complaint.status := Complaint.status r;
     Complaint.location := Complaint.location r;
     Complaint.latitude := Complaint.latitude r;
     Complaint.longitude := Complaint.longitude r;
     Complaint.ai_metadata := Complaint.ai_metadata r;
     Complaint.evidence_hashes := Complaint.evidence_hashes r;
     Complaint.complaint_hash := Complaint.complaint_hash r;
     Complaint.created_at := Complaint.created_at r;
     Complaint.updated_at := Complaint.updated_at r;
     Complaint.tracking_code := Complaint.tracking_code r |}.

Definition without_official (n : GovNote.row) : GovNote.row :=
  {| GovNote.id := GovNote.id n; GovNote.complaint_id := GovNote.complaint_id n;
     GovNote.official_id := None; GovNote.note := GovNote.note n;
     GovNote.created_at := GovNote.created_at n |}.

Definition without_identities (d : database) : database :=
  {| complaints := map without_owner (complaints d);
     evidence_files := evidence_files d;
     public_logs := public_logs d;
     gov_notes := map without_official (gov_notes d);
     user_roles := [] |}.

(** The evidence row [handleSubmit] writes for a file of a complaint, up to
    its identifier and its stamp. *)
Definition evidence_row_of (owner : string) (cid : uuid) (f : file)
           (e : EvidenceFile.row) : Prop :=
  EvidenceFile.complaint_id e = cid
  /\ EvidenceFile.file_name e = f_name f
  /\ EvidenceFile.file_type e = f_type f
  /\ EvidenceFile.file_size e = f_size f
  /\ EvidenceFile.file_hash e = calculateFileHash f
  /\ EvidenceFile.file_url e
     = getPublicUrl (owner ++ "/" ++ uuid_text cid ++ "/" ++ f_name f).


(** The value of a lowercase hexadecimal digit. *)
Definition nibble_value (c : ascii) : N :=
  let n := N.of_nat (nat_of_ascii c) in
  if (n <? 58)%N then (n - 48)%N else (n - 87)%N.

(** The first four hexadecimal digits of a digest, as a number. *)
Definition leading_digits (d : N) : N := ((d / 16 ^ 28) mod 16 ^ 4)%N.

(** No two rows of [complaints] share their identifier (primary key). *)
Definition unique_ids (d : database) : Prop := NoDup (map Complaint.id (complaints d)).

End Reading.

Module Decoding.
Import Text Reading.

(** The bytes that a text of lowercase hexadecimal digits spells, two digits
    a byte. *)
Fixpoint digest_of_hex (s : string) : list Byte.byte :=
  match s with
  | String a (String b rest) =>
      match Byte.of_N (16 * nibble_value a + nibble_value b) with
      | Some x => x :: digest_of_hex rest
      | None => []
      end
  | _ => []
  end.

End Decoding.

(** ** Registration *)

Module Registration.
Import Text Db.

(** [public.profiles] *)
Module Profile.
Record row := {
  id : uuid;
  name : option string;
  email : option string;
  phone : option string;
  created_at : N;
  updated_at : N
}.
End Profile.

(** What the trigger reads of the new row of [auth.users]: [NEW.id],
    [NEW.raw_user_meta_data->>'name'] and [NEW.email]. *)
Record new_user := {
  new_id : uuid;
  meta_name : option string;
  new_email : option string
}.

(** The tables the trigger writes: [profiles], and [user_roles] inside the
    database. *)
Record accounts := {
  profiles : list Profile.row;
  tables : database
}.

Definition with_user_roles (l : list (uuid * app_role)) (d : database) : database :=
  {| complaints := complaints d; evidence_files := evidence_files d;
     public_logs := public_logs d; gov_notes := gov_notes d; user_roles := l |}.

(** The policies of [user_roles]; a row is its [user_id] and its [role]. *)
Definition user_roles_policies : list (policy (uuid * app_role)) :=
  [ {| policy_name := "Users can view own roles";
       policy_cmd := SELECT; policy_to := to_authenticated;
       policy_expr := fun d who r => sql_eq_uuid (auth_uid who) (Some (fst r)) |};
    {| policy_name := "Admins can view all roles";
       policy_cmd := SELECT; policy_to := to_authenticated;
       policy_expr := fun d who r => has_role d (auth_uid who) admin |};
    {| policy_name := "Admins can insert roles";
       policy_cmd := INSERT; policy_to := to_authenticated;
       policy_expr := fun d who r => has_role d (auth_uid who) admin |} ].

(** Trigger [on_auth_user_created] (AFTER INSERT ON auth.users), function
    [handle_new_user]: a profile and the role [citizen] for the new user.
    [t] is [NOW()], the default of both stamps of the profile.  The function
    is SECURITY DEFINER; an error aborts the registration and leaves the
    tables as they were. *)
Definition handle_new_user (t : N) (NEW : new_user) (a : accounts)
  : pg_error + accounts :=
  if existsb (fun p => Nat.eqb (Profile.id p) (new_id NEW)) (profiles a)
  then inl (unique_violation "profiles_pkey")
  else if has_role (tables a) (Some (new_id NEW)) citizen
  then inl (unique_violation "user_roles_user_id_role_key")
  else
    inr {| profiles :=
             (profiles a
              ++ [ {| Profile.id := new_id NEW;
                      Profile.name := meta_name NEW;
                      Profile.email := new_email NEW;
                      Profile.phone := None;
                      Profile.created_at := t;
                      Profile.updated_at := t |} ])%list;
           tables :=
             with_user_roles (user_roles (tables a) ++ [(new_id NEW, citizen)])%list
                             (tables a) |}.

End Registration.

(** ** The officer page and the analytics page *)

(** [String.prototype.includes] *)
Module Page.
Import Text Json Http Db.

Definition includes (needle s : string) : bool :=
  match index 0 needle s with Some _ => true | None => false end.

(** [Array.prototype.includes] for a text. *)
Definition array_includes (needle : string) (items : list json) : bool :=
  existsb (fun v => match v with JStr s => String.eqb s needle | _ => false end) items.

(** A toast and the value it is given. *)
Inductive toast :=
| toast_error (message : json)
| toast_success (message : string)
| toast_info (message : string).

(** The change a realtime subscription delivers: [payload.eventType] with
    [payload.new] and, of [payload.old], the fields the pages read
    ([status] is undefined when the publication sends the key only). *)
Inductive postgres_change :=
| INSERT_event (new : Complaint.row)
| UPDATE_event (old_id : uuid) (new : Complaint.row)
| DELETE_event (old_id : uuid) (old_status : option complaint_status).

(** [c.status === text] *)
Definition status_is (text : string) (s : complaint_status) : bool :=
  String.eqb (status_text s) text.

End Page.

Module GovPortal.
Import Text Json Http Db Page.

(** *** The calls of the AI functions *)

Section Invoke.

(** The text of [error.message] for an exception of the engine. *)
Variable engine_message : exception -> string.

Definition error_text (m : error_message) : string :=
  match m with
  | message text => text
  | message_of e => engine_message e
  end.

(** What [functions.invoke] reads a body as: JSON under the JSON content
    type, the empty text for a response without a body. *)
Definition data_of (b : body) : json :=
  match b with
  | no_body => JStr ""
  | error_body m => JObj [("error", JStr (error_text m))]
  | payload name value => JObj [(name, value)]
  end.

(** [supabase.functions.invoke]: [{ data, error }].  [answer] is the
    response of the function, [None] when the request fails; [error] is set
    then and for every status outside 200..299. *)
Definition invoke (answer : option response) : option json :=
  match answer with
  | Some r =>
      if (200 <=? status r)%Z && (status r <=? 299)%Z
      then Some (data_of (content r))
      else None
  | None => None
  end.

(** The end of [handleAnalyzeWithAI]: nothing when no complaint is
    selected; otherwise the toast, and the value given to [setAiAnalysis]
    when it is called ([None] inside: [undefined]). *)
Inductive analysis_end :=
| not_started
| ended (aiAnalysis : option (option json)) (shown : toast).

Definition handleAnalyzeWithAI (selectedComplaint : option Complaint.row)
           (analyze_complaint : json -> option response) : analysis_end :=
  match selectedComplaint with
  | None => not_started
  | Some c =>
      let body :=
        JObj [ ("title", JStr (Complaint.title c));
               ("description", JStr (Complaint.description c));
               ("category", JStr (category_text (Complaint.category c)));
               ("location", JStr (Complaint.location c)) ] in
      let failed := ended None (toast_error (JStr "Failed to analyze complaint")) in
      match invoke (analyze_complaint body) with
      | None => failed
      | Some data =>
          match get "error" (Some data) with
          | inl _ => failed
          | inr e =>
              if truthy e then
                match e with
                | Some (JStr s) =>
                    if includes "Rate limit" s then
                      ended None (toast_error
                                    (JStr "AI rate limit reached. Please try again later."))
                    else if includes "Payment" s then
                      ended None (toast_error
                                    (JStr "AI credits depleted. Please add credits to continue."))
                    else ended None (toast_error (JStr s))
                | Some (JArr items) =>
                    if array_includes "Rate limit" items then
                      ended None (toast_error
                                    (JStr "AI rate limit reached. Please try again later."))
                    else if array_includes "Payment" items then
                      ended None (toast_error
                                    (JStr "AI credits depleted. Please add credits to continue."))
                    else ended None (toast_error (JArr items))
                | _ => failed
                end
              else
                match get "analysis" (Some data) with
                | inl _ => failed
                | inr analysis => ended (Some analysis) (toast_success "AI analysis completed")
                end
          end
      end
  end.

End Invoke.

(** *** The counters *)

Module Stats.
Record t := { total : Z; pending : Z; in_review : Z; resolved : Z }.
End Stats.

(** [data.filter(c => c.status === text).length] *)
Definition count_status (text : string) (data : list Complaint.row) : Z :=
  Z.of_nat (List.length (filter (fun c => status_is text (Complaint.status c)) data)).

(** The state of the page that the subscription touches. *)
Record state := {
  stats : Stats.t;
  complaints : list Complaint.row;
  selectedComplaint : option Complaint.row
}.

(** The [setStats] of [fetchComplaints]. *)
Definition stats_of (complaintsData : list Complaint.row) : Stats.t :=
  {| Stats.total := Z.of_nat (List.length complaintsData);
     Stats.pending := count_status "pending" complaintsData;
     Stats.in_review := count_status "in_review" complaintsData;
     Stats.resolved := count_status "resolved" complaintsData |}.

(** [fetchComplaints] with the rows the query returns. *)
Definition fetchComplaints (complaintsData : list Complaint.row) (st : state) : state :=
  {| stats := stats_of complaintsData;
     complaints := complaintsData;
     selectedComplaint := selectedComplaint st |}.

Definition step (b : bool) (n : Z) (by_ : Z) : Z := if b then (n + by_)%Z else n.

(** The callback of the subscription.  [seen] and [selected] are the
    [complaints] and the [selectedComplaint] of the render that subscribed,
    [st] is the state the updater functions receive. *)
Definition on_change (seen : list Complaint.row) (selected : option Complaint.row)
           (payload : postgres_change) (st : state) : state * option toast :=
  let prev := stats st in
  match payload with
  | INSERT_event new =>
      ({| stats :=
            {| Stats.total := (Stats.total prev + 1)%Z;
               Stats.pending :=
                 step (status_is "pending" (Complaint.status new)) (Stats.pending prev) 1;
               Stats.in_review :=
                 step (status_is "in_review" (Complaint.status new))
                      (Stats.in_review prev) 1;
               Stats.resolved :=
                 step (status_is "resolved" (Complaint.status new))
                      (Stats.resolved prev) 1 |};
          complaints := new :: complaints st;
          selectedComplaint := selectedComplaint st |},
       Some (toast_info "New complaint received"))
  | UPDATE_event old_id newComplaint =>
      let oldComplaint := find (fun c => Nat.eqb (Complaint.id c) old_id) seen in
      let changed :=
        match oldComplaint with
        | Some o =>
            negb (String.eqb (status_text (Complaint.status o))
                             (status_text (Complaint.status newComplaint)))
        | None => false
        end in
      let old_is text :=
        match oldComplaint with
        | Some o => status_is text (Complaint.status o)
        | None => false
        end in
      let moved text n :=
        step (status_is text (Complaint.status newComplaint))
             (step (old_is text) n (-1)) 1 in
      ({| stats :=
            if changed then
              {| Stats.total := Stats.total prev;
                 Stats.pending := moved "pending" (Stats.pending prev);
                 Stats.in_review := moved "in_review" (Stats.in_review prev);
                 Stats.resolved := moved "resolved" (Stats.resolved prev) |}
            else prev;
          complaints :=
            map (fun c => if Nat.eqb (Complaint.id c) (Complaint.id newComplaint)
                          then newComplaint else c) (complaints st);
          selectedComplaint :=
            match selected with
            | Some s =>
                if Nat.eqb (Complaint.id s) (Complaint.id newComplaint)
                then Some newComplaint else selectedComplaint st
            | None => selectedComplaint st
            end |},
       None)
  | DELETE_event old_id old_status =>
      let was text :=
        match old_status with
        | Some s => status_is text s
        | None => false
        end in
      ({| stats :=
            {| Stats.total := (Stats.total prev - 1)%Z;
               Stats.pending := step (was "pending") (Stats.pending prev) (-1);
               Stats.in_review := step (was "in_review") (Stats.in_review prev) (-1);
               Stats.resolved := step (was "resolved") (Stats.resolved prev) (-1) |};
          complaints :=
            filter (fun c => negb (Nat.eqb (Complaint.id c) old_id)) (complaints st);
          selectedComplaint :=
            match selected with
            | Some s =>
                if Nat.eqb (Complaint.id s) old_id then None else selectedComplaint st
            | None => selectedComplaint st
            end |},
       None)
  end.

(** The counters say what the list holds. *)
Definition counted (st : state) : Prop := stats st = stats_of (complaints st).

End GovPortal.

Module Analytics.
Import Text Json Db Page.

(** The callback of the subscription: the new [complaints] state. *)
Definition on_change (payload : postgres_change) (prev : list Complaint.row) : list Complaint.row :=
  match payload with
  | INSERT_event new => new :: prev
  | UPDATE_event _ new =>
      map (fun c => if Nat.eqb (Complaint.id c) (Complaint.id new) then new else c) prev
  | DELETE_event old_id _ =>
      filter (fun c => negb (Nat.eqb (Complaint.id c) old_id)) prev
  end.

(** [acc[key] = (acc[key] || 0) + 1] on an object, whose keys keep the
    order of their first assignment. *)
Fixpoint bump (key : string) (acc : list (string * Z)) : list (string * Z) :=
  match acc with
  | [] => [(key, (0 + 1)%Z)]
  | (k, n) :: rest =>
      if String.eqb k key
      then (k, ((if (n =? 0)%Z then 0 else n) + 1)%Z) :: rest
      else (k, n) :: bump key rest
  end.

(** [complaints.reduce((acc, complaint) => { .. }, {})] *)
Definition tally (key : Complaint.row -> string) (complaints : list Complaint.row)
  : list (string * Z) :=
  fold_left (fun acc complaint => bump (key complaint) acc) complaints [].

(** [s.replace('_', ' ')]: the first underscore only. *)
Fixpoint replace_underscore (s : string) : string :=
  match s with
  | EmptyString => EmptyString
  | String c r =>
      if Ascii.eqb c "_" then String " " r else String c (replace_underscore r)
  end.

(** [name.charAt(0).toUpperCase()] and [name.slice(1)] *)
Definition initial (name : string) : string :=
  match name with
  | EmptyString => EmptyString
  | String c _ => String (upper_char c) EmptyString
  end.

Definition slice_1 (name : string) : string :=
  match name with
  | EmptyString => EmptyString
  | String _ r => r
  end.

Definition categoryData (complaints : list Complaint.row) : list (string * Z) :=
  tally (fun c => replace_underscore (category_text (Complaint.category c))) complaints.

Definition statusData (complaints : list Complaint.row) : list (string * Z) :=
  tally (fun c => status_text (Complaint.status c)) complaints.

Definition chartCategoryData (complaints : list Complaint.row) : list (string * Z) :=
  map (fun e => (initial (fst e) ++ slice_1 (fst e), snd e)) (categoryData complaints).

Definition chartStatusData (complaints : list Complaint.row) : list (string * Z) :=
  map (fun e => (initial (fst e) ++ replace_underscore (slice_1 (fst e)), snd e))
      (statusData complaints).

(** The count under a key, [0] for a key the object does not have. *)
Definition count_of (key : string) (acc : list (string * Z)) : Z :=
  match find (fun e => String.eqb (fst e) key) acc with
  | Some e => snd e
  | None => 0%Z
  end.

Definition sum (l : list Z) : Z := fold_right Z.add 0%Z l.

End Analytics.

(** ** Edge function [generate-response] *)

Module GenerateResponse.
Import Text Json Http AnalyzeComplaint.

(** The body of an answer: nothing, [{ error }], or [JSON.stringify(result)]. *)
Inductive body :=
| no_body
| error_body (error : error_message)
| json_body (result : json).

Record response := { status : Z; content : body }.

Definition failure (code : Z) (text : string) : response :=
  {| status := code; content := error_body (message text) |}.

Definition raised (e : exception) : response :=
  {| status := 500; content := error_body (message_of e) |}.

(** [`${v}`] throws for a value read from JSON: an object with a member
    [toString] (no member of such an object is a function), or an array
    that holds such a value. *)
Fixpoint to_string_throws (v : json) : bool :=
  match v with
  | JObj fields => existsb (fun kv => String.eqb (fst kv) "toString") fields
  | JArr items => existsb to_string_throws items
  | _ => false
  end.

(** The prompt reads [complaint.title], [.category], [.status] and
    [.description] into a template. *)
Definition prompt_throws (complaint : option json) : bool :=
  match get "title" complaint with
  | inl _ => true
  | inr _ =>
      existsb (fun key => match get key complaint with
                          | inr (Some v) => to_string_throws v
                          | _ => false
                          end)
              ["title"; "category"; "status"; "description"]
  end.

(** [action === name] *)
Definition is_action (name : string) (action : option json) : bool :=
  match action with
  | Some (JStr s) => String.eqb s name
  | _ => false
  end.

(** A member of the request as the destructuring reads it. *)
Definition member (key : string) (req : json) : option json :=
  match req with
  | JObj fields => lookup key fields
  | _ => None
  end.

(** [{ suggested_status: 'in_review', reason: content }], as it is written
    out: an undefined reason is left out. *)
Definition fallback (content : option json) : json :=
  JObj (("suggested_status", JStr "in_review")
        :: match content with Some v => [("reason", v)] | None => [] end).

(** [{ text: content }] *)
Definition text_of (content : option json) : json :=
  JObj (match content with Some v => [("text", v)] | None => [] end).

Section Handler.

(** [JSON.parse]: the value of a text, [None] when it throws. *)
Variable JSON_parse : string -> option json.

(** The inner [try .. catch] for [suggest_status]. *)
Definition suggestion_of (content : option json) : json :=
  match content with
  | Some (JStr text) =>
      match JSON_parse (jsonStr text) with
      | Some result => result
      | None => fallback content
      end
  | _ => fallback content
  end.

(** The handler of [serve]; the parameters are those of
    [AnalyzeComplaint.handler]. *)
Definition handler (method : string) (req_json : option json)
           (LOVABLE_API_KEY : option string) (fetched : option gateway_response)
  : response :=
  if String.eqb method "OPTIONS" then {| status := 200; content := no_body |}
  else
    match req_json with
    | None => raised SyntaxError
    | Some JNull => raised TypeError
    | Some req =>
        let complaint := member "complaint" req in
        let action := member "action" req in
        match LOVABLE_API_KEY with
        | None => failure 500 "LOVABLE_API_KEY is not configured"
        | Some key =>
            if String.eqb key "" then failure 500 "LOVABLE_API_KEY is not configured"
            else if (is_action "draft_note" action || is_action "suggest_status" action)
                    && prompt_throws complaint
            then raised TypeError
            else
              match fetched with
              | None => raised NetworkError
              | Some response =>
                  if negb (ok response) then
                    if (gw_status response =? 429)%Z then
                      failure 429 "Rate limit exceeded. Please try again later."
                    else if (gw_status response =? 402)%Z then
                      failure 402 "Payment required. Please add credits to continue."
                    else
                      failure 500 ("AI Gateway error: " ++ decimal (gw_status response))
                  else
                    match gw_json response with
                    | None => raised SyntaxError
                    | Some data =>
                        match content_of data with
                        | inl e => raised e
                        | inr content =>
                            {| status := 200;
                               content :=
                                 json_body (if is_action "suggest_status" action
                                            then suggestion_of content
                                            else text_of content) |}
                        end
                    end
              end
        end
    end.

End Handler.

End GenerateResponse.

(** * Properties *)


(** ** The tracking-code generator *)

Section TrackingCodeFacts.
Import Text TrackingCode Props.

Lemma nibble_char_hex : forall n, is_upper_hex (upper_char (nibble_char n)) = true.
Proof.
  intros [|p]; [reflexivity|].
  do 4 (try destruct p as [p|p|]); reflexivity.
Qed.

Lemma upper_hex_is_alnum : forall c, is_upper_hex c = true -> is_upper_alnum c = true.
Proof.
  intros c. unfold is_upper_hex, is_upper_alnum.
  rewrite !orb_true_iff, !andb_true_iff, !Nat.leb_le. lia.
Qed.

Lemma candidate_shape : forall d1 d2,
  candidate d1 d2 =
  cw_string (upper_char (nibble_char ((d1 / 16 ^ 31) mod 16)%N))
            (upper_char (nibble_char ((d1 / 16 ^ 30) mod 16)%N))
            (upper_char (nibble_char ((d1 / 16 ^ 29) mod 16)%N))
            (upper_char (nibble_char ((d1 / 16 ^ 28) mod 16)%N))
            (upper_char (nibble_char ((d2 / 16 ^ 31) mod 16)%N))
            (upper_char (nibble_char ((d2 / 16 ^ 30) mod 16)%N))
            (upper_char (nibble_char ((d2 / 16 ^ 29) mod 16)%N))
            (upper_char (nibble_char ((d2 / 16 ^ 28) mod 16)%N)).
Proof. intros. reflexivity. Qed.

Lemma cw_format_cw_string : forall cls a1 a2 a3 a4 b1 b2 b3 b4,
  cls a1 = true -> cls a2 = true -> cls a3 = true -> cls a4 = true ->
  cls b1 = true -> cls b2 = true -> cls b3 = true -> cls b4 = true ->
  cw_format cls (cw_string a1 a2 a3 a4 b1 b2 b3 b4) = true.
Proof.
  intros cls a1 a2 a3 a4 b1 b2 b3 b4 H1 H2 H3 H4 H5 H6 H7 H8.
  unfold cw_format, cw_string. cbn.
  rewrite H1, H2, H3, H4, H5, H6, H7, H8. reflexivity.
Qed.

Lemma cw_format_inv : forall cls s, cw_format cls s = true ->
  exists a1 a2 a3 a4 b1 b2 b3 b4,
    s = cw_string a1 a2 a3 a4 b1 b2 b3 b4
    /\ (cls a1 = true /\ cls a2 = true /\ cls a3 = true /\ cls a4 = true)
    /\ (cls b1 = true /\ cls b2 = true /\ cls b3 = true /\ cls b4 = true).
Proof.
  intros cls s H. unfold cw_format in H.
  repeat (apply andb_true_iff in H; destruct H as [H ?]).
  apply Nat.eqb_eq in H.
  do 12 (destruct s as [|? s]; [discriminate H|]).
  destruct s; [|discriminate H].
  cbn in *.
  repeat match goal with
         | h : (_ && _)%bool = true |- _ => apply andb_true_iff in h; destruct h
         end.
  repeat match goal with
         | h : (if Ascii.eqb ?a ?b then _ else _) = true |- _ =>
             destruct (Ascii.eqb_spec a b); [subst|discriminate h]
         end.
  do 8 eexists. split; [reflexivity|]. tauto.
Qed.

(** Every candidate has the hexadecimal format, hence the format
    [CW-[A-Z0-9]{4}-[A-Z0-9]{4}]. *)
Lemma candidate_is_hex : forall d1 d2, is_hex_tracking_code (candidate d1 d2) = true.
Proof.
  intros. rewrite candidate_shape.
  apply cw_format_cw_string; apply nibble_char_hex.
Qed.

Lemma candidate_matches_pattern : forall d1 d2,
  matches_tracking_pattern (candidate d1 d2) = true.
Proof.
  intros. rewrite candidate_shape.
  apply cw_format_cw_string; apply upper_hex_is_alnum, nibble_char_hex.
Qed.

Lemma candidate_nonempty : forall d1 d2, candidate d1 d2 <> "".
Proof. intros. rewrite candidate_shape. discriminate. Qed.





Lemma nth_candidate_0 : forall rand pos,
  nth_candidate rand pos 0 = candidate (rand pos) (rand (S pos)).
Proof.
  intros. unfold nth_candidate. rewrite Nat.mul_0_r, Nat.add_0_r. reflexivity.
Qed.

Lemma nth_candidate_S : forall rand pos k,
  nth_candidate rand pos (S k) = nth_candidate rand (S (S pos)) k.
Proof.
  intros. unfold nth_candidate.
  replace (pos + 2 * S k)%nat with (S (S pos) + 2 * k)%nat by lia. reflexivity.
Qed.

(** What the loop returns: the first candidate that the table does not
    hold, after as many collisions as there were candidates before it. *)
Lemma generate_tracking_code_returns : forall column rand fuel pos code pos',
  generate_tracking_code fuel rand pos column = Some (code, pos') ->
  exists k, (k < fuel)%nat
            /\ code = nth_candidate rand pos k
            /\ pos' = (pos + 2 * S k)%nat
            /\ code_exists column code = false
            /\ forall j, (j < k)%nat ->
                         code_exists column (nth_candidate rand pos j) = true.
Proof.
  intros column rand fuel.
  induction fuel as [|fuel IH]; intros pos code pos' H; [discriminate H|].
  cbn [generate_tracking_code] in H.
  destruct (code_exists column (candidate (rand pos) (rand (S pos)))) eqn:Hx;
    cbn [negb] in H.
  - destruct (IH _ _ _ H) as (k & Hk & Hc & Hp & Hf & Hb).
    exists (S k). rewrite nth_candidate_S.
    repeat split; try assumption; try lia.
    intros [|j] Hj.
    + rewrite nth_candidate_0. exact Hx.
    + rewrite nth_candidate_S. apply Hb. lia.
  - injection H as <- <-. exists 0%nat. rewrite nth_candidate_0.
    repeat split; try assumption; try lia.
Qed.

(** The loop leaves as soon as a drawn candidate is free, however late. *)
Lemma generate_tracking_code_terminates : forall column rand k pos fuel,
  code_exists column (nth_candidate rand pos k) = false ->
  (k < fuel)%nat ->
  exists code pos', generate_tracking_code fuel rand pos column = Some (code, pos').
Proof.
  intros column rand k.
  induction k as [|k IH]; intros pos fuel Hfree Hlt;
    (destruct fuel as [|fuel]; [lia|]); cbn [generate_tracking_code].
  - rewrite nth_candidate_0 in Hfree. rewrite Hfree. cbn. eauto.
  - destruct (code_exists column (candidate (rand pos) (rand (S pos)))); cbn [negb].
    + apply (IH (S (S pos))); [| lia]. rewrite <- nth_candidate_S. exact Hfree.
    + eauto.
Qed.


End TrackingCodeFacts.

Section TrackingCodeLoop.
Import Text TrackingCode Props.



End TrackingCodeLoop.

(** ** Statements of the database *)

Section Statements.
Import Text TrackingCode Db Props.

Lemma set_tracking_code_spec : forall fuel rand pos d NEW NEW' pos',
  set_tracking_code fuel rand pos d NEW = Some (NEW', pos') ->
  Complaint.id NEW' = Complaint.id NEW
  /\ Complaint.is_anonymous NEW' = Complaint.is_anonymous NEW
  /\ Complaint.user_id NEW' = Complaint.user_id NEW
  /\ Complaint.evidence_hashes NEW' = Complaint.evidence_hashes NEW
  /\ Complaint.urgency_score NEW' = Complaint.urgency_score NEW
  /\ Complaint.status NEW' = Complaint.status NEW
  /\ match Complaint.is_anonymous NEW, Complaint.tracking_code NEW with
     | true, None =>
         exists k, Complaint.tracking_code NEW' = Some (nth_candidate rand pos k)
                   /\ code_exists (tracking_codes d) (nth_candidate rand pos k) = false
     | _, _ => Complaint.tracking_code NEW' = Complaint.tracking_code NEW
     end.
Proof.
  intros fuel rand pos d NEW NEW' pos' H. unfold set_tracking_code in H.
  destruct (Complaint.is_anonymous NEW) eqn:Ha;
    destruct (Complaint.tracking_code NEW) eqn:Hc;
    cbn [andb] in H; try (injection H as <- <-; repeat split; assumption).
  destruct (generate_tracking_code fuel rand pos (tracking_codes d))
    as [[code p]|] eqn:Hg; [|discriminate H].
  injection H as <- <-.
  destruct (generate_tracking_code_returns _ _ _ _ _ _ Hg) as (k & _ & -> & _ & Hf & _).
  repeat split; try assumption. exists k. split; [reflexivity | exact Hf].
Qed.

(** A successful insert appends exactly the new row; its identifier is
    fresh, it carries the values given, and its tracking code is the one the
    trigger set. *)
Lemma insert_complaint_done : forall fuel E who v ret w NEW w1,
  insert_complaint fuel E who v ret w = Done NEW w1 ->
  db w1 = with_complaints (complaints (db w) ++ [NEW]) (db w)
  /\ storage_objects w1 = storage_objects w
  /\ complaint_exists (db w) (Complaint.id NEW) = false
  /\ Complaint.is_anonymous NEW = v_is_anonymous v
  /\ Complaint.user_id NEW = v_user_id v
  /\ Complaint.evidence_hashes NEW = []
  /\ Complaint.status NEW = pending
  /\ permitted complaints_policies INSERT (db w) who NEW = true
  /\ (if v_is_anonymous v
      then exists k,
          Complaint.tracking_code NEW = Some (nth_candidate (rand_md5 E) (rand_pos w) k)
          /\ code_exists (tracking_codes (db w))
                         (nth_candidate (rand_md5 E) (rand_pos w) k) = false
      else Complaint.tracking_code NEW = None).
Proof.
  intros fuel E who v ret w NEW w1 H. unfold insert_complaint in H.
  destruct (negb (fits_decimal 2 (v_latitude v) && fits_decimal 3 (v_longitude v)));
    [discriminate H|].
  match type of H with
  | match set_tracking_code ?f ?r ?p ?d ?N0 with _ => _ end = _ =>
      destruct (set_tracking_code f r p d N0) as [[NEW' pos']|] eqn:Ht;
      [|discriminate H]
  end.
  apply set_tracking_code_spec in Ht. cbn in Ht.
  destruct Ht as (Hid & Han & Hu & He & Hs & Hst & Hc).
  cbn in H.
  destruct (permitted complaints_policies INSERT (db w) who NEW') eqn:Hp;
    cbn [negb] in H; [|discriminate H].
  destruct (ret && negb (permitted complaints_policies SELECT (db w) who NEW'));
    [discriminate H|].
  destruct (negb ((0 <=? Complaint.urgency_score NEW')%Z
                  && (Complaint.urgency_score NEW' <=? 10)%Z)); [discriminate H|].
  destruct (existsb (fun r => Nat.eqb (Complaint.id r) (Complaint.id NEW'))
                    (complaints (db w))) eqn:Hpk; [discriminate H|].
  match type of H with
  | (if ?c then _ else _) = _ => destruct c; [discriminate H|]
  end.
  injection H as <- <-. cbn.
  repeat split; assumption.
Qed.

(** A refused insert changes no table and stores no object. *)
Lemma insert_complaint_failed : forall fuel E who v ret w e w1,
  insert_complaint fuel E who v ret w = Failed e w1 ->
  db w1 = db w /\ storage_objects w1 = storage_objects w.
Proof.
  intros fuel E who v ret w e w1 H. unfold insert_complaint in H.
  destruct (negb (fits_decimal 2 (v_latitude v) && fits_decimal 3 (v_longitude v)));
    [injection H as _ <-; split; reflexivity|].
  match type of H with
  | match set_tracking_code ?f ?r ?p ?d ?N0 with _ => _ end = _ =>
      destruct (set_tracking_code f r p d N0) as [[NEW' pos']|]; [|discriminate H]
  end.
  repeat match type of H with
         | (if ?c then _ else _) = _ =>
             destruct c; [injection H as _ <-; split; reflexivity|]
         end.
  discriminate H.
Qed.

Lemma update_complaints_db : forall E who set target w,
  exists rows,
    db (Submit.unchecked (update_complaints E who set target w) w)
    = with_complaints rows (db w)
    /\ storage_objects (Submit.unchecked (update_complaints E who set target w) w)
       = storage_objects w
    /\ List.length rows = List.length (complaints (db w))
    /\ (forall i r, nth_error (complaints (db w)) i = Some r ->
          exists r', nth_error rows i = Some r'
                     /\ (r' = r \/ (Complaint.id r = target
                                    /\ permitted complaints_policies UPDATE (db w) who r = true
                                    /\ r' = Complaint.set_updated_at
                                              (now E (clock_pos w)) (set r)))).
Proof.
  intros E who set target w. unfold update_complaints.
  match goal with
  | |- context [if ?c then Failed _ _ else _] => destruct c
  end; cbn.
  - exists (complaints (db w)). repeat split.
    + destruct (db w); reflexivity.
    + intros i r Hn. exists r. auto.
  - eexists. repeat split.
    + apply length_map.
    + intros i r Hn. rewrite nth_error_map, Hn. cbn.
      eexists. split; [reflexivity|].
      destruct (Nat.eqb_spec (Complaint.id r) target); cbn; [|left; reflexivity].
      destruct (permitted complaints_policies SELECT (db w) who r); cbn;
        [|left; reflexivity].
      destruct (permitted complaints_policies UPDATE (db w) who r); cbn;
        [|left; reflexivity].
      right. auto.
Qed.

End Statements.

Section SubmissionSteps.
Import Text TrackingCode Db Submit Props.

(** The clients of the application never hold the service role. *)
Lemma caller_of_not_service : forall session, caller_of session <> service_role.
Proof. intros [u|]; discriminate. Qed.

(** No INSERT policy exists on [public_logs]: the insert of a client is
    always refused, and the table keeps its rows. *)
Lemma insert_public_log_refused : forall E session cid metadata_hash action w,
  insert_public_log E (caller_of session) cid metadata_hash action w
  = Failed (rls_violation "public_logs") (next_clock (next_uuid w)).
Proof. intros E [u|] cid mh a w; reflexivity. Qed.

Lemma unchecked_insert_public_log : forall E session cid metadata_hash action w,
  db (unchecked (insert_public_log E (caller_of session) cid metadata_hash action w) w)
  = db w
  /\ storage_objects
       (unchecked (insert_public_log E (caller_of session) cid metadata_hash action w) w)
     = storage_objects w.
Proof. intros. rewrite insert_public_log_refused. split; reflexivity. Qed.

(** An evidence insert touches [evidence_files] only, and adds at most the
    one row it was given. *)
Lemma unchecked_insert_evidence_file : forall E who cid url name type size hash w,
  let w' := unchecked (insert_evidence_file E who cid url name type size hash w) w in
  complaints (db w') = complaints (db w)
  /\ public_logs (db w') = public_logs (db w)
  /\ gov_notes (db w') = gov_notes (db w)
  /\ user_roles (db w') = user_roles (db w)
  /\ storage_objects w' = storage_objects w
  /\ exists added,
      evidence_files (db w') = (evidence_files (db w) ++ added)%list
      /\ (List.length added <= 1)%nat
      /\ Forall (fun e => EvidenceFile.complaint_id e = cid
                          /\ EvidenceFile.file_hash e = hash) added.
Proof.
  intros E who cid url name type size hash w. unfold insert_evidence_file.
  repeat match goal with
         | |- context [if ?c then Failed _ _ else _] => destruct c
         end; cbn; repeat split;
    try (exists []; rewrite app_nil_r; repeat split; [apply Nat.le_0_l | constructor]).
  eexists. split; [reflexivity|]. split; [apply Nat.le_refl|].
  constructor; [split; reflexivity | constructor].
Qed.

Lemma storage_upload_db : forall E path w w',
  storage_upload E path w = inr w' ->
  db w' = db w /\ storage_objects w' = (storage_objects w ++ [path])%list.
Proof.
  intros E path w w' H. unfold storage_upload in H.
  destruct (upload_fault E path); [discriminate H|].
  destruct (existsb (String.eqb path) (storage_objects w)); [discriminate H|].
  injection H as <-. split; reflexivity.
Qed.

(** The loop over the files touches [evidence_files] and the object store
    only; it adds at most one evidence row per file, each for the complaint
    at hand; when it ends without a throw it returns the hashes of the files
    in their order. *)
Lemma upload_evidence_spec : forall E who userId cid files acc w,
  let res := upload_evidence E who userId cid files acc w in
  complaints (db (world_of res)) = complaints (db w)
  /\ public_logs (db (world_of res)) = public_logs (db w)
  /\ gov_notes (db (world_of res)) = gov_notes (db w)
  /\ user_roles (db (world_of res)) = user_roles (db w)
  /\ (exists added,
         evidence_files (db (world_of res)) = (evidence_files (db w) ++ added)%list
         /\ (List.length added <= List.length files)%nat
         /\ Forall (fun e => EvidenceFile.complaint_id e = cid) added)
  /\ match res with
     | inr (hashes, _) => hashes = (acc ++ map calculateFileHash files)%list
     | inl _ => True
     end.
Proof.
  intros E who userId cid files.
  induction files as [|file rest IH]; intros acc w; cbn [upload_evidence].
  - cbn. repeat split. exists []. rewrite !app_nil_r. repeat split; constructor.
    symmetry. apply app_nil_r.
  - destruct (storage_upload E _ w) as [msg|w1] eqn:Hup.
    + cbn. repeat split. exists []. rewrite app_nil_r.
      repeat split; [apply Nat.le_0_l | constructor].
    + apply storage_upload_db in Hup. destruct Hup as (Hdb & _).
      match goal with
      | |- context [unchecked ?o w1] =>
          pose proof (unchecked_insert_evidence_file E who cid
                        (getPublicUrl (userId ++ "/" ++ uuid_text cid ++ "/" ++ f_name file))
                        (f_name file) (f_type file) (f_size file)
                        (calculateFileHash file) w1) as Hins;
          set (w2 := unchecked o w1) in *
      end.
      cbv zeta in Hins.
      destruct Hins as (Hc & Hl & Hg & Hu & _ & added1 & He & Hlen & Hall).
      specialize (IH (acc ++ [calculateFileHash file])%list w2).
      cbv zeta in IH.
      destruct IH as (Ic & Il & Ig & Iu & (added2 & Ie & Ilen & Iall) & Ih).
      rewrite Hdb in *.
      repeat split; try congruence.
      * exists (added1 ++ added2)%list. rewrite Ie, He, app_assoc.
        repeat split.
        -- rewrite length_app. cbn. lia.
        -- apply Forall_app. split; [|exact Iall].
           eapply Forall_impl; [|exact Hall]. cbn. tauto.
      * destruct (upload_evidence E who userId cid rest (acc ++ [calculateFileHash file]) w2)
          as [[? ?]|[hashes ?]]; [exact I|].
        rewrite Ih, <- app_assoc. reflexivity.
Qed.

End SubmissionSteps.

Section SubmissionFlow.
Import Text TrackingCode Db Submit Props.

Lemma complaint_exists_false : forall d cid,
  complaint_exists d cid = false ->
  forall r, In r (complaints d) -> Complaint.id r <> cid.
Proof.
  intros d cid H r Hin Heq. unfold complaint_exists in H.
  assert (Ht : existsb (fun c => Nat.eqb (Complaint.id c) cid) (complaints d) = true).
  { apply existsb_exists. exists r. split; [exact Hin|]. apply Nat.eqb_eq. exact Heq. }
  congruence.
Qed.

(** The update of [handleSubmit] aims at the row just inserted: the rows
    before it stay as they are, and the last one is either left alone (the
    caller may not update it) or gets the assignment and a new stamp. *)
Lemma update_complaints_last : forall E who set w old c,
  complaints (db w) = (old ++ [c])%list ->
  (forall r, In r old -> Complaint.id r <> Complaint.id c) ->
  let w' := unchecked (update_complaints E who set (Complaint.id c) w) w in
  evidence_files (db w') = evidence_files (db w)
  /\ public_logs (db w') = public_logs (db w)
  /\ gov_notes (db w') = gov_notes (db w)
  /\ user_roles (db w') = user_roles (db w)
  /\ storage_objects w' = storage_objects w
  /\ exists c',
      complaints (db w') = (old ++ [c'])%list
      /\ (c' = c
          \/ (permitted complaints_policies UPDATE (db w) who c = true
              /\ c' = Complaint.set_updated_at (now E (clock_pos w)) (set c))).
Proof.
  intros E who set w old c Hrows Hfresh. unfold update_complaints.
  match goal with
  | |- context [if ?c then Failed _ _ else _] => destruct c
  end; cbn.
  - repeat split. exists c. auto.
  - repeat split. rewrite Hrows, map_app. cbn [map].
    eexists. split.
    + f_equal. rewrite <- (map_id old) at 2. apply map_ext_in.
      intros r Hr. apply Hfresh in Hr. apply Nat.eqb_neq in Hr. rewrite Hr. reflexivity.
    + rewrite Nat.eqb_refl. cbn.
      destruct (permitted complaints_policies SELECT (db w) who c); cbn; [|auto].
      destruct (permitted complaints_policies UPDATE (db w) who c); cbn; auto.
Qed.

(** The ends of [handleSubmit], one by one. *)
Lemma handleSubmit_cases :
  forall fuel E session isAnonymous formData files w out w',
    handleSubmit fuel E session isAnonymous formData files w = Some (out, w') ->
    (exists issues,
        complaintSchema_parse formData = inl issues
        /\ out = toast_error (match issues with
                              | i :: _ => Submit.message i
                              | [] => ""
                              end)
        /\ w' = w)
    \/ exists v,
        complaintSchema_parse formData = inr v
        /\ ((exists e,
               insert_complaint fuel E (caller_of session)
                                (inserted_values session isAnonymous formData v) true w
               = Failed e w'
               /\ out = toast_error (message_or_default (pg_message e)))
            \/ exists complaint w1,
                insert_complaint fuel E (caller_of session)
                                 (inserted_values session isAnonymous formData v) true w
                = Done complaint w1
                /\ ((exists uploadError,
                        upload_evidence E (caller_of session)
                                        (path_owner session isAnonymous)
                                        (Complaint.id complaint) files [] w1
                        = inl (uploadError, w')
                        /\ out = toast_error (message_or_default uploadError))
                    \/ exists evidenceHashes w2,
                        upload_evidence E (caller_of session)
                                        (path_owner session isAnonymous)
                                        (Complaint.id complaint) files [] w1
                        = inr (evidenceHashes, w2)
                        /\ finish E (caller_of session) isAnonymous complaint
                                  evidenceHashes w2 = (out, w'))).
Proof.
  intros fuel E session isAnonymous formData files w out w' H.
  unfold handleSubmit in H.
  destruct (complaintSchema_parse formData) as [issues|v].
  - injection H as <- <-. left. exists issues. auto.
  - right. exists v. split; [reflexivity|].
    destruct (insert_complaint fuel E (caller_of session)
                (inserted_values session isAnonymous formData v) true w)
      as [complaint w1|e w1|]; [| |discriminate H].
    + right. exists complaint, w1. split; [reflexivity|].
      destruct (upload_evidence E (caller_of session) (path_owner session isAnonymous)
                  (Complaint.id complaint) files [] w1)
        as [[uploadError w2]|[evidenceHashes w2]].
      * injection H as <- <-. left. exists uploadError. auto.
      * injection H as H. right. exists evidenceHashes, w2. auto.
    + injection H as <- <-. left. exists e. auto.
Qed.

(** What [handleSubmit] does to the tables: the complaints gain at most one
    row, the one the insert returned up to the columns of the later update;
    evidence rows are only added, all for that complaint; the audit trail,
    the notes and the roles keep their rows. *)
Lemma handleSubmit_tables :
  forall fuel E session isAnonymous formData files w out w',
    handleSubmit fuel E session isAnonymous formData files w = Some (out, w') ->
    public_logs (db w') = public_logs (db w)
    /\ gov_notes (db w') = gov_notes (db w)
    /\ user_roles (db w') = user_roles (db w)
    /\ (complaints (db w') = complaints (db w)
        /\ evidence_files (db w') = evidence_files (db w)
        \/ exists v NEW w1 c' added,
            complaintSchema_parse formData = inr v
            /\ insert_complaint fuel E (caller_of session)
                                (inserted_values session isAnonymous formData v) true w
               = Done NEW w1
            /\ complaints (db w') = (complaints (db w) ++ [c'])%list
            /\ Complaint.id c' = Complaint.id NEW
            /\ Complaint.is_anonymous c' = Complaint.is_anonymous NEW
            /\ Complaint.user_id c' = Complaint.user_id NEW
            /\ Complaint.tracking_code c' = Complaint.tracking_code NEW
            /\ (c' = NEW
                \/ permitted complaints_policies UPDATE (db w1) (caller_of session) NEW
                   = true)
            /\ evidence_files (db w') = (evidence_files (db w) ++ added)%list
            /\ (List.length added <= List.length files)%nat
            /\ Forall (fun e => EvidenceFile.complaint_id e = Complaint.id NEW) added).
Proof.
  intros fuel E session isAnonymous formData files w out w' H.
  destruct (handleSubmit_cases _ _ _ _ _ _ _ _ _ H)
    as [(issues & _ & _ & ->) | (v & Hv & [(e & Hins & _) | (NEW & w1 & Hins & Hrest)])].
  - repeat split; left; split; reflexivity.
  - apply insert_complaint_failed in Hins. destruct Hins as (-> & _).
    repeat split; left; split; reflexivity.
  - pose proof (insert_complaint_done _ _ _ _ _ _ _ _ Hins)
      as (Hdb & _ & Hfresh & _).
    pose proof (complaint_exists_false _ _ Hfresh) as Hne.
    assert (Hc1 : complaints (db w1) = (complaints (db w) ++ [NEW])%list)
      by (rewrite Hdb; reflexivity).
    assert (He1 : evidence_files (db w1) = evidence_files (db w))
      by (rewrite Hdb; reflexivity).
    assert (Hl1 : public_logs (db w1) = public_logs (db w))
      by (rewrite Hdb; reflexivity).
    assert (Hg1 : gov_notes (db w1) = gov_notes (db w)) by (rewrite Hdb; reflexivity).
    assert (Hu1 : user_roles (db w1) = user_roles (db w)) by (rewrite Hdb; reflexivity).
    pose proof (upload_evidence_spec E (caller_of session) (path_owner session isAnonymous)
                  (Complaint.id NEW) files [] w1) as Hup.
    cbv zeta in Hup.
    destruct Hrest as [(uploadError & Hres & _) | (hashes & w2 & Hres & Hfin)];
      rewrite Hres in Hup; cbn [world_of] in Hup;
      destruct Hup as (Uc & Ul & Ug & Uu & (added & Ue & Ulen & Uall) & _).
    + repeat split; try congruence.
      right. exists v, NEW, w1, NEW, added.
      repeat split; try congruence. left. reflexivity.
    + unfold finish in Hfin.
      pose proof (update_complaints_last E (caller_of session)
                    (Complaint.set_evidence_hashes hashes) w2 (complaints (db w)) NEW
                    (eq_trans Uc Hc1) Hne) as Hupd.
      cbv zeta in Hupd.
      set (w3 := unchecked (update_complaints E (caller_of session)
                              (Complaint.set_evidence_hashes hashes)
                              (Complaint.id NEW) w2) w2) in *.
      destruct Hupd as (Pe & Pl & Pg & Pu & _ & c' & Pc & Pcase).
      pose proof (unchecked_insert_public_log E session (Complaint.id NEW)
                    (join "," hashes) "complaint_created" w3) as (Hlog & _).
      set (w4 := unchecked (insert_public_log E (caller_of session) (Complaint.id NEW)
                              (join "," hashes) "complaint_created" w3) w3) in *.
      assert (Hw' : w' = w4).
      { destruct (Complaint.tracking_code NEW) as [code|];
          [destruct (isAnonymous && negb (String.eqb code ""))|];
          injection Hfin as _ <-; reflexivity. }
      subst w'. rewrite Hlog.
      repeat split; try congruence.
      right. exists v, NEW, w1, c', added.
      assert (Hperm : permitted complaints_policies UPDATE (db w2) (caller_of session) NEW
                      = permitted complaints_policies UPDATE (db w1) (caller_of session) NEW).
      { destruct (caller_of session); cbn; try reflexivity.
        unfold is_government_or_admin, has_role. cbn. rewrite Uu. reflexivity. }
      repeat split; try congruence;
        try (destruct Pcase as [-> | (_ & ->)]; reflexivity).
      destruct Pcase as [-> | (Hp & _)]; [left; reflexivity | right; congruence].
Qed.

End SubmissionFlow.

(** ** The claims about the submission flow *)

Section SubmissionClaims.
Import Text TrackingCode Db Submit Props.

(** C1.  Every complaint row created by the submission flow has, when the
    complaint is anonymous, a tracking code that is not null and matches
    [CW-[A-Z0-9]{4}-[A-Z0-9]{4}], and has a null tracking code when it is not
    anonymous.  The flow creates at most one row, appended to the table. *)
Theorem created_row_tracking_code :
  forall fuel E session isAnonymous formData files w out w',
    handleSubmit fuel E session isAnonymous formData files w = Some (out, w') ->
    complaints (db w') = complaints (db w)
    \/ exists r,
        complaints (db w') = (complaints (db w) ++ [r])%list
        /\ Complaint.is_anonymous r = isAnonymous
        /\ if isAnonymous
           then exists code, Complaint.tracking_code r = Some code
                             /\ matches_tracking_pattern code = true
           else Complaint.tracking_code r = None.
Proof.
  intros fuel E session isAnonymous formData files w out w' H.
  destruct (handleSubmit_tables _ _ _ _ _ _ _ _ _ H)
    as (_ & _ & _ & [(Hc & _) | (v & NEW & w1 & c' & added & _ & Hins & Hc & _ & Ha
                                 & _ & Ht & _)]).
  - left. exact Hc.
  - right. exists c'. split; [exact Hc|].
    destruct (insert_complaint_done _ _ _ _ _ _ _ _ Hins)
      as (_ & _ & _ & Hanon & _ & _ & _ & _ & Hcode).
    cbn [inserted_values v_is_anonymous] in Hanon, Hcode.
    split; [congruence|].
    destruct isAnonymous.
    + destruct Hcode as (k & Hk & _). exists (nth_candidate (rand_md5 E) (rand_pos w) k).
      split; [congruence|]. apply candidate_matches_pattern.
    + congruence.
Qed.

(** The theorem at an anonymous submission and at a submission of user 7,
    both into the empty database. *)
Lemma created_row_tracking_code_witness :
  (exists out w',
      handleSubmit 3 Examples.env None true Examples.good_form [] empty_world
      = Some (out, w')
      /\ (complaints (db w') = complaints (db empty_world)
          \/ exists r,
              complaints (db w') = (complaints (db empty_world) ++ [r])%list
              /\ Complaint.is_anonymous r = true
              /\ exists code, Complaint.tracking_code r = Some code
                              /\ matches_tracking_pattern code = true))
  /\ (exists out w',
         handleSubmit 3 Examples.env (Some 7%nat) false Examples.good_form [] empty_world
         = Some (out, w')
         /\ (complaints (db w') = complaints (db empty_world)
             \/ exists r,
                 complaints (db w') = (complaints (db empty_world) ++ [r])%list
                 /\ Complaint.is_anonymous r = false
                 /\ Complaint.tracking_code r = None)).
Proof.
  split.
  - destruct (handleSubmit 3 Examples.env None true Examples.good_form [] empty_world)
      as [[out w']|] eqn:H; [|vm_compute in H; discriminate H].
    exists out, w'. split; [reflexivity|].
    exact (created_row_tracking_code _ _ _ _ _ _ _ _ _ H).
  - destruct (handleSubmit 3 Examples.env (Some 7%nat) false Examples.good_form []
                           empty_world)
      as [[out w']|] eqn:H; [|vm_compute in H; discriminate H].
    exists out, w'. split; [reflexivity|].
    exact (created_row_tracking_code _ _ _ _ _ _ _ _ _ H).
Defined.

(** The anonymous run above does create a row, with code [CW-0000-0000]. *)
Example anonymous_submission_runs :
  option_map (fun r => map Complaint.tracking_code (complaints (db (snd r))))
             (handleSubmit 3 Examples.env None true Examples.good_form [] empty_world)
  = Some [Some "CW-0000-0000"].
Proof. vm_compute. reflexivity. Qed.

(** C7.  A form that breaks a constraint of the Create operation (title
    under 10 or over 200 characters, description under 50 or over 5000,
    category outside the enumeration, location under 3 characters) is
    rejected with the message of a validation issue, and the world after
    [handleSubmit] is the world before it: no statement was sent. *)
Theorem invalid_form_rejected_before_any_write :
  forall fuel E session isAnonymous formData files w,
    violates_constraints formData ->
    exists i rest,
      complaintSchema_issues formData = i :: rest
      /\ handleSubmit fuel E session isAnonymous formData files w
         = Some (toast_error (Submit.message i), w).
Proof.
  intros fuel E session isAnonymous formData files w Hv.
  assert (Hne : complaintSchema_issues formData <> []).
  { unfold complaintSchema_issues, min_issue, max_issue, enum_issue.
    destruct Hv as [H | [H | [H | [H | [H | H]]]]].
    - apply Nat.ltb_lt in H. rewrite H. discriminate.
    - apply Nat.ltb_lt in H. rewrite H.
      destruct (String.length (title formData) <? 10)%nat; discriminate.
    - apply Nat.ltb_lt in H. rewrite H. intro Habs.
      apply app_eq_nil in Habs. destruct Habs as (_ & Habs).
      apply app_eq_nil in Habs. destruct Habs as (Habs & _). discriminate Habs.
    - apply Nat.ltb_lt in H. rewrite H. intro Habs.
      apply app_eq_nil in Habs. destruct Habs as (_ & Habs).
      apply app_eq_nil in Habs. destruct Habs as (Habs & _).
      apply app_eq_nil in Habs. destruct Habs as (_ & Habs). discriminate Habs.
    - rewrite H. intro Habs.
      apply app_eq_nil in Habs. destruct Habs as (_ & Habs).
      apply app_eq_nil in Habs. destruct Habs as (_ & Habs).
      apply app_eq_nil in Habs. destruct Habs as (Habs & _). discriminate Habs.
    - apply Nat.ltb_lt in H. rewrite H. intro Habs.
      apply app_eq_nil in Habs. destruct Habs as (_ & Habs).
      apply app_eq_nil in Habs. destruct Habs as (_ & Habs).
      apply app_eq_nil in Habs. destruct Habs as (_ & Habs). discriminate Habs. }
  destruct (complaintSchema_issues formData) as [|i rest] eqn:Hi; [congruence|].
  exists i, rest. split; [reflexivity|].
  unfold handleSubmit, complaintSchema_parse. rewrite Hi. reflexivity.
Qed.

(** The theorem at a form whose title has five characters. *)
Lemma invalid_form_rejected_before_any_write_witness :
  violates_constraints Examples.short_title_form
  /\ exists i rest,
      complaintSchema_issues Examples.short_title_form = i :: rest
      /\ handleSubmit 3 Examples.env None true Examples.short_title_form
                      [Examples.photo] empty_world
         = Some (toast_error (Submit.message i), empty_world).
Proof.
  assert (Hv : violates_constraints Examples.short_title_form)
    by (left; cbn; lia).
  split; [exact Hv|].
  exact (invalid_form_rejected_before_any_write 3 Examples.env None true
           Examples.short_title_form [Examples.photo] empty_world Hv).
Defined.

End SubmissionClaims.

Section EvidenceCap.
Import Text TrackingCode Db Submit Props.

Lemma filter_none : forall (A : Type) (f : A -> bool) (l : list A),
  (forall x, In x l -> f x = false) -> filter f l = [].
Proof.
  intros A f l. induction l as [|a l IH]; intros H; [reflexivity|].
  cbn. rewrite (H a (or_introl eq_refl)). apply IH.
  intros x Hx. apply H. right. exact Hx.
Qed.

Lemma handleFileChange_length : forall e files,
  (List.length files <= 5)%nat ->
  (List.length (fst (handleFileChange e files)) <= 5)%nat.
Proof.
  intros [selected|] files H; unfold handleFileChange; [|exact H].
  destruct (5 <? List.length selected + List.length files)%nat eqn:Hc; cbn [fst];
    [exact H|].
  apply Nat.ltb_ge in Hc. rewrite length_app. lia.
Qed.

Lemma after_changes_length : forall events files,
  (List.length files <= 5)%nat ->
  (List.length (after_changes events files) <= 5)%nat.
Proof.
  induction events as [|e rest IH]; intros files H; cbn [after_changes]; [exact H|].
  apply IH, handleFileChange_length, H.
Qed.

(** C10.  The page caps the evidence at five files: a selection that would
    bring the total above five is refused as a whole (the list of files
    stays as it was and the toast is shown), so the list never grows beyond
    five, and a complaint created by [handleSubmit] from that list carries at
    most five evidence rows. *)
Theorem evidence_capped_at_five :
  (forall selectedFiles files,
      (5 < List.length selectedFiles + List.length files)%nat ->
      handleFileChange (Some selectedFiles) files
      = (files, Some "Maximum 5 files allowed"))
  /\ (forall events, (List.length (after_changes events []) <= 5)%nat)
  /\ (forall fuel E session isAnonymous formData events w out w' r,
         evidence_refers_to_complaints (db w) ->
         handleSubmit fuel E session isAnonymous formData (after_changes events []) w
         = Some (out, w') ->
         complaints (db w') = (complaints (db w) ++ [r])%list ->
         (List.length (evidence_of (db w') (Complaint.id r)) <= 5)%nat).
Proof.
  split; [|split].
  - intros selectedFiles files H. unfold handleFileChange.
    apply Nat.ltb_lt in H. rewrite H. reflexivity.
  - intros events. apply after_changes_length. cbn. lia.
  - intros fuel E session isAnonymous formData events w out w' r Hfk H Hr.
    pose proof (after_changes_length events [] (Nat.le_0_l 5)) as Hfive.
    destruct (handleSubmit_tables _ _ _ _ _ _ _ _ _ H)
      as (_ & _ & _ & [(Hc & _) | (v & NEW & w1 & c' & added & _ & Hins & Hc & Hid & _
                                   & _ & _ & _ & He & Hlen & Hall)]).
    + rewrite Hc in Hr. apply (f_equal (@List.length _)) in Hr.
      rewrite length_app in Hr. cbn in Hr. lia.
    + rewrite Hc in Hr. apply app_inj_tail in Hr. destruct Hr as (_ & <-).
      destruct (insert_complaint_done _ _ _ _ _ _ _ _ Hins) as (_ & _ & Hfresh & _).
      unfold evidence_of. rewrite He, filter_app, length_app.
      assert (Hold : filter (fun e => Nat.eqb (EvidenceFile.complaint_id e) (Complaint.id c'))
                            (evidence_files (db w)) = []).
      { apply filter_none. intros e Hin. apply Nat.eqb_neq. intro Heq.
        apply Hfk in Hin. rewrite Heq, Hid, Hfresh in Hin. discriminate Hin. }
      rewrite Hold. cbn [List.length Nat.add].
      etransitivity; [apply filter_length_le|]. lia.
Qed.

(** The theorem at a page where three files are chosen, then three more
    (refused), then two more: the five files are submitted anonymously into
    the empty database. *)
Lemma evidence_capped_at_five_witness :
  handleFileChange (Some [Examples.letter; Examples.scan; Examples.photo])
                   [Examples.photo; Examples.receipt; Examples.video]
  = ([Examples.photo; Examples.receipt; Examples.video], Some "Maximum 5 files allowed")
  /\ (List.length
        (after_changes [Some [Examples.photo; Examples.receipt; Examples.video];
                        Some [Examples.letter; Examples.scan; Examples.photo];
                        Some [Examples.audio; Examples.letter]] []) <= 5)%nat
  /\ exists out w' r,
      handleSubmit 3 Examples.env None true Examples.good_form
                   (after_changes [Some [Examples.photo; Examples.receipt; Examples.video];
                                   Some [Examples.letter; Examples.scan; Examples.photo];
                                   Some [Examples.audio; Examples.letter]] [])
                   empty_world
      = Some (out, w')
      /\ complaints (db w') = (complaints (db empty_world) ++ [r])%list
      /\ (List.length (evidence_of (db w') (Complaint.id r)) <= 5)%nat.
Proof.
  destruct evidence_capped_at_five as (Hrefuse & Hcap & Hrows).
  split; [apply Hrefuse; cbn; lia|].
  split; [apply Hcap|].
  destruct (handleSubmit 3 Examples.env None true Examples.good_form
              (after_changes [Some [Examples.photo; Examples.receipt; Examples.video];
                              Some [Examples.letter; Examples.scan; Examples.photo];
                              Some [Examples.audio; Examples.letter]] [])
              empty_world) as [[out w']|] eqn:H; [|vm_compute in H; discriminate H].
  assert (Hr : exists r, complaints (db w') = (complaints (db empty_world) ++ [r])%list).
  { vm_compute in H. injection H as _ <-. eexists. reflexivity. }
  destruct Hr as (r & Hr).
  exists out, w', r. split; [reflexivity|]. split; [exact Hr|].
  apply (Hrows 3%nat Examples.env None true Examples.good_form
               [Some [Examples.photo; Examples.receipt; Examples.video];
                Some [Examples.letter; Examples.scan; Examples.photo];
                Some [Examples.audio; Examples.letter]] empty_world out w' r).
  - intros e [].
  - exact H.
  - exact Hr.
Defined.

(** In that run the complaint does carry five evidence rows. *)
Example five_files_submitted :
  option_map (fun r => map EvidenceFile.file_name (evidence_of (db (snd r)) 100))
             (handleSubmit 3 Examples.env None true Examples.good_form
                (after_changes [Some [Examples.photo; Examples.receipt; Examples.video];
                                Some [Examples.letter; Examples.scan; Examples.photo];
                                Some [Examples.audio; Examples.letter]] [])
                empty_world)
  = Some ["photo.png"; "receipt.pdf"; "video.mp4"; "call.mp3"; "letter.pdf"].
Proof. vm_compute. reflexivity. Qed.

End EvidenceCap.

(** ** Where the flow falls short of what it attempts *)

Section UncheckedSteps.
Import Text TrackingCode Db Submit Props.

(** [handleSubmit] never adds a row to [public_logs]: row-level security is
    enabled on the table and no policy of it is [FOR INSERT], so the insert
    of the audit entry is refused, for the [anon] and the [authenticated]
    role alike; the page does not look at the result. *)
Lemma handleSubmit_writes_no_audit_entry :
  forall fuel E session isAnonymous formData files w out w',
    handleSubmit fuel E session isAnonymous formData files w = Some (out, w') ->
    public_logs (db w') = public_logs (db w).
Proof.
  intros fuel E session isAnonymous formData files w out w' H.
  destruct (handleSubmit_tables _ _ _ _ _ _ _ _ _ H) as (Hl & _). exact Hl.
Qed.

(** C3, at an anonymous submission of a valid form without files into the
    empty database: the page shows the tracking code, complaint 100 exists,
    and [public_logs] holds no entry for it. *)
Example audit_entry_missing_after_submission :
  option_map (fun r => (fst r,
                        map Complaint.id (complaints (db (snd r))),
                        logs_of (db (snd r)) 100 "complaint_created",
                        public_logs (db (snd r))))
             (handleSubmit 3 Examples.env None true Examples.good_form [] empty_world)
  = Some (tracking_dialog "CW-0000-0000", [100%nat], [], []).
Proof. vm_compute. reflexivity. Qed.

(** The same for citizen 1, signed in. *)
Example audit_entry_missing_for_citizen :
  option_map (fun r => (fst r,
                        map Complaint.id (complaints (db (snd r))),
                        public_logs (db (snd r))))
             (handleSubmit 3 Examples.env (Some 1%nat) false Examples.good_form []
                           (with_db Examples.registered empty_world))
  = Some (toast_submitted 100, [100%nat], []).
Proof. vm_compute. reflexivity. Qed.

(** The update of [evidence_hashes] reaches the row only for a caller with
    the government or admin role ("Government can update complaints" is the
    one UPDATE policy): for every other submitter the created row keeps the
    empty list. *)
Lemma evidence_hashes_stay_empty_without_role :
  forall fuel E session isAnonymous formData files w out w' r,
    is_government_or_admin (db w) (caller_of session) = false ->
    handleSubmit fuel E session isAnonymous formData files w = Some (out, w') ->
    complaints (db w') = (complaints (db w) ++ [r])%list ->
    Complaint.evidence_hashes r = [].
Proof.
  intros fuel E session isAnonymous formData files w out w' r Hrole H Hr.
  destruct (handleSubmit_tables _ _ _ _ _ _ _ _ _ H)
    as (_ & _ & _ & [(Hc & _) | (v & NEW & w1 & c' & added & _ & Hins & Hc & _ & _
                                 & _ & _ & Hcase & _)]).
  - rewrite Hc in Hr. apply (f_equal (@List.length _)) in Hr.
    rewrite length_app in Hr. cbn in Hr. lia.
  - rewrite Hc in Hr. apply app_inj_tail in Hr. destruct Hr as (_ & <-).
    destruct (insert_complaint_done _ _ _ _ _ _ _ _ Hins)
      as (Hdb & _ & _ & _ & _ & Hempty & _).
    destruct Hcase as [-> | Hperm]; [exact Hempty|].
    exfalso.
    assert (Hsame : is_government_or_admin (db w1) (caller_of session)
                    = is_government_or_admin (db w) (caller_of session))
      by (rewrite Hdb; reflexivity).
    destruct (caller_of session) eqn:Hwho; cbn in Hperm.
    + discriminate Hperm.
    + rewrite orb_false_r in Hperm. congruence.
    + exact (caller_of_not_service session Hwho).
Qed.

(** C4, at an anonymous submission with two files into the empty database:
    two evidence rows refer to complaint 100, with the hashes of the files in
    their order, and the [evidence_hashes] of the complaint are empty. *)
Example evidence_hashes_not_stored :
  option_map (fun r => (map Complaint.evidence_hashes (complaints (db (snd r))),
                        map EvidenceFile.file_hash (evidence_of (db (snd r)) 100)))
             (handleSubmit 3 Examples.env None true Examples.good_form
                           [Examples.photo; Examples.receipt] empty_world)
  = Some ([[]], ["0aff"; "0102"]).
Proof. vm_compute. reflexivity. Qed.

(** For citizen 1 the outcome is the same; for officer 3 the update goes
    through and the list is stored. *)
Example evidence_hashes_by_role :
  option_map (fun r => map Complaint.evidence_hashes (complaints (db (snd r))))
             (handleSubmit 3 Examples.env (Some 1%nat) false Examples.good_form
                           [Examples.photo; Examples.receipt]
                           (with_db Examples.registered empty_world))
  = Some [[]]
  /\ option_map (fun r => map Complaint.evidence_hashes (complaints (db (snd r))))
                (handleSubmit 3 Examples.env (Some 3%nat) false Examples.good_form
                              [Examples.photo; Examples.receipt]
                              (with_db Examples.registered empty_world))
     = Some [["0aff"; "0102"]].
Proof. split; vm_compute; reflexivity. Qed.

(** When the upload of a file is refused, the flow stops there: the
    complaint row stays, no later statement is sent, and the page shows the
    message of that refusal. *)
Lemma upload_failure_not_compensated :
  forall fuel E session isAnonymous formData files w v NEW w1 uploadError w2,
    complaintSchema_parse formData = inr v ->
    insert_complaint fuel E (caller_of session)
                     (inserted_values session isAnonymous formData v) true w
    = Done NEW w1 ->
    upload_evidence E (caller_of session) (path_owner session isAnonymous)
                    (Complaint.id NEW) files [] w1 = inl (uploadError, w2) ->
    handleSubmit fuel E session isAnonymous formData files w
    = Some (toast_error (message_or_default uploadError), w2)
    /\ complaints (db w2) = (complaints (db w) ++ [NEW])%list
    /\ Complaint.evidence_hashes NEW = []
    /\ public_logs (db w2) = public_logs (db w)
    /\ exists added, evidence_files (db w2) = (evidence_files (db w) ++ added)%list.
Proof.
  intros fuel E session isAnonymous formData files w v NEW w1 uploadError w2 Hv Hins Hup.
  split; [unfold handleSubmit; rewrite Hv, Hins, Hup; reflexivity|].
  destruct (insert_complaint_done _ _ _ _ _ _ _ _ Hins)
    as (Hdb & _ & _ & _ & _ & Hempty & _).
  pose proof (upload_evidence_spec E (caller_of session) (path_owner session isAnonymous)
                (Complaint.id NEW) files [] w1) as Hspec.
  cbv zeta in Hspec. rewrite Hup in Hspec. cbn [world_of] in Hspec.
  destruct Hspec as (Uc & Ul & _ & _ & (added & Ue & _) & _).
  rewrite Hdb in Uc, Ul, Ue. cbn in Uc, Ul, Ue.
  repeat split; try assumption. exists added. exact Ue.
Qed.

(** C6, at the anonymous submission of a valid form without files: the
    insert of the audit entry, a step after the commit of the complaint, is
    refused, and the page ends with the tracking dialog: no error is shown. *)
Example failed_audit_step_not_surfaced :
  (forall w, insert_public_log Examples.env anon 100 "" "complaint_created" w
             = Failed (rls_violation "public_logs") (next_clock (next_uuid w)))
  /\ option_map fst
       (handleSubmit 3 Examples.env None true Examples.good_form [] empty_world)
     = Some (tracking_dialog "CW-0000-0000").
Proof.
  split.
  - intro w. apply (insert_public_log_refused Examples.env None).
  - vm_compute. reflexivity.
Qed.

End UncheckedSteps.

(** ** Uniqueness and stability of tracking codes *)

Section TrackingCodeInvariant.
Import Text TrackingCode Db Submit Props.

Lemma assigned_codes_keys : forall d,
  assigned_codes d = flat_map code_of_key (map code_of_row (complaints d)).
Proof.
  intros d. unfold assigned_codes.
  induction (complaints d) as [|r l IH]; [reflexivity|].
  cbn. rewrite IH. reflexivity.
Qed.

Lemma code_exists_assigned : forall d code,
  code_exists (tracking_codes d) code = false -> ~ In code (assigned_codes d).
Proof.
  intros d code H Hin. unfold tracking_codes, assigned_codes in *.
  induction (complaints d) as [|r l IH]; [exact Hin|].
  cbn in H, Hin. apply orb_false_iff in H. destruct H as (Hr & Hl).
  apply in_app_or in Hin. destruct Hin as [Hin|Hin]; [|exact (IH Hl Hin)].
  destruct (Complaint.tracking_code r) as [c|]; [|exact Hin].
  destruct Hin as [->|[]]. rewrite String.eqb_refl in Hr. discriminate Hr.
Qed.

(** An update that assigns neither [id] nor [tracking_code] leaves both
    columns of every row as they are. *)
Lemma update_complaints_codes : forall E who set target w,
  (forall r, code_of_row (set r) = code_of_row r) ->
  map code_of_row (complaints (db (unchecked (update_complaints E who set target w) w)))
  = map code_of_row (complaints (db w)).
Proof.
  intros E who set target w Hset. unfold update_complaints.
  match goal with
  | |- context [if ?c then Failed _ _ else _] => destruct c
  end; cbn; [reflexivity|].
  rewrite map_map. apply map_ext. intros r.
  match goal with |- context [if ?c then _ else _] => destruct c end;
    [|reflexivity].
  rewrite <- (Hset r). reflexivity.
Qed.

Lemma run_operation_codes : forall fuel E op w w',
  run_operation fuel E op w = Some w' ->
  exists added,
    map code_of_row (complaints (db w'))
    = (map code_of_row (complaints (db w)) ++ added)%list
    /\ (unique_tracking_codes (db w) -> unique_tracking_codes (db w')).
Proof.
  intros fuel E op w w' H.
  assert (Hsame : map code_of_row (complaints (db w'))
                  = map code_of_row (complaints (db w)) ->
                  exists added,
                    map code_of_row (complaints (db w'))
                    = (map code_of_row (complaints (db w)) ++ added)%list
                    /\ (unique_tracking_codes (db w) -> unique_tracking_codes (db w'))).
  { intro Heq. exists []. rewrite app_nil_r. split; [exact Heq|].
    unfold unique_tracking_codes. rewrite !assigned_codes_keys, Heq. auto. }
  destruct op as [session isAnonymous formData files
                 | session selected newStatus
                 | userId selected newNote]; cbn [run_operation] in H.
  - destruct (handleSubmit fuel E session isAnonymous formData files w)
      as [[out w0]|] eqn:Hs; [|discriminate H].
    cbn in H. injection H as <-.
    destruct (handleSubmit_tables _ _ _ _ _ _ _ _ _ Hs)
      as (_ & _ & _ & [(Hc & _) | (v & NEW & w1 & c' & added & _ & Hins & Hc & Hid & _
                                   & _ & Ht & _)]).
    + apply Hsame. rewrite Hc. reflexivity.
    + exists [code_of_row c']. split; [rewrite Hc, map_app; reflexivity|].
      unfold unique_tracking_codes. rewrite !assigned_codes_keys, Hc, map_app, flat_map_app.
      cbn. rewrite app_nil_r. unfold code_of_key. cbn. rewrite Ht.
      intro Hu.
      destruct (insert_complaint_done _ _ _ _ _ _ _ _ Hins)
        as (_ & _ & _ & _ & _ & _ & _ & _ & Hcode).
      destruct (v_is_anonymous (inserted_values session isAnonymous formData v)).
      * destruct Hcode as (k & -> & Hfree).
        apply code_exists_assigned in Hfree. rewrite assigned_codes_keys in Hfree.
        apply NoDup_app; repeat split.
        -- exact Hu.
        -- constructor; [intros []| constructor].
        -- intros a Ha [<-|[]]. exact (Hfree Ha).
      * rewrite Hcode, app_nil_r. exact Hu.
  - injection H as <-. apply Hsame.
    unfold Admin.handleUpdateStatus.
    destruct selected as [target|]; [|reflexivity].
    destruct (String.eqb newStatus ""); [reflexivity|].
    destruct (Admin.status_of_text newStatus) as [s|]; [|reflexivity].
    pose proof (update_complaints_codes E (caller_of session) (Complaint.set_status s)
                  target w (fun r => eq_refl)) as Hupd.
    destruct (update_complaints E (caller_of session) (Complaint.set_status s) target w);
      cbn in *; try exact Hupd; reflexivity.
  - injection H as <-. apply Hsame.
    unfold Admin.handleAddNote.
    destruct selected as [target|]; [|reflexivity].
    destruct userId as [u|]; [|reflexivity].
    destruct (String.eqb (trim newNote) ""); [reflexivity|].
    unfold insert_gov_note.
    repeat match goal with
           | |- context [if ?c then Failed _ _ else _] => destruct c
           end; reflexivity.
Qed.

(** C2.  Along every sequence of operations of the application
    (submissions, status updates, notes): the rows of [complaints] keep
    their identifier and their tracking code, null or not, new rows only
    come after them; and if no two rows shared a non-null tracking code
    before, none do after.  So the codes of any number of anonymous
    complaints are pairwise distinct. *)
Theorem tracking_codes_unique_and_stable : forall fuel E ops w w',
  run fuel E ops w = Some w' ->
  (exists added,
      map code_of_row (complaints (db w'))
      = (map code_of_row (complaints (db w)) ++ added)%list)
  /\ (unique_tracking_codes (db w) -> unique_tracking_codes (db w')).
Proof.
  intros fuel E ops. induction ops as [|op rest IH]; intros w w' H; cbn [run] in H.
  - injection H as <-. split; [exists []; rewrite app_nil_r; reflexivity | auto].
  - destruct (run_operation fuel E op w) as [w1|] eqn:Hop; [|discriminate H].
    destruct (run_operation_codes _ _ _ _ _ Hop) as (added1 & Hk1 & Hu1).
    destruct (IH _ _ H) as ((added2 & Hk2) & Hu2).
    split; [|auto].
    exists (added1 ++ added2)%list. rewrite Hk2, Hk1, app_assoc. reflexivity.
Qed.

(** The theorem at three anonymous submissions followed by a status update
    of officer 3, from a database without complaints: the second and the
    third submission each draw a code already taken first. *)
Lemma tracking_codes_unique_and_stable_witness :
  exists w',
    run 3 Examples.env
        [submit None true Examples.good_form [];
         submit None true Examples.good_form [Examples.photo];
         submit None true Examples.good_form [];
         update_status (Some 3%nat) (Some 100%nat) "verified"]
        (with_db Examples.registered empty_world) = Some w'
    /\ (exists added,
           map code_of_row (complaints (db w'))
           = (map code_of_row
                  (complaints (db (with_db Examples.registered empty_world)))
                ++ added)%list)
    /\ unique_tracking_codes (db w').
Proof.
  destruct (run 3 Examples.env
                [submit None true Examples.good_form [];
                 submit None true Examples.good_form [Examples.photo];
                 submit None true Examples.good_form [];
                 update_status (Some 3%nat) (Some 100%nat) "verified"]
                (with_db Examples.registered empty_world)) as [w'|] eqn:H;
    [|vm_compute in H; discriminate H].
  exists w'. split; [reflexivity|].
  destruct (tracking_codes_unique_and_stable _ _ _ _ _ H) as (Hk & Hu).
  split; [exact Hk|]. apply Hu. constructor.
Defined.

(** The codes and statuses at the end of that run. *)
Example three_anonymous_codes :
  option_map (fun w' => map (fun r => (Complaint.tracking_code r, Complaint.status r))
                            (complaints (db w')))
             (run 3 Examples.env
                  [submit None true Examples.good_form [];
                   submit None true Examples.good_form [Examples.photo];
                   submit None true Examples.good_form [];
                   update_status (Some 3%nat) (Some 100%nat) "verified"]
                  (with_db Examples.registered empty_world))
  = Some [(Some "CW-0000-0000", verified); (Some "CW-0001-0001", pending);
          (Some "CW-0002-0002", pending)].
Proof. vm_compute. reflexivity. Qed.

End TrackingCodeInvariant.

(** ** Reading complaints *)

Section Lookup.
Import Text TrackingCode Json Http Db Props VerifyTracking.

(** Under the policy "Anyone can view all complaints" every caller sees
    every row. *)
Lemma visible_complaints_all : forall d who, visible_complaints d who = complaints d.
Proof.
  intros d who. unfold visible_complaints.
  assert (Hall : forall r, permitted complaints_policies SELECT d who r = true).
  { intros r. destruct who; cbn; try reflexivity; rewrite !orb_true_r; reflexivity. }
  induction (complaints d) as [|r l IH]; [reflexivity|].
  cbn [filter]. rewrite Hall, IH. reflexivity.
Qed.

(** In a table without a shared tracking code, the filter on a code that a
    row carries returns that row alone. *)
Lemma filter_by_code : forall l c code,
  In c l -> Complaint.tracking_code c = Some code ->
  NoDup (flat_map code_of_key (map code_of_row l)) ->
  filter (fun r => sql_eq_text (Complaint.tracking_code r) code) l = [c].
Proof.
  induction l as [|r l IH]; intros c code Hin Hc Hnd; [destruct Hin|].
  cbn [map flat_map] in Hnd. cbn [filter].
  assert (Hrest : forall x, In x l -> Complaint.tracking_code x = Some code ->
                            In code (flat_map code_of_key (map code_of_row l))).
  { intros x Hx Hxc. apply in_flat_map. exists (code_of_row x).
    split; [apply in_map; exact Hx|]. unfold code_of_key, code_of_row. cbn.
    rewrite Hxc. left. reflexivity. }
  destruct Hin as [->|Hin].
  - rewrite Hc. cbn [sql_eq_text]. rewrite String.eqb_refl. f_equal.
    unfold code_of_key at 1 in Hnd. cbn in Hnd. rewrite Hc in Hnd. cbn in Hnd.
    apply NoDup_cons_iff in Hnd. destruct Hnd as (Hnotin & _).
    apply filter_none. intros x Hx.
    destruct (Complaint.tracking_code x) as [cx|] eqn:Hxc; [|reflexivity].
    cbn. destruct (String.eqb_spec cx code) as [->|]; [|reflexivity].
    exfalso. exact (Hnotin (Hrest x Hx Hxc)).
  - assert (Hr : sql_eq_text (Complaint.tracking_code r) code = false).
    { destruct (Complaint.tracking_code r) as [cr|] eqn:Hrc; [|reflexivity].
      cbn. destruct (String.eqb_spec cr code) as [->|]; [|reflexivity].
      exfalso. unfold code_of_key at 1 in Hnd. cbn in Hnd. rewrite Hrc in Hnd.
      cbn in Hnd. apply NoDup_cons_iff in Hnd. destruct Hnd as (Hnotin & _).
      exact (Hnotin (Hrest c Hin Hc)). }
    rewrite Hr. apply IH; try assumption.
    apply NoDup_app_remove_l in Hnd. exact Hnd.
Qed.

Lemma upper_hex_char_facts : forall c, is_upper_hex c = true ->
  upper_char c = c /\ is_space c = false /\ is_upper_alnum c = true.
Proof.
  intros c H.
  destruct c as [[] [] [] [] [] [] [] []]; try discriminate H; repeat split; reflexivity.
Qed.

Lemma trim_end_last : forall s c, is_space c = false ->
  trim_end (s ++ String c "") = s ++ String c "".
Proof.
  induction s as [|a s IH]; intros c H; cbn [append trim_end].
  - rewrite H. reflexivity.
  - rewrite (IH c H). destruct s; reflexivity.
Qed.

(** A code of the generator's format is what the Verify page takes for a
    tracking code, and [trim] and [toUpperCase] leave it as it is. *)
Lemma hex_code_entered : forall code, is_hex_tracking_code code = true ->
  trim code = code /\ upper code = code /\ isTrackingCode code = true /\ code <> "".
Proof.
  intros code H.
  destruct (cw_format_inv _ _ H)
    as (a1 & a2 & a3 & a4 & b1 & b2 & b3 & b4 & -> & (A1 & A2 & A3 & A4)
        & (B1 & B2 & B3 & B4)).
  destruct (upper_hex_char_facts _ A1) as (U1 & S1 & L1).
  destruct (upper_hex_char_facts _ A2) as (U2 & S2 & L2).
  destruct (upper_hex_char_facts _ A3) as (U3 & S3 & L3).
  destruct (upper_hex_char_facts _ A4) as (U4 & S4 & L4).
  destruct (upper_hex_char_facts _ B1) as (V1 & T1 & M1).
  destruct (upper_hex_char_facts _ B2) as (V2 & T2 & M2).
  destruct (upper_hex_char_facts _ B3) as (V3 & T3 & M3).
  destruct (upper_hex_char_facts _ B4) as (V4 & T4 & M4).
  assert (Hup : upper (cw_string a1 a2 a3 a4 b1 b2 b3 b4)
                = cw_string a1 a2 a3 a4 b1 b2 b3 b4).
  { unfold cw_string. cbn [upper]. rewrite U1, U2, U3, U4, V1, V2, V3, V4. reflexivity. }
  split; [|split; [exact Hup | split; [|discriminate]]].
  - unfold trim.
    change (trim_start (cw_string a1 a2 a3 a4 b1 b2 b3 b4))
      with ((String "C" (String "W" (String "-" (String a1 (String a2 (String a3
              (String a4 (String "-" (String b1 (String b2 (String b3 "")))))))))))%char
            ++ String b4 "").
    rewrite (trim_end_last _ b4 T4). reflexivity.
  - unfold isTrackingCode. rewrite Hup. apply cw_format_cw_string; assumption.
Qed.

(** C5, as the code has it.  For every complaint that carries a tracking
    code (the anonymous ones do), the lookup of [verify-tracking] by that
    code answers 200 with the record of that complaint, whoever calls; the
    record, its evidence items and its notes have no field of the owner's or
    an officer's identity.  The Verify page finds the complaint by its code
    as well, signed in or not, and shows no such field.  A read by raw
    identifier under row-level security returns the complaint to every
    caller, whatever the owner and the caller's role: the table is readable
    by all. *)
Theorem lookup_by_code_and_public_read :
  (forall method d c code,
      method <> "OPTIONS" ->
      In c (complaints d) -> Complaint.tracking_code c = Some code -> code <> "" ->
      unique_tracking_codes d ->
      exists fields evidence notes,
        handler method (Some (JObj [("trackingCode", JStr code)])) d
        = {| status := 200; content := payload "complaint" (JObj fields) |}
        /\ keys fields = (complaint_columns ++ ["evidence"; "notes"])%list
        /\ ~ In "user_id" (keys fields)
        /\ lookup "id" fields = Some (JStr (uuid_text (Complaint.id c)))
        /\ lookup "tracking_code" fields = Some (JStr code)
        /\ lookup "evidence" fields = Some (JArr evidence)
        /\ Forall (fun e => exists f, e = JObj f
                            /\ keys f = ["id"; "file_name"; "file_url"; "file_type";
                                         "created_at"]) evidence
        /\ lookup "notes" fields = Some (JArr notes)
        /\ Forall (fun n => exists f, n = JObj f /\ keys f = ["id"; "note"; "created_at"])
                  notes)
  /\ (forall session d c code,
         In c (complaints d) -> Complaint.tracking_code c = Some code ->
         is_hex_tracking_code code = true -> unique_tracking_codes d ->
         exists data,
           handleVerify session code d = verified data
           /\ keys data = ["id"; "title"; "category"; "status"; "created_at"; "location";
                           "complaint_hash"]
           /\ lookup "id" data = Some (JStr (uuid_text (Complaint.id c))))
  /\ (forall d who c,
         In c (complaints d) ->
         In c (select_complaints who
                 (fun r => Nat.eqb (Complaint.id r) (Complaint.id c)) d)).
Proof.
  split; [|split].
  - intros method d c code Hm Hin Hc Hne Hu.
    unfold handler.
    destruct (String.eqb_spec method "OPTIONS") as [|_]; [contradiction|].
    cbn [lookup String.eqb Ascii.eqb Bool.eqb].
    replace (String.eqb "trackingCode" "trackingCode") with true by reflexivity.
    cbn [truthy negb].
    destruct (String.eqb_spec code "") as [|_]; [contradiction|]. cbn [negb].
    unfold select_complaints. rewrite visible_complaints_all. cbn [js_string].
    unfold unique_tracking_codes in Hu. rewrite assigned_codes_keys in Hu.
    rewrite (filter_by_code _ c code Hin Hc Hu). cbn [maybeSingle].
    eexists. eexists. eexists. split; [reflexivity|].
    split; [reflexivity|].
    split; [cbn; intuition discriminate|].
    split; [reflexivity|].
    split; [cbn; rewrite Hc; reflexivity|].
    split; [reflexivity|].
    split; [apply Forall_forall; intros e He; apply in_map_iff in He;
            destruct He as (x & <- & _); eexists; split; reflexivity|].
    split; [reflexivity|].
    apply Forall_forall. intros n Hn. apply in_map_iff in Hn.
    destruct Hn as (x & <- & _). eexists. split; reflexivity.
  - intros session d c code Hin Hc Hhex Hu.
    destruct (hex_code_entered code Hhex) as (Htrim & Hup & Htc & Hne).
    unfold handleVerify. rewrite Htrim.
    destruct (String.eqb_spec code "") as [|_]; [contradiction|].
    rewrite Htc, Hup. unfold select_complaints. rewrite visible_complaints_all.
    unfold unique_tracking_codes in Hu. rewrite assigned_codes_keys in Hu.
    rewrite (filter_by_code _ c code Hin Hc Hu). cbn [maybeSingle].
    eexists. split; [reflexivity|]. split; reflexivity.
  - intros d who c Hin. unfold select_complaints. rewrite visible_complaints_all.
    apply filter_In. split; [exact Hin | apply Nat.eqb_refl].
Qed.

(** The theorem at the anonymous complaint of the example database, looked
    up by its code, and at the complaint of user 1, read by its identifier
    by user 2. *)
Lemma lookup_by_code_and_public_read_witness :
  (exists fields evidence notes,
      handler "POST" (Some (JObj [("trackingCode", JStr "CW-0000-0000")]))
              Examples.mixed_database
      = {| status := 200; content := payload "complaint" (JObj fields) |}
      /\ keys fields = (complaint_columns ++ ["evidence"; "notes"])%list
      /\ ~ In "user_id" (keys fields)
      /\ lookup "id" fields = Some (JStr (uuid_text 101))
      /\ lookup "tracking_code" fields = Some (JStr "CW-0000-0000")
      /\ lookup "evidence" fields = Some (JArr evidence)
      /\ Forall (fun e => exists f, e = JObj f
                          /\ keys f = ["id"; "file_name"; "file_url"; "file_type";
                                       "created_at"]) evidence
      /\ lookup "notes" fields = Some (JArr notes)
      /\ Forall (fun n => exists f, n = JObj f /\ keys f = ["id"; "note"; "created_at"])
                notes)
  /\ (exists data,
         handleVerify None "CW-0000-0000" Examples.mixed_database = verified data
         /\ keys data = ["id"; "title"; "category"; "status"; "created_at"; "location";
                         "complaint_hash"]
         /\ lookup "id" data = Some (JStr (uuid_text 101)))
  /\ In Examples.owned_complaint
        (select_complaints (authenticated 2)
           (fun r => Nat.eqb (Complaint.id r) (Complaint.id Examples.owned_complaint))
           Examples.citizens_database).
Proof.
  destruct lookup_by_code_and_public_read as (Hcode & Hpage & Hid).
  split; [|split].
  - apply (Hcode "POST" Examples.mixed_database Examples.anonymous_complaint
                 "CW-0000-0000").
    + discriminate.
    + right. left. reflexivity.
    + reflexivity.
    + discriminate.
    + repeat constructor. intros [].
  - apply (Hpage None Examples.mixed_database Examples.anonymous_complaint
                 "CW-0000-0000").
    + right. left. reflexivity.
    + reflexivity.
    + reflexivity.
    + repeat constructor. intros [].
  - apply Hid. left. reflexivity.
Defined.

(** What the lookup answers there. *)
Example lookup_answer :
  handler "POST" (Some (JObj [("trackingCode", JStr "CW-0000-0000")]))
          Examples.mixed_database
  = {| status := 200;
       content :=
         payload "complaint"
           (JObj [("id", JStr "101");
                  ("title", JStr "Kickback for a road contract");
                  ("description",
                   JStr "The contractor told us that a share of every payment goes to the engineer.");
                  ("category", JStr "misuse_of_funds");
                  ("status", JStr "in_review");
                  ("location", JStr "Nashik");
                  ("latitude", JNull);
                  ("longitude", JNull);
                  ("urgency_score", JNum 5);
                  ("created_at", JNum 1);
                  ("updated_at", JNum 4);
                  ("tracking_code", JStr "CW-0000-0000");
                  ("evidence",
                   JArr [JObj [("id", JStr "102");
                               ("file_name", JStr "photo.png");
                               ("file_url",
                                JStr "/storage/v1/object/public/evidence/anonymous/101/photo.png");
                               ("file_type", JStr "image/png");
                               ("created_at", JNum 2)]]);
                  ("notes",
                   JArr [JObj [("id", JStr "103");
                               ("note", JStr "Forwarded to the vigilance cell.");
                               ("created_at", JNum 3)]])]) |}.
Proof. vm_compute. reflexivity. Qed.

(** C5 as stated fails on its second half: the complaint of user 1 is not
    anonymous, user 2 is another citizen without the government or admin
    role, and the read by raw identifier returns the row to user 2, and to a
    caller who is not signed in; the Verify page shows it. *)
Lemma raw_id_read_by_unrelated_caller :
  In Examples.owned_complaint (complaints Examples.citizens_database)
  /\ Complaint.is_anonymous Examples.owned_complaint = false
  /\ Complaint.user_id Examples.owned_complaint = Some 1%nat
  /\ 2%nat <> 1%nat
  /\ has_role Examples.citizens_database (Some 2%nat) government = false
  /\ has_role Examples.citizens_database (Some 2%nat) admin = false
  /\ select_complaints (authenticated 2) (fun r => Nat.eqb (Complaint.id r) 100)
                       Examples.citizens_database
     = [Examples.owned_complaint]
  /\ select_complaints anon (fun r => Nat.eqb (Complaint.id r) 100)
                       Examples.citizens_database
     = [Examples.owned_complaint]
  /\ handleVerify (Some 2%nat) "100" Examples.citizens_database
     = verified [("id", JStr "100");
                 ("title", JStr "Bribe at the land office");
                 ("category", JStr "bribery");
                 ("status", JStr "pending");
                 ("created_at", JNum 0);
                 ("location", JStr "Pune");
                 ("complaint_hash", JNull)].
Proof.
  split; [left; reflexivity|].
  repeat split; try discriminate; vm_compute; reflexivity.
Qed.

End Lookup.

(** ** Errors of the analysis call *)

Section Analysis.
Import Text Json Http AnalyzeComplaint.




(** The extraction and the parse at work: a fenced object is parsed, a
    sentence is not. *)
Example analysis_of_fenced :
  analysis_of JsonText.read
    ("Here is the analysis:" ++ newline ++ "```json" ++ newline
     ++ "{" ++ Db.dq ++ "urgency_score" ++ Db.dq ++ ": 8}" ++ newline ++ "```")
  = JObj [("urgency_score", JNum 8)]
  /\ analysis_of JsonText.read "I cannot analyse this complaint."
     = fallback "I cannot analyse this complaint.".
Proof. split; vm_compute; reflexivity. Qed.

End Analysis.

(** * Further properties *)

(** ** The submission page *)

Section SubmissionMore.
Import Text TrackingCode Db Submit Props Reading.

Lemma category_of_text_text : forall s c,
  category_of_text s = Some c -> category_text c = s.
Proof.
  intros s c H. unfold category_of_text in H.
  repeat match type of H with
         | (if String.eqb ?a ?b then _ else _) = _ =>
             destruct (String.eqb_spec a b) as [->|_];
             [injection H as <-; reflexivity|]
         end.
  discriminate H.
Qed.

Lemma category_text_of_text : forall c, category_of_text (category_text c) = Some c.
Proof. intros []; reflexivity. Qed.

Lemma min_issue_nil : forall p n msg v,
  min_issue p n msg v = [] <-> ~ (String.length v < n)%nat.
Proof.
  intros p n msg v. unfold min_issue.
  destruct (Nat.ltb_spec (String.length v) n) as [Hlt|Hge]; split; intros H.
  - discriminate H.
  - contradiction.
  - intros Hlt. apply (Nat.lt_irrefl n). eapply Nat.le_lt_trans; eassumption.
  - reflexivity.
Qed.

Lemma max_issue_nil : forall p n msg v,
  max_issue p n msg v = [] <-> ~ (n < String.length v)%nat.
Proof.
  intros p n msg v. unfold max_issue.
  destruct (Nat.ltb_spec n (String.length v)) as [Hlt|Hge]; split; intros H.
  - discriminate H.
  - contradiction.
  - intros Hlt. apply (Nat.lt_irrefl n). eapply Nat.lt_le_trans; eassumption.
  - reflexivity.
Qed.

Lemma enum_issue_nil : forall p v, enum_issue p v = [] <-> category_of_text v <> None.
Proof.
  intros p v. unfold enum_issue.
  destruct (category_of_text v); split; intros H; congruence.
Qed.

Lemma app_nil_iff : forall (A : Type) (l l' : list A),
  (l ++ l')%list = [] <-> l = [] /\ l' = [].
Proof.
  intros A l l'. split.
  - apply app_eq_nil.
  - intros (-> & ->). reflexivity.
Qed.

Lemma complaintSchema_issues_nil : forall f,
  complaintSchema_issues f = [] <-> ~ violates_constraints f.
Proof.
  intros f. unfold complaintSchema_issues, violates_constraints. split.
  - intros H.
    apply app_nil_iff in H. destruct H as (Ht & H).
    apply app_nil_iff in Ht. destruct Ht as (Ht1 & Ht2).
    apply app_nil_iff in H. destruct H as (Hd & H).
    apply app_nil_iff in Hd. destruct Hd as (Hd1 & Hd2).
    apply app_nil_iff in H. destruct H as (He & Hl).
    apply min_issue_nil in Ht1, Hd1, Hl. apply max_issue_nil in Ht2, Hd2.
    apply enum_issue_nil in He. tauto.
  - intros H.
    apply app_nil_iff. split; [apply app_nil_iff; split|].
    + apply min_issue_nil. tauto.
    + apply max_issue_nil. tauto.
    + apply app_nil_iff. split; [apply app_nil_iff; split|].
      * apply min_issue_nil. tauto.
      * apply max_issue_nil. tauto.
      * apply app_nil_iff. split.
        -- apply enum_issue_nil. tauto.
        -- apply min_issue_nil. tauto.
Qed.

(** What [complaintSchema.parse] returns, and when. *)
Lemma complaintSchema_parse_spec : forall f,
  (forall v, complaintSchema_parse f = inr v ->
             ~ violates_constraints f
             /\ valid_title v = title f
             /\ valid_description v = description f
             /\ category_text (valid_category v) = category f
             /\ valid_location v = location f)
  /\ (~ violates_constraints f -> exists v, complaintSchema_parse f = inr v).
Proof.
  intros f. pose proof (complaintSchema_issues_nil f) as Hnil.
  unfold complaintSchema_parse.
  destruct (complaintSchema_issues f) as [|i l].
  - destruct (category_of_text (category f)) as [c|] eqn:Hc.
    + split.
      * intros v Hv. injection Hv as <-.
        split; [apply Hnil; reflexivity|].
        repeat split. apply category_of_text_text, Hc.
      * intros _. eexists. reflexivity.
    + split; [intros v Hv; discriminate Hv|].
      intros Hn. exfalso. apply Hn. unfold violates_constraints. tauto.
  - split; [intros v Hv; discriminate Hv|].
    intros Hn. apply Hnil in Hn. discriminate Hn.
Qed.

(** X1.  [complaintSchema] accepts a form exactly when the form meets every
    constraint (title of 10 to 200 characters, description of 50 to 5000,
    category of the enumeration, location of at least 3 characters); what it
    returns then are the four fields as they were entered, the category as
    the value of the enumeration with that name. *)
Theorem complaintSchema_accepts_exactly_valid_forms : forall f,
  (forall v, complaintSchema_parse f = inr v ->
             ~ violates_constraints f
             /\ valid_title v = title f
             /\ valid_description v = description f
             /\ category_text (valid_category v) = category f
             /\ valid_location v = location f)
  /\ (~ violates_constraints f -> exists v, complaintSchema_parse f = inr v).
Proof. exact complaintSchema_parse_spec. Qed.

(** The theorem at the form of the examples. *)
Lemma complaintSchema_accepts_exactly_valid_forms_witness :
  ~ violates_constraints Examples.good_form
  /\ exists v, complaintSchema_parse Examples.good_form = inr v
               /\ valid_title v = "Bribe at the land office"
               /\ category_text (valid_category v) = "bribery".
Proof.
  destruct (complaintSchema_accepts_exactly_valid_forms Examples.good_form)
    as (Hsound & Hcomplete).
  assert (Hok : ~ violates_constraints Examples.good_form).
  { unfold violates_constraints. cbn.
    intros [?|[?|[?|[?|[?|?]]]]]; try lia; discriminate. }
  split; [exact Hok|].
  destruct (Hcomplete Hok) as (v & Hv).
  exists v. split; [exact Hv|].
  destruct (Hsound v Hv) as (_ & Ht & _ & Hc & _).
  split; [exact Ht | exact Hc].
Defined.




End SubmissionMore.

Section SubmissionRows.
Import Text TrackingCode Db Submit Props Reading.

Lemma set_tracking_code_columns : forall fuel rand pos d NEW NEW' pos',
  set_tracking_code fuel rand pos d NEW = Some (NEW', pos') ->
  NEW' = NEW \/ exists code, NEW' = Complaint.set_tracking_code_column (Some code) NEW.
Proof.
  intros fuel rand pos d NEW NEW' pos' H. unfold set_tracking_code in H.
  destruct (Complaint.is_anonymous NEW
            && match Complaint.tracking_code NEW with None => true | Some _ => false end).
  - destruct (generate_tracking_code fuel rand pos (tracking_codes d)) as [[code p]|];
      [|discriminate H].
    injection H as <- <-. right. exists code. reflexivity.
  - injection H as <- <-. left. reflexivity.
Qed.

(** The row a successful insert returns carries the values given, the
    identifier and the stamp drawn for it. *)
Lemma insert_complaint_columns : forall fuel E who v ret w NEW w1,
  insert_complaint fuel E who v ret w = Done NEW w1 ->
  Complaint.id NEW = gen_random_uuid E (uuid_pos w)
  /\ Complaint.title NEW = v_title v
  /\ Complaint.description NEW = v_description v
  /\ Complaint.category NEW = v_category v
  /\ Complaint.location NEW = v_location v
  /\ Complaint.latitude NEW = v_latitude v
  /\ Complaint.longitude NEW = v_longitude v
  /\ Complaint.urgency_score NEW = v_urgency_score v
  /\ Complaint.created_at NEW = now E (clock_pos w).
Proof.
  intros fuel E who v ret w NEW w1 H. unfold insert_complaint in H.
  destruct (negb (fits_decimal 2 (v_latitude v) && fits_decimal 3 (v_longitude v)));
    [discriminate H|].
  match type of H with
  | match set_tracking_code ?f ?r ?p ?d ?N0 with _ => _ end = _ =>
      destruct (set_tracking_code f r p d N0) as [[NEW' pos']|] eqn:Ht;
      [|discriminate H]
  end.
  apply set_tracking_code_columns in Ht.
  repeat match type of H with
         | (if ?c then _ else _) = _ => destruct c; [discriminate H|]
         end.
  injection H as <- _.
  destruct Ht as [-> | (code & ->)]; repeat split.
Qed.

(** An evidence insert adds nothing or the row of the file it was given. *)
Lemma insert_evidence_file_row : forall E who cid owner f w,
  let url := getPublicUrl (owner ++ "/" ++ uuid_text cid ++ "/" ++ f_name f) in
  let w' := unchecked (insert_evidence_file E who cid url (f_name f) (f_type f) (f_size f)
                                            (calculateFileHash f) w) w in
  evidence_files (db w') = evidence_files (db w)
  \/ exists e, evidence_files (db w') = (evidence_files (db w) ++ [e])%list
               /\ evidence_row_of owner cid f e.
Proof.
  intros E who cid owner f w. cbv zeta. unfold insert_evidence_file.
  repeat match goal with
         | |- context [if ?c then Failed _ _ else _] => destruct c
         end; cbn; try (left; reflexivity).
  right. eexists. split; [reflexivity|]. repeat split.
Qed.

(** Each evidence row the loop adds is the row of one of the files. *)
Lemma upload_evidence_rows : forall E who owner cid files acc w,
  exists added,
    evidence_files (db (world_of (upload_evidence E who owner cid files acc w)))
    = (evidence_files (db w) ++ added)%list
    /\ (List.length added <= List.length files)%nat
    /\ Forall (fun e => exists f, In f files /\ evidence_row_of owner cid f e) added.
Proof.
  intros E who owner cid files.
  induction files as [|file rest IH]; intros acc w; cbn [upload_evidence].
  - exists []. cbn. rewrite app_nil_r. repeat split; constructor.
  - destruct (storage_upload E _ w) as [msg|w1] eqn:Hup.
    + exists []. cbn. rewrite app_nil_r. repeat split; [apply Nat.le_0_l | constructor].
    + apply storage_upload_db in Hup. destruct Hup as (Hdb & _).
      pose proof (insert_evidence_file_row E who cid owner file w1) as Hrow.
      cbv zeta in Hrow.
      match goal with
      | |- context [unchecked ?o w1] => set (w2 := unchecked o w1) in *
      end.
      destruct (IH (acc ++ [calculateFileHash file])%list w2) as (added2 & He2 & Hl2 & Ha2).
      rewrite Hdb in Hrow.
      assert (Hmono : forall e, (exists f, In f rest /\ evidence_row_of owner cid f e) ->
                                exists f, In f (file :: rest)
                                          /\ evidence_row_of owner cid f e).
      { intros e (f & Hin & Hf). exists f. split; [right; exact Hin | exact Hf]. }
      destruct Hrow as [Hsame | (e & Hadd & He)].
      * exists added2. rewrite He2, Hsame. repeat split.
        -- cbn. lia.
        -- eapply Forall_impl; [exact Hmono | exact Ha2].
      * exists (e :: added2). rewrite He2, Hadd, <- app_assoc. repeat split.
        -- cbn. lia.
        -- constructor.
           ++ exists file. split; [left; reflexivity | exact He].
           ++ eapply Forall_impl; [exact Hmono | exact Ha2].
Qed.

(** Once the complaint is inserted, [handleSubmit] comes to an end: the
    table holds the new row, at most with the hashes and a new stamp written
    by the update; the evidence rows added are rows of the files; the page
    shows the error of a refused upload, or else the tracking code when the
    form is the anonymous one and the identifier otherwise. *)
Lemma handleSubmit_after_insert :
  forall fuel E session isAnonymous formData files w v NEW w1,
    complaintSchema_parse formData = inr v ->
    insert_complaint fuel E (caller_of session)
                     (inserted_values session isAnonymous formData v) true w
    = Done NEW w1 ->
    exists out w' c' added,
      handleSubmit fuel E session isAnonymous formData files w = Some (out, w')
      /\ complaints (db w') = (complaints (db w) ++ [c'])%list
      /\ (c' = NEW
          \/ exists t, c' = Complaint.set_updated_at t
                              (Complaint.set_evidence_hashes
                                 (map calculateFileHash files) NEW))
      /\ evidence_files (db w') = (evidence_files (db w) ++ added)%list
      /\ (List.length added <= List.length files)%nat
      /\ Forall (fun e => exists f, In f files
                                    /\ evidence_row_of (path_owner session isAnonymous)
                                                       (Complaint.id NEW) f e) added
      /\ ((exists uploadError, out = toast_error (message_or_default uploadError)
                               /\ c' = NEW /\ files <> [])
          \/ match Complaint.tracking_code NEW with
             | Some code =>
                 if isAnonymous && negb (String.eqb code "")
                 then out = tracking_dialog code
                 else out = toast_submitted (Complaint.id NEW)
             | None => out = toast_submitted (Complaint.id NEW)
             end).
Proof.
  intros fuel E session isAnonymous formData files w v NEW w1 Hv Hins.
  unfold handleSubmit. rewrite Hv, Hins.
  pose proof (insert_complaint_done _ _ _ _ _ _ _ _ Hins) as (Hdb & _ & Hfresh & _).
  pose proof (complaint_exists_false _ _ Hfresh) as Hne.
  assert (Hc1 : complaints (db w1) = (complaints (db w) ++ [NEW])%list)
    by (rewrite Hdb; reflexivity).
  assert (He1 : evidence_files (db w1) = evidence_files (db w))
    by (rewrite Hdb; reflexivity).
  pose proof (upload_evidence_spec E (caller_of session) (path_owner session isAnonymous)
                (Complaint.id NEW) files [] w1) as Hup.
  pose proof (upload_evidence_rows E (caller_of session) (path_owner session isAnonymous)
                (Complaint.id NEW) files [] w1) as (added & Ue & Ulen & Uall).
  cbv zeta in Hup.
  destruct (upload_evidence E (caller_of session) (path_owner session isAnonymous)
              (Complaint.id NEW) files [] w1)
    as [[uploadError w2]|[hashes w2]] eqn:Hres; cbn [world_of] in Hup, Ue;
    destruct Hup as (Uc & _ & _ & _ & _ & Uh).
  - exists (toast_error (message_or_default uploadError)), w2, NEW, added.
    split; [reflexivity|]. split; [congruence|]. split; [left; reflexivity|].
    split; [congruence|]. split; [exact Ulen|]. split; [exact Uall|].
    left. exists uploadError. repeat split.
    intros ->. cbn in Hres. discriminate Hres.
  - cbn [app] in Uh. subst hashes.
    pose proof (update_complaints_last E (caller_of session)
                  (Complaint.set_evidence_hashes (map calculateFileHash files)) w2
                  (complaints (db w)) NEW (eq_trans Uc Hc1) Hne) as Hupd.
    cbv zeta in Hupd.
    unfold finish.
    set (w3 := unchecked (update_complaints E (caller_of session)
                            (Complaint.set_evidence_hashes (map calculateFileHash files))
                            (Complaint.id NEW) w2) w2) in *.
    destruct Hupd as (Pe & _ & _ & _ & _ & c' & Pc & Pcase).
    pose proof (unchecked_insert_public_log E session (Complaint.id NEW)
                  (join "," (map calculateFileHash files)) "complaint_created" w3)
      as (Hlog & _).
    set (w4 := unchecked (insert_public_log E (caller_of session) (Complaint.id NEW)
                            (join "," (map calculateFileHash files))
                            "complaint_created" w3) w3) in *.
    assert (Hrows : complaints (db w4) = (complaints (db w) ++ [c'])%list
                    /\ evidence_files (db w4) = (evidence_files (db w) ++ added)%list)
      by (rewrite Hlog; split; congruence).
    destruct Hrows as (Hr1 & Hr2).
    assert (Hc' : c' = NEW
                  \/ exists t, c' = Complaint.set_updated_at t
                                      (Complaint.set_evidence_hashes
                                         (map calculateFileHash files) NEW)).
    { destruct Pcase as [-> | (_ & ->)]; [left; reflexivity | right; eexists; reflexivity]. }
    destruct (Complaint.tracking_code NEW) as [code|];
      [destruct (isAnonymous && negb (String.eqb code ""))|];
      eexists; exists w4, c', added;
      (split; [reflexivity|]); repeat (split; [assumption|]); right; reflexivity.
Qed.

End SubmissionRows.

Section SubmissionOutcome.
Import Text TrackingCode Json Http Db Submit Props Reading VerifyTracking.

Lemma fits_decimal_negb : forall a b,
  fits_decimal 2 a = true -> fits_decimal 3 b = true ->
  negb (fits_decimal 2 a && fits_decimal 3 b) = false.
Proof. intros a b -> ->. reflexivity. Qed.

(** The insert of [handleSubmit] on the anonymous form, by a visitor who is
    not signed in, succeeds as soon as the coordinates fit their columns, the
    identifier drawn is new and one of the first [fuel] candidates is free. *)
Lemma insert_complaint_anonymous_succeeds : forall fuel E formData v w k,
  fits_decimal 2 (latitude formData) = true ->
  fits_decimal 3 (longitude formData) = true ->
  complaint_exists (db w) (gen_random_uuid E (uuid_pos w)) = false ->
  code_exists (tracking_codes (db w)) (nth_candidate (rand_md5 E) (rand_pos w) k) = false ->
  (k < fuel)%nat ->
  exists NEW w1,
    insert_complaint fuel E anon (inserted_values None true formData v) true w
    = Done NEW w1.
Proof.
  intros fuel E formData v w k Hlat Hlong Hfresh Hfree Hk.
  destruct (generate_tracking_code_terminates _ _ _ _ _ Hfree Hk) as (code & pos' & Hg).
  destruct (generate_tracking_code_returns _ _ _ _ _ _ Hg) as (_ & _ & _ & _ & Hcode & _).
  unfold insert_complaint.
  cbn [inserted_values v_latitude v_longitude v_is_anonymous v_user_id v_urgency_score
       v_title v_description v_category v_location].
  rewrite (fits_decimal_negb _ _ Hlat Hlong).
  unfold set_tracking_code.
  cbn [Complaint.is_anonymous Complaint.tracking_code andb db next_clock next_uuid rand_pos].
  rewrite Hg.
  cbn -[code_exists tracking_codes complaints].
  unfold complaint_exists in Hfresh. rewrite Hfresh, Hcode.
  eexists. eexists. reflexivity.
Qed.

(** The same for a signed-in user on the ordinary form; no code is drawn. *)
Lemma insert_complaint_signed_in_succeeds : forall fuel E u formData v w,
  fits_decimal 2 (latitude formData) = true ->
  fits_decimal 3 (longitude formData) = true ->
  complaint_exists (db w) (gen_random_uuid E (uuid_pos w)) = false ->
  exists NEW w1,
    insert_complaint fuel E (authenticated u) (inserted_values (Some u) false formData v)
                     true w
    = Done NEW w1.
Proof.
  intros fuel E u formData v w Hlat Hlong Hfresh.
  unfold insert_complaint.
  cbn [inserted_values v_latitude v_longitude v_is_anonymous v_user_id v_urgency_score
       v_title v_description v_category v_location].
  rewrite (fits_decimal_negb _ _ Hlat Hlong).
  unfold set_tracking_code.
  cbn -[complaints].
  unfold complaint_exists in Hfresh. rewrite Hfresh, Nat.eqb_refl.
  cbn. eexists. eexists. reflexivity.
Qed.

(** X3.  A valid anonymous submission by a visitor who is not signed in goes
    through: when the coordinates fit their columns, the identifier drawn is
    new and one of the first [fuel] candidates is free, [handleSubmit]
    returns, the table gains a pending complaint with that identifier and a
    tracking code, and the page shows that code unless the upload of a file
    was refused. *)
Theorem anonymous_submission_succeeds : forall fuel E formData files w k,
  ~ violates_constraints formData ->
  fits_decimal 2 (latitude formData) = true ->
  fits_decimal 3 (longitude formData) = true ->
  complaint_exists (db w) (gen_random_uuid E (uuid_pos w)) = false ->
  code_exists (tracking_codes (db w)) (nth_candidate (rand_md5 E) (rand_pos w) k) = false ->
  (k < fuel)%nat ->
  exists out w' r code,
    handleSubmit fuel E None true formData files w = Some (out, w')
    /\ complaints (db w') = (complaints (db w) ++ [r])%list
    /\ Complaint.id r = gen_random_uuid E (uuid_pos w)
    /\ Complaint.is_anonymous r = true
    /\ Complaint.status r = pending
    /\ Complaint.tracking_code r = Some code
    /\ (out = tracking_dialog code
        \/ files <> [] /\ exists message, out = toast_error message).
Proof.
  intros fuel E formData files w k Hvalid Hlat Hlong Hfresh Hfree Hk.
  destruct (proj2 (complaintSchema_parse_spec formData) Hvalid)
    as (v & Hv).
  destruct (insert_complaint_anonymous_succeeds fuel E formData v w k
              Hlat Hlong Hfresh Hfree Hk) as (NEW & w1 & Hins).
  destruct (handleSubmit_after_insert fuel E None true formData files w v NEW w1 Hv Hins)
    as (out & w' & c' & added & Hrun & Hrows & Hc' & _ & _ & _ & Hout).
  destruct (insert_complaint_done _ _ _ _ _ _ _ _ Hins)
    as (_ & _ & _ & Ha & _ & _ & Hst & _ & Hcode).
  destruct (insert_complaint_columns _ _ _ _ _ _ _ _ Hins) as (Hid & _).
  cbn [inserted_values v_is_anonymous] in Ha, Hcode.
  destruct Hcode as (j & Hj & _).
  exists out, w', c', (nth_candidate (rand_md5 E) (rand_pos w) j).
  split; [exact Hrun|]. split; [exact Hrows|].
  assert (Hsame : Complaint.id c' = Complaint.id NEW
                  /\ Complaint.is_anonymous c' = Complaint.is_anonymous NEW
                  /\ Complaint.status c' = Complaint.status NEW
                  /\ Complaint.tracking_code c' = Complaint.tracking_code NEW)
    by (destruct Hc' as [-> | (t & ->)]; repeat split).
  destruct Hsame as (-> & -> & -> & ->).
  repeat (split; [assumption|]).
  destruct Hout as [(uploadError & -> & _ & Hfiles) | Hout].
  - right. split; [exact Hfiles|]. eexists. reflexivity.
  - left. rewrite Hj in Hout. cbn [andb] in Hout.
    destruct (String.eqb_spec (nth_candidate (rand_md5 E) (rand_pos w) j) "") as [He|_];
      [exfalso; exact (candidate_nonempty _ _ He) | exact Hout].
Qed.

End SubmissionOutcome.

Section SubmissionOutcome2.
Import Text TrackingCode Json Http Db Submit Props Reading VerifyTracking.

(** The theorem at the form of the examples, submitted with a photo into the
    database of the registered users: the third candidate would do, the first
    one is free. *)
Lemma anonymous_submission_succeeds_witness :
  exists out w' r code,
    handleSubmit 3 Examples.env None true Examples.good_form [Examples.photo]
                 (with_db Examples.registered empty_world) = Some (out, w')
    /\ complaints (db w') = (complaints Examples.registered ++ [r])%list
    /\ Complaint.id r = 100%nat
    /\ Complaint.is_anonymous r = true
    /\ Complaint.status r = pending
    /\ Complaint.tracking_code r = Some code
    /\ (out = tracking_dialog code
        \/ [Examples.photo] <> [] /\ exists message, out = toast_error message).
Proof.
  apply (anonymous_submission_succeeds 3 Examples.env Examples.good_form [Examples.photo]
           (with_db Examples.registered empty_world) 2).
  - unfold violates_constraints. cbn.
    intros [?|[?|[?|[?|[?|?]]]]]; try lia; discriminate.
  - reflexivity.
  - reflexivity.
  - reflexivity.
  - vm_compute. reflexivity.
  - lia.
Defined.

(** X4.  A valid submission of a signed-in user on the ordinary form goes
    through whenever the coordinates fit and the identifier drawn is new: the
    table gains a pending complaint owned by that user, without tracking
    code, and the page shows its identifier unless the upload of a file was
    refused.  The loop of the trigger is not entered: this holds whatever the
    fuel. *)
Theorem signed_in_submission_succeeds : forall fuel E u formData files w,
  ~ violates_constraints formData ->
  fits_decimal 2 (latitude formData) = true ->
  fits_decimal 3 (longitude formData) = true ->
  complaint_exists (db w) (gen_random_uuid E (uuid_pos w)) = false ->
  exists out w' r,
    handleSubmit fuel E (Some u) false formData files w = Some (out, w')
    /\ complaints (db w') = (complaints (db w) ++ [r])%list
    /\ Complaint.id r = gen_random_uuid E (uuid_pos w)
    /\ Complaint.user_id r = Some u
    /\ Complaint.is_anonymous r = false
    /\ Complaint.status r = pending
    /\ Complaint.tracking_code r = None
    /\ (out = toast_submitted (Complaint.id r)
        \/ files <> [] /\ exists message, out = toast_error message).
Proof.
  intros fuel E u formData files w Hvalid Hlat Hlong Hfresh.
  destruct (proj2 (complaintSchema_parse_spec formData) Hvalid) as (v & Hv).
  destruct (insert_complaint_signed_in_succeeds fuel E u formData v w
              Hlat Hlong Hfresh) as (NEW & w1 & Hins).
  destruct (handleSubmit_after_insert fuel E (Some u) false formData files w v NEW w1
              Hv Hins)
    as (out & w' & c' & added & Hrun & Hrows & Hc' & _ & _ & _ & Hout).
  destruct (insert_complaint_done _ _ _ _ _ _ _ _ Hins)
    as (_ & _ & _ & Ha & Hu & _ & Hst & _ & Hcode).
  destruct (insert_complaint_columns _ _ _ _ _ _ _ _ Hins) as (Hid & _).
  cbn [inserted_values v_is_anonymous v_user_id] in Ha, Hu, Hcode.
  exists out, w', c'.
  split; [exact Hrun|]. split; [exact Hrows|].
  assert (Hsame : Complaint.id c' = Complaint.id NEW
                  /\ Complaint.user_id c' = Complaint.user_id NEW
                  /\ Complaint.is_anonymous c' = Complaint.is_anonymous NEW
                  /\ Complaint.status c' = Complaint.status NEW
                  /\ Complaint.tracking_code c' = Complaint.tracking_code NEW)
    by (destruct Hc' as [-> | (t & ->)]; repeat split).
  destruct Hsame as (-> & -> & -> & -> & ->).
  repeat (split; [assumption|]).
  destruct Hout as [(uploadError & -> & _ & Hfiles) | Hout].
  - right. split; [exact Hfiles|]. eexists. reflexivity.
  - left. rewrite Hcode in Hout. exact Hout.
Qed.

End SubmissionOutcome2.

Section SubmissionRoundTrip.
Import Text TrackingCode Json Http Db Submit Props Reading VerifyTracking.

(** The theorem at user 1 and the form of the examples, with no fuel at all. *)
Lemma signed_in_submission_succeeds_witness :
  exists out w' r,
    handleSubmit 0 Examples.env (Some 1%nat) false Examples.good_form []
                 (with_db Examples.registered empty_world) = Some (out, w')
    /\ complaints (db w') = (complaints Examples.registered ++ [r])%list
    /\ Complaint.id r = 100%nat
    /\ Complaint.user_id r = Some 1%nat
    /\ Complaint.is_anonymous r = false
    /\ Complaint.status r = pending
    /\ Complaint.tracking_code r = None
    /\ (out = toast_submitted (Complaint.id r)
        \/ @nil file <> [] /\ exists message, out = toast_error message).
Proof.
  apply (signed_in_submission_succeeds 0 Examples.env 1 Examples.good_form []
           (with_db Examples.registered empty_world)).
  - unfold violates_constraints. cbn.
    intros [?|[?|[?|[?|[?|?]]]]]; try lia; discriminate.
  - reflexivity.
  - reflexivity.
  - reflexivity.
Defined.

(** The answer of [verify-tracking] for a code that exactly one row carries. *)
Lemma handler_finds_code : forall method d c code,
  method <> "OPTIONS" ->
  In c (complaints d) -> Complaint.tracking_code c = Some code -> code <> "" ->
  unique_tracking_codes d ->
  exists evidence notes,
    handler method (Some (JObj [("trackingCode", JStr code)])) d
    = {| status := 200;
         content :=
           payload "complaint"
             (JObj (select_columns Complaint.column complaint_columns c
                    ++ [("evidence", JArr evidence); ("notes", JArr notes)])%list) |}
    /\ List.length evidence = List.length (evidence_of d (Complaint.id c)).
Proof.
  intros method d c code Hm Hin Hc Hne Hu.
  unfold handler.
  destruct (String.eqb_spec method "OPTIONS") as [|_]; [contradiction|].
  cbn [lookup String.eqb Ascii.eqb Bool.eqb].
  replace (String.eqb "trackingCode" "trackingCode") with true by reflexivity.
  cbn [truthy negb].
  destruct (String.eqb_spec code "") as [|_]; [contradiction|]. cbn [negb].
  unfold select_complaints. rewrite visible_complaints_all. cbn [js_string].
  unfold unique_tracking_codes in Hu. rewrite assigned_codes_keys in Hu.
  rewrite (filter_by_code _ c code Hin Hc Hu). cbn [maybeSingle].
  eexists. eexists. split; [reflexivity|].
  rewrite length_map. reflexivity.
Qed.

(** What the Verify page shows for such a code of the generator's format. *)
Lemma handleVerify_finds_code : forall session d c code,
  In c (complaints d) -> Complaint.tracking_code c = Some code ->
  is_hex_tracking_code code = true -> unique_tracking_codes d ->
  handleVerify session code d
  = verified (select_columns Complaint.column
                ["id"; "title"; "category"; "status"; "created_at"; "location";
                 "complaint_hash"] c).
Proof.
  intros session d c code Hin Hc Hhex Hu.
  destruct (hex_code_entered code Hhex) as (Htrim & Hup & Htc & Hne).
  unfold handleVerify. rewrite Htrim.
  destruct (String.eqb_spec code "") as [|_]; [contradiction|].
  rewrite Htc, Hup. unfold select_complaints. rewrite visible_complaints_all.
  unfold unique_tracking_codes in Hu. rewrite assigned_codes_keys in Hu.
  rewrite (filter_by_code _ c code Hin Hc Hu). reflexivity.
Qed.

(** X5.  Round trip of a submission and a lookup: when the table had no
    shared tracking code and [handleSubmit] ended with the dialog of a code,
    the lookup of [verify-tracking] by that code, on the database the
    submission left, answers 200 with the complaint just submitted: title,
    description, category and location as entered in the form, status
    pending, urgency 5, that code; and the Verify page shows the same
    complaint for that code. *)
Theorem submitted_complaint_is_found_by_its_code :
  forall fuel E session isAnonymous formData files w code w' method,
    unique_tracking_codes (db w) ->
    method <> "OPTIONS" ->
    handleSubmit fuel E session isAnonymous formData files w
    = Some (tracking_dialog code, w') ->
    exists fields data,
      handler method (Some (JObj [("trackingCode", JStr code)])) (db w')
      = {| status := 200; content := payload "complaint" (JObj fields) |}
      /\ lookup "tracking_code" fields = Some (JStr code)
      /\ lookup "title" fields = Some (JStr (title formData))
      /\ lookup "description" fields = Some (JStr (description formData))
      /\ lookup "category" fields = Some (JStr (category formData))
      /\ lookup "location" fields = Some (JStr (location formData))
      /\ lookup "status" fields = Some (JStr "pending")
      /\ lookup "urgency_score" fields = Some (JNum 5)
      /\ handleVerify None code (db w') = verified data
      /\ lookup "id" data = lookup "id" fields
      /\ lookup "title" data = Some (JStr (title formData)).
Proof.
  intros fuel E session isAnonymous formData files w code w' method Hu Hm H.
  assert (Hu' : unique_tracking_codes (db w')).
  { destruct (run_operation_codes fuel E (submit session isAnonymous formData files) w w')
      as (_ & _ & Hk); [cbn; rewrite H; reflexivity | exact (Hk Hu)]. }
  destruct (handleSubmit_cases _ _ _ _ _ _ _ _ _ H)
    as [(issues & _ & Habs & _) | (v & Hv & [(e & _ & Habs) | (NEW & w1 & Hins & _)])];
    try discriminate Habs.
  destruct (handleSubmit_after_insert fuel E session isAnonymous formData files w v NEW w1
              Hv Hins)
    as (out & w'' & c' & added & Hrun & Hrows & Hc' & _ & _ & _ & Hout).
  rewrite H in Hrun. injection Hrun as <- <-.
  destruct (insert_complaint_done _ _ _ _ _ _ _ _ Hins)
    as (_ & _ & _ & Ha & _ & _ & Hst & _ & Hcode).
  destruct (insert_complaint_columns _ _ _ _ _ _ _ _ Hins)
    as (_ & Ht & Hd & Hcat & Hloc & _ & _ & Hurg & _).
  destruct (proj1 (complaintSchema_parse_spec formData) v Hv)
    as (_ & Vt & Vd & Vc & Vl).
  cbn [inserted_values v_is_anonymous v_title v_description v_category v_location
       v_urgency_score] in Ha, Hcode, Ht, Hd, Hcat, Hloc, Hurg.
  (* the code shown is the code of the row *)
  assert (Hrow : isAnonymous = true /\ Complaint.tracking_code NEW = Some code
                 /\ is_hex_tracking_code code = true).
  { destruct Hout as [(uploadError & Habs & _) | Hout]; [discriminate Habs|].
    destruct (Complaint.tracking_code NEW) as [code0|] eqn:Hc0; [|discriminate Hout].
    destruct isAnonymous; cbn [andb] in Hout; [|discriminate Hout].
    destruct (negb (String.eqb code0 "")); [|discriminate Hout].
    injection Hout as <-. split; [reflexivity|]. split; [reflexivity|].
    destruct Hcode as (k & Hk & _). injection Hk as ->.
    apply candidate_is_hex. }
  destruct Hrow as (-> & Hc & Hhex).
  assert (Hsame : Complaint.tracking_code c' = Some code
                  /\ Complaint.title c' = title formData
                  /\ Complaint.description c' = description formData
                  /\ category_text (Complaint.category c') = category formData
                  /\ Complaint.location c' = location formData
                  /\ Complaint.status c' = pending
                  /\ Complaint.urgency_score c' = 5%Z).
  { destruct Hc' as [-> | (t & ->)]; cbn; repeat split; congruence. }
  destruct Hsame as (Sc & St & Sd & Scat & Sl & Sst & Su).
  assert (Hin : In c' (complaints (db w'))).
  { rewrite Hrows. apply in_or_app. right. left. reflexivity. }
  destruct (hex_code_entered code Hhex) as (_ & _ & _ & Hne).
  destruct (handler_finds_code method (db w') c' code Hm Hin Sc Hne Hu')
    as (evidence & notes & Hh & _).
  eexists. eexists. split; [exact Hh|].
  rewrite (handleVerify_finds_code None (db w') c' code Hin Sc Hhex Hu').
  cbn. rewrite Sc, St, Sd, Scat, Sl, Sst, Su. repeat split; reflexivity.
Qed.

(** The theorem at the anonymous submission of the examples. *)
Lemma submitted_complaint_is_found_by_its_code_witness :
  exists code w' fields data,
    handleSubmit 3 Examples.env None true Examples.good_form [Examples.photo]
                 (with_db Examples.registered empty_world)
    = Some (tracking_dialog code, w')
    /\ handler "POST" (Some (JObj [("trackingCode", JStr code)])) (db w')
       = {| status := 200; content := payload "complaint" (JObj fields) |}
    /\ lookup "tracking_code" fields = Some (JStr code)
    /\ lookup "title" fields = Some (JStr "Bribe at the land office")
    /\ lookup "category" fields = Some (JStr "bribery")
    /\ lookup "status" fields = Some (JStr "pending")
    /\ handleVerify None code (db w') = verified data
    /\ lookup "id" data = lookup "id" fields.
Proof.
  destruct (handleSubmit 3 Examples.env None true Examples.good_form [Examples.photo]
                         (with_db Examples.registered empty_world))
    as [[out w']|] eqn:H; [|vm_compute in H; discriminate H].
  assert (Hout : out = tracking_dialog "CW-0000-0000")
    by (vm_compute in H; injection H as <- _; reflexivity).
  subst out.
  assert (Hm : "POST" <> "OPTIONS") by discriminate.
  assert (Hu : unique_tracking_codes (db (with_db Examples.registered empty_world)))
    by constructor.
  destruct (submitted_complaint_is_found_by_its_code
              3 Examples.env None true Examples.good_form [Examples.photo]
              (with_db Examples.registered empty_world) "CW-0000-0000" w' "POST" Hu Hm H)
    as (fields & data & Hh & Hc & Ht & _ & Hcat & _ & Hst & _ & Hv & Hid & _).
  exists "CW-0000-0000", w', fields, data.
  repeat (split; [first [reflexivity | assumption]|]). exact Hid.
Defined.

End SubmissionRoundTrip.

Section SubmissionEvidence.
Import Text TrackingCode Json Http Db Submit Props Reading.

(** X6.  Every evidence row that [handleSubmit] adds describes one of the
    submitted files: its name, type, size, the hexadecimal SHA-256 of its
    content, and the public URL of the path [owner/complaint/name], where the
    owner is the word anonymous on the anonymous form and the user's
    identifier otherwise; it refers to a complaint that the same run
    created.  There are at most as many such rows as files. *)
Theorem evidence_rows_describe_the_files :
  forall fuel E session isAnonymous formData files w out w',
    handleSubmit fuel E session isAnonymous formData files w = Some (out, w') ->
    exists added,
      evidence_files (db w') = (evidence_files (db w) ++ added)%list
      /\ (List.length added <= List.length files)%nat
      /\ Forall (fun e =>
                   complaint_exists (db w) (EvidenceFile.complaint_id e) = false
                   /\ complaint_exists (db w') (EvidenceFile.complaint_id e) = true
                   /\ exists f, In f files
                                /\ evidence_row_of (path_owner session isAnonymous)
                                                   (EvidenceFile.complaint_id e) f e)
                added.
Proof.
  intros fuel E session isAnonymous formData files w out w' H.
  destruct (handleSubmit_cases _ _ _ _ _ _ _ _ _ H)
    as [(issues & _ & _ & ->) | (v & Hv & [(e & Hins & _) | (NEW & w1 & Hins & _)])].
  - exists []. rewrite app_nil_r. repeat split; [apply Nat.le_0_l | constructor].
  - apply insert_complaint_failed in Hins. destruct Hins as (-> & _).
    exists []. rewrite app_nil_r. repeat split; [apply Nat.le_0_l | constructor].
  - destruct (handleSubmit_after_insert fuel E session isAnonymous formData files w v NEW w1
                Hv Hins)
      as (out0 & w0 & c' & added & Hrun & Hrows & Hc' & He & Hlen & Hall & _).
    rewrite H in Hrun. injection Hrun as <- <-.
    destruct (insert_complaint_done _ _ _ _ _ _ _ _ Hins) as (_ & _ & Hfresh & _).
    exists added. split; [exact He|]. split; [exact Hlen|].
    eapply Forall_impl; [|exact Hall].
    intros e (f & Hin & Hrow).
    assert (Hcid : EvidenceFile.complaint_id e = Complaint.id NEW) by apply Hrow.
    rewrite Hcid. split; [exact Hfresh|]. split.
    + unfold complaint_exists. rewrite Hrows, existsb_app. cbn.
      replace (Complaint.id c') with (Complaint.id NEW)
        by (destruct Hc' as [-> | (t & ->)]; reflexivity).
      rewrite Nat.eqb_refl, orb_true_r. reflexivity.
    + exists f. split; [exact Hin | exact Hrow].
Qed.

(** The theorem at the two files of the examples. *)
Lemma evidence_rows_describe_the_files_witness :
  exists out w' added,
    handleSubmit 3 Examples.env None true Examples.good_form
                 [Examples.photo; Examples.receipt] empty_world = Some (out, w')
    /\ evidence_files (db w') = (evidence_files (db empty_world) ++ added)%list
    /\ (List.length added <= 2)%nat
    /\ Forall (fun e =>
                 complaint_exists (db empty_world) (EvidenceFile.complaint_id e) = false
                 /\ complaint_exists (db w') (EvidenceFile.complaint_id e) = true
                 /\ exists f, In f [Examples.photo; Examples.receipt]
                              /\ evidence_row_of (path_owner None true)
                                                 (EvidenceFile.complaint_id e) f e)
              added.
Proof.
  destruct (handleSubmit 3 Examples.env None true Examples.good_form
                         [Examples.photo; Examples.receipt] empty_world)
    as [[out w']|] eqn:H; [|vm_compute in H; discriminate H].
  destruct (evidence_rows_describe_the_files _ _ _ _ _ _ _ _ _ H)
    as (added & He & Hlen & Hall).
  exists out, w', added. split; [reflexivity|]. auto.
Defined.

(** The hashes and the URLs of the two rows of that run. *)
Example evidence_rows_of_two_files :
  option_map (fun r => map (fun e => (EvidenceFile.file_hash e, EvidenceFile.file_url e))
                           (evidence_files (db (snd r))))
             (handleSubmit 3 Examples.env None true Examples.good_form
                           [Examples.photo; Examples.receipt] empty_world)
  = Some [("0aff", "/storage/v1/object/public/evidence/anonymous/100/photo.png");
          ("0102", "/storage/v1/object/public/evidence/anonymous/100/receipt.pdf")].
Proof. vm_compute. reflexivity. Qed.

(** Two files of the same name in a row: the first goes to the object store
    (when nothing is stored under its path and the store has no objection),
    the second is refused because the path exists. *)
Lemma upload_evidence_same_name : forall E who owner cid f g rest acc w,
  f_name g = f_name f ->
  upload_fault E (owner ++ "/" ++ uuid_text cid ++ "/" ++ f_name f) = None ->
  existsb (String.eqb (owner ++ "/" ++ uuid_text cid ++ "/" ++ f_name f))
          (storage_objects w) = false ->
  exists w2,
    upload_evidence E who owner cid (f :: g :: rest) acc w
    = inl ("The resource already exists", w2)
    /\ storage_objects w2
       = (storage_objects w
          ++ [(owner ++ "/" ++ uuid_text cid ++ "/" ++ f_name f)%string])%list.
Proof.
  intros E who owner cid f g rest acc w Hname Hfault Hnew.
  cbn [upload_evidence]. unfold storage_upload at 1. rewrite Hfault, Hnew.
  match goal with
  | |- context [unchecked ?o ?w1] =>
      pose proof (unchecked_insert_evidence_file E who cid
                    (getPublicUrl (owner ++ "/" ++ uuid_text cid ++ "/" ++ f_name f))
                    (f_name f) (f_type f) (f_size f) (calculateFileHash f) w1) as Hins;
      set (w2 := unchecked o w1) in *
  end.
  cbv zeta in Hins. destruct Hins as (_ & _ & _ & _ & Hst & _).
  cbn [storage_objects with_storage_objects] in Hst.
  exists w2. unfold storage_upload. rewrite Hname, Hfault, Hst.
  rewrite existsb_app. cbn [existsb]. rewrite String.eqb_refl, orb_true_r.
  split; reflexivity.
Qed.

(** X7.  Two files of the same name, chosen first and second, on the
    anonymous form: under the conditions of a successful anonymous insert,
    with nothing stored yet under the path of the first file, the complaint
    is created with its tracking code, the second upload is refused because
    the path exists, and the page ends with that error: the code is not
    shown, no audit entry and no hash list is written. *)
Theorem same_name_twice_loses_the_tracking_code :
  forall fuel E formData f g rest w k,
    ~ violates_constraints formData ->
    fits_decimal 2 (latitude formData) = true ->
    fits_decimal 3 (longitude formData) = true ->
    complaint_exists (db w) (gen_random_uuid E (uuid_pos w)) = false ->
    code_exists (tracking_codes (db w)) (nth_candidate (rand_md5 E) (rand_pos w) k)
    = false ->
    (k < fuel)%nat ->
    f_name g = f_name f ->
    upload_fault E ("anonymous/" ++ uuid_text (gen_random_uuid E (uuid_pos w)) ++ "/"
                    ++ f_name f) = None ->
    existsb (String.eqb ("anonymous/" ++ uuid_text (gen_random_uuid E (uuid_pos w)) ++ "/"
                         ++ f_name f)) (storage_objects w) = false ->
    exists w' r code,
      handleSubmit fuel E None true formData (f :: g :: rest) w
      = Some (toast_error "The resource already exists", w')
      /\ complaints (db w') = (complaints (db w) ++ [r])%list
      /\ Complaint.tracking_code r = Some code
      /\ Complaint.evidence_hashes r = []
      /\ public_logs (db w') = public_logs (db w).
Proof.
  intros fuel E formData f g rest w k Hvalid Hlat Hlong Hfresh Hfree Hk Hname Hfault Hnew.
  destruct (proj2 (complaintSchema_parse_spec formData) Hvalid) as (v & Hv).
  destruct (insert_complaint_anonymous_succeeds fuel E formData v w k
              Hlat Hlong Hfresh Hfree Hk) as (NEW & w1 & Hins).
  destruct (insert_complaint_done _ _ _ _ _ _ _ _ Hins)
    as (Hdb & Hst & _ & _ & _ & Hempty & _ & _ & Hcode).
  destruct (insert_complaint_columns _ _ _ _ _ _ _ _ Hins) as (Hid & _).
  cbn [inserted_values v_is_anonymous] in Hcode. destruct Hcode as (j & Hj & _).
  rewrite <- Hid in Hfault, Hnew. rewrite <- Hst in Hnew.
  destruct (upload_evidence_same_name E anon "anonymous" (Complaint.id NEW) f g rest []
              w1 Hname Hfault Hnew) as (w2 & Hup & _).
  pose proof (upload_evidence_spec E anon "anonymous" (Complaint.id NEW) (f :: g :: rest)
                [] w1) as Hspec.
  cbv zeta in Hspec. rewrite Hup in Hspec. cbn [world_of] in Hspec.
  destruct Hspec as (Uc & Ul & _).
  exists w2, NEW, (nth_candidate (rand_md5 E) (rand_pos w) j).
  split.
  - unfold handleSubmit. rewrite Hv. cbn [caller_of path_owner]. rewrite Hins, Hup.
    reflexivity.
  - rewrite Uc, Ul, Hdb. repeat split; assumption.
Qed.

(** The theorem at the photo of the examples chosen twice. *)
Lemma same_name_twice_loses_the_tracking_code_witness :
  exists w' r code,
    handleSubmit 3 Examples.env None true Examples.good_form
                 [Examples.photo; Examples.photo] empty_world
    = Some (toast_error "The resource already exists", w')
    /\ complaints (db w') = (complaints (db empty_world) ++ [r])%list
    /\ Complaint.tracking_code r = Some code
    /\ Complaint.evidence_hashes r = []
    /\ public_logs (db w') = public_logs (db empty_world).
Proof.
  apply (same_name_twice_loses_the_tracking_code 3 Examples.env Examples.good_form
           Examples.photo Examples.photo [] empty_world 0).
  - unfold violates_constraints. cbn.
    intros [?|[?|[?|[?|[?|?]]]]]; try lia; discriminate.
  - reflexivity.
  - reflexivity.
  - reflexivity.
  - reflexivity.
  - lia.
  - reflexivity.
  - reflexivity.
  - reflexivity.
Defined.

End SubmissionEvidence.

(** ** The officer's page *)

Section OfficerPage.
Import Text Db Submit Props Reading Admin.

Lemma status_of_text_nonempty : forall t s,
  status_of_text t = Some s -> String.eqb t "" = false.
Proof.
  intros t s H. destruct (String.eqb_spec t "") as [->|_]; [discriminate H | reflexivity].
Qed.

Lemma permitted_update_role : forall d session r,
  permitted complaints_policies UPDATE d (caller_of session) r
  = is_government_or_admin d (caller_of session).
Proof.
  intros d [u|] r; cbn; [rewrite orb_false_r|]; reflexivity.
Qed.

Lemma permitted_note_insert : forall d u r,
  permitted gov_notes_policies INSERT d (authenticated u) r
  = is_government_or_admin d (authenticated u).
Proof.
  intros d u r. unfold permitted.
  cbn [existsb gov_notes_policies policy_cmd policy_to policy_expr command_eqb
       applies_to andb orb].
  apply orb_false_r.
Qed.

(** The effect of [handleUpdateStatus] with a status of the enumeration. *)
Lemma handleUpdateStatus_spec : forall E session target newStatus s w,
  status_of_text newStatus = Some s ->
  exists w',
    handleUpdateStatus E session (Some target) newStatus w
    = (Some "Status updated successfully", w')
    /\ storage_objects w' = storage_objects w
    /\ (if is_government_or_admin (db w) (caller_of session)
        then db w'
             = with_complaints
                 (map (fun r => if Nat.eqb (Complaint.id r) target
                                then Complaint.set_updated_at (now E (clock_pos w))
                                                              (Complaint.set_status s r)
                                else r) (complaints (db w)))
                 (db w)
        else db w' = db w).
Proof.
  intros E session target newStatus s w Hs.
  unfold handleUpdateStatus. rewrite (status_of_text_nonempty _ _ Hs), Hs.
  unfold update_complaints.
  assert (Hsel : forall r, permitted complaints_policies SELECT (db w) (caller_of session) r
                           = true).
  { intros r. destruct session; cbn; rewrite ?orb_true_r; reflexivity. }
  assert (Htouched : forall r,
             Nat.eqb (Complaint.id r) target
             && permitted complaints_policies SELECT (db w) (caller_of session) r
             && permitted complaints_policies UPDATE (db w) (caller_of session) r
             = Nat.eqb (Complaint.id r) target
               && is_government_or_admin (db w) (caller_of session)).
  { intros r. rewrite Hsel, permitted_update_role, andb_true_r. reflexivity. }
  match goal with
  | |- context [if existsb ?p ?l then _ else _] =>
      assert (Hcheck : existsb p l = false)
  end.
  { apply not_true_is_false. intro Hex. apply existsb_exists in Hex.
    destruct Hex as (r & _ & Hr). apply andb_true_iff in Hr. destruct Hr as (Ht & Hn).
    rewrite Htouched in Ht. apply andb_true_iff in Ht. destruct Ht as (_ & Hrole).
    rewrite permitted_update_role, Hrole in Hn. discriminate Hn. }
  rewrite Hcheck. cbn.
  eexists. split; [reflexivity|]. split; [reflexivity|].
  destruct (is_government_or_admin (db w) (caller_of session)) eqn:Hrole; cbn.
  - f_equal. apply map_ext. intros r. rewrite Htouched, andb_true_r. reflexivity.
  - transitivity (with_complaints (complaints (db w)) (db w));
      [|destruct (db w); reflexivity].
    f_equal. rewrite <- (map_id (complaints (db w))) at 2. apply map_ext.
    intros r. rewrite Htouched, andb_false_r. reflexivity.
Qed.

(** X8.  [handleUpdateStatus] with a status of the enumeration ends with the
    toast of success whoever calls, but takes effect only for a caller with
    the government or admin role: for such a caller every row with the
    selected identifier gets the new status and a new [updated_at], and
    nothing else changes; for any other caller, signed in or not, the
    database is exactly as before. *)
Theorem status_update_needs_the_role : forall E session target newStatus s w,
  status_of_text newStatus = Some s ->
  exists w',
    handleUpdateStatus E session (Some target) newStatus w
    = (Some "Status updated successfully", w')
    /\ storage_objects w' = storage_objects w
    /\ (if is_government_or_admin (db w) (caller_of session)
        then db w'
             = with_complaints
                 (map (fun r => if Nat.eqb (Complaint.id r) target
                                then Complaint.set_updated_at (now E (clock_pos w))
                                                              (Complaint.set_status s r)
                                else r) (complaints (db w)))
                 (db w)
        else db w' = db w).
Proof. exact handleUpdateStatus_spec. Qed.

(** The theorem at the complaint of user 1: officer 3 verifies it, citizen 2
    tries the same. *)
Lemma status_update_needs_the_role_witness :
  (exists w',
      handleUpdateStatus Examples.env (Some 3%nat) (Some 100%nat) "verified"
                         (with_db Examples.citizens_database empty_world)
      = (Some "Status updated successfully", w')
      /\ map Complaint.status (complaints (db w')) = [verified])
  /\ (exists w',
         handleUpdateStatus Examples.env (Some 2%nat) (Some 100%nat) "verified"
                            (with_db Examples.citizens_database empty_world)
         = (Some "Status updated successfully", w')
         /\ db w' = Examples.citizens_database).
Proof.
  split.
  - destruct (status_update_needs_the_role Examples.env (Some 3%nat) 100 "verified"
                verified (with_db Examples.citizens_database empty_world) eq_refl)
      as (w' & Hrun & _ & Hdb).
    exists w'. split; [exact Hrun|].
    change (is_government_or_admin
              (db (with_db Examples.citizens_database empty_world))
              (caller_of (Some 3%nat))) with true in Hdb.
    rewrite Hdb. reflexivity.
  - destruct (status_update_needs_the_role Examples.env (Some 2%nat) 100 "verified"
                verified (with_db Examples.citizens_database empty_world) eq_refl)
      as (w' & Hrun & _ & Hdb).
    exists w'. split; [exact Hrun|].
    change (is_government_or_admin
              (db (with_db Examples.citizens_database empty_world))
              (caller_of (Some 2%nat))) with false in Hdb.
    exact Hdb.
Defined.

(** X9.  [handleAddNote]: nothing is sent without a selected complaint, a
    signed-in user or a note that is more than blanks; the note of a user
    without the government or admin role is refused and the table stays as
    it is; the note of an officer on an existing complaint, under a new
    identifier, is appended with the text trimmed and the officer as its
    author. *)
Theorem note_needs_the_role :
  (forall E userId selected newNote w,
      selected = None \/ userId = None \/ trim newNote = "" ->
      handleAddNote E userId selected newNote w = (None, w))
  /\ (forall E u target newNote w,
         trim newNote <> "" ->
         is_government_or_admin (db w) (authenticated u) = false ->
         exists w',
           handleAddNote E (Some u) (Some target) newNote w
           = (Some "Failed to add note", w')
           /\ db w' = db w)
  /\ (forall E u target newNote w,
         trim newNote <> "" ->
         is_government_or_admin (db w) (authenticated u) = true ->
         complaint_exists (db w) target = true ->
         existsb (fun r => Nat.eqb (GovNote.id r) (gen_random_uuid E (uuid_pos w)))
                 (gov_notes (db w)) = false ->
         exists w',
           handleAddNote E (Some u) (Some target) newNote w
           = (Some "Note added successfully", w')
           /\ db w'
              = with_gov_notes
                  (gov_notes (db w)
                   ++ [ {| GovNote.id := gen_random_uuid E (uuid_pos w);
                           GovNote.complaint_id := target;
                           GovNote.official_id := Some u;
                           GovNote.note := trim newNote;
                           GovNote.created_at := now E (clock_pos w) |} ])%list
                  (db w)).
Proof.
  split; [|split].
  - intros E userId selected newNote w H. unfold handleAddNote.
    destruct selected as [target|]; [|reflexivity].
    destruct userId as [u|]; [|reflexivity].
    destruct H as [H|[H|H]]; try discriminate H. rewrite H. reflexivity.
  - intros E u target newNote w Hnote Hrole. unfold handleAddNote.
    destruct (String.eqb_spec (trim newNote) "") as [|_]; [contradiction|].
    unfold insert_gov_note.
    assert (Hp : forall r, permitted gov_notes_policies INSERT (db w) (authenticated u) r
                           = false)
      by (intros r; rewrite permitted_note_insert; exact Hrole).
    cbn [db next_clock next_uuid]. rewrite Hp. cbn.
    eexists. split; reflexivity.
  - intros E u target newNote w Hnote Hrole Hexists Hfresh. unfold handleAddNote.
    destruct (String.eqb_spec (trim newNote) "") as [|_]; [contradiction|].
    unfold insert_gov_note.
    assert (Hp : forall r, permitted gov_notes_policies INSERT (db w) (authenticated u) r
                           = true)
      by (intros r; rewrite permitted_note_insert; exact Hrole).
    cbn [db next_clock next_uuid]. rewrite Hp. cbn [negb GovNote.id].
    rewrite Hfresh, Hexists. cbn.
    eexists. split; reflexivity.
Qed.

(** The theorem at the complaint of user 1: a blank note, a note of citizen
    2, a note of officer 3. *)
Lemma note_needs_the_role_witness :
  handleAddNote Examples.env (Some 3%nat) (Some 100%nat) "   "
                (with_db Examples.citizens_database empty_world)
  = (None, with_db Examples.citizens_database empty_world)
  /\ (exists w',
         handleAddNote Examples.env (Some 2%nat) (Some 100%nat) " Noted. "
                       (with_db Examples.citizens_database empty_world)
         = (Some "Failed to add note", w')
         /\ db w' = Examples.citizens_database)
  /\ (exists w',
         handleAddNote Examples.env (Some 3%nat) (Some 100%nat) " Noted. "
                       (with_db Examples.citizens_database empty_world)
         = (Some "Note added successfully", w')
         /\ map (fun n => (GovNote.official_id n, GovNote.note n)) (gov_notes (db w'))
            = [(Some 3%nat, "Noted.")]).
Proof.
  destruct note_needs_the_role as (Hblank & Hcitizen & Hofficer).
  split; [apply Hblank; right; right; reflexivity|].
  split.
  - destruct (Hcitizen Examples.env 2%nat 100%nat " Noted. "
                       (with_db Examples.citizens_database empty_world))
      as (w' & Hrun & Hdb); [discriminate | reflexivity |].
    exists w'. split; [exact Hrun | exact Hdb].
  - destruct (Hofficer Examples.env 3%nat 100%nat " Noted. "
                       (with_db Examples.citizens_database empty_world))
      as (w' & Hrun & Hdb); [discriminate | reflexivity | reflexivity | reflexivity |].
    exists w'. split; [exact Hrun|]. rewrite Hdb. reflexivity.
Defined.

End OfficerPage.

(** ** Looking complaints up *)

Section LookupMore.
Import Text TrackingCode Json Http Db Props Reading VerifyTracking.

Lemma upper_alnum_char_facts : forall c, is_upper_alnum c = true ->
  upper_char c = c /\ is_space c = false.
Proof.
  intros c H.
  destruct c as [[] [] [] [] [] [] [] []]; try discriminate H; split; reflexivity.
Qed.

(** A text of the format [CW-XXXX-XXXX] in capitals is left alone by [trim]
    and by [toUpperCase]. *)
Lemma tracking_pattern_entered : forall code, matches_tracking_pattern code = true ->
  trim code = code /\ upper code = code /\ code <> "".
Proof.
  intros code H.
  destruct (cw_format_inv _ _ H)
    as (a1 & a2 & a3 & a4 & b1 & b2 & b3 & b4 & -> & (A1 & A2 & A3 & A4)
        & (B1 & B2 & B3 & B4)).
  destruct (upper_alnum_char_facts _ A1) as (U1 & _).
  destruct (upper_alnum_char_facts _ A2) as (U2 & _).
  destruct (upper_alnum_char_facts _ A3) as (U3 & _).
  destruct (upper_alnum_char_facts _ A4) as (U4 & _).
  destruct (upper_alnum_char_facts _ B1) as (V1 & _).
  destruct (upper_alnum_char_facts _ B2) as (V2 & _).
  destruct (upper_alnum_char_facts _ B3) as (V3 & _).
  destruct (upper_alnum_char_facts _ B4) as (V4 & T4).
  split; [|split; [|discriminate]].
  - unfold trim.
    change (trim_start (cw_string a1 a2 a3 a4 b1 b2 b3 b4))
      with ((String "C" (String "W" (String "-" (String a1 (String a2 (String a3
              (String a4 (String "-" (String b1 (String b2 (String b3 "")))))))))))%char
            ++ String b4 "").
    rewrite (trim_end_last _ b4 T4). reflexivity.
  - unfold cw_string. cbn [upper]. rewrite U1, U2, U3, U4, V1, V2, V3, V4. reflexivity.
Qed.

(** X10.  The Verify page reads a tracking code whatever its case and the
    blanks around it: if the text entered, trimmed and put in capitals, is a
    code of the format [CW-XXXX-XXXX], the page answers as it does for that
    code. *)
Theorem verify_page_normalises_the_code : forall session entered code d,
  upper (trim entered) = code ->
  matches_tracking_pattern code = true ->
  handleVerify session entered d = handleVerify session code d.
Proof.
  intros session entered code d Hnorm Hpat.
  destruct (tracking_pattern_entered code Hpat) as (Htrim & Hup & Hne).
  unfold handleVerify. rewrite Htrim.
  destruct (String.eqb_spec code "") as [|_]; [contradiction|].
  destruct (String.eqb_spec (trim entered) "") as [He|_].
  { exfalso. rewrite He in Hnorm. cbn in Hnorm. congruence. }
  unfold isTrackingCode. rewrite Hnorm, Hup, Hpat. reflexivity.
Qed.

(** The theorem at a code typed in small letters between blanks. *)
Lemma verify_page_normalises_the_code_witness :
  handleVerify None "  cw-0000-0000 " Examples.mixed_database
  = handleVerify None "CW-0000-0000" Examples.mixed_database.
Proof.
  apply verify_page_normalises_the_code; vm_compute; reflexivity.
Defined.

(** What the page shows there. *)
Example verify_page_small_letters :
  handleVerify None "  cw-0000-0000 " Examples.mixed_database
  = verified [("id", JStr "101");
              ("title", JStr "Kickback for a road contract");
              ("category", JStr "misuse_of_funds");
              ("status", JStr "in_review");
              ("created_at", JNum 1);
              ("location", JStr "Nashik");
              ("complaint_hash", JNull)].
Proof. vm_compute. reflexivity. Qed.

Lemma filter_map_rows : forall (A : Type) (f : A -> A) (p : A -> bool) (l : list A),
  (forall x, p (f x) = p x) -> filter p (map f l) = map f (filter p l).
Proof.
  intros A f p l H. induction l as [|a l IH]; [reflexivity|].
  cbn. rewrite H. destruct (p a); cbn; rewrite IH; reflexivity.
Qed.

Lemma insert_desc_without_official : forall n l,
  insert_desc (without_official n) (map without_official l)
  = map without_official (insert_desc n l).
Proof.
  intros n l. induction l as [|m l IH]; [reflexivity|].
  cbn. destruct (GovNote.created_at m <=? GovNote.created_at n)%N; cbn;
    [reflexivity | rewrite IH; reflexivity].
Qed.

Lemma order_desc_without_official : forall l,
  order_desc (map without_official l) = map without_official (order_desc l).
Proof.
  unfold order_desc. induction l as [|n l IH]; [reflexivity|].
  cbn [map fold_right]. rewrite IH. apply insert_desc_without_official.
Qed.

Lemma maybeSingle_map : forall (A : Type) (f : A -> A) (l : list A),
  maybeSingle (map f l)
  = match maybeSingle l with
    | inl e => inl e
    | inr None => inr None
    | inr (Some r) => inr (Some (f r))
    end.
Proof. intros A f [|a [|b l]]; reflexivity. Qed.

(** X11.  What the two lookups answer does not depend on identities: the
    answer of [verify-tracking] is the same on the database with every
    [user_id], every [official_id] and every role removed, and the Verify
    page shows the same to every visitor, signed in or not, on that database
    as well. *)
Theorem lookups_do_not_depend_on_identities :
  (forall method req_json d,
      handler method req_json d = handler method req_json (without_identities d))
  /\ (forall session session' entered d,
         handleVerify session entered d
         = handleVerify session' entered (without_identities d)).
Proof.
  split.
  - intros method req_json d. unfold handler.
    destruct (String.eqb method "OPTIONS"); [reflexivity|].
    destruct req_json as [v|]; [|reflexivity].
    destruct v; try reflexivity;
      match goal with
      | |- context [match ?tc with Some _ => _ | None => _ end] =>
          destruct tc as [tc0|] eqn:Htc; [|reflexivity]
      end;
      try (destruct (negb (truthy (Some tc0))); [reflexivity|]);
      unfold select_complaints; rewrite !visible_complaints_all;
      cbn [without_identities complaints evidence_files gov_notes];
      rewrite (filter_map_rows _ without_owner) by (intros x; reflexivity);
      rewrite maybeSingle_map;
      match goal with
      | |- context [maybeSingle ?l] => destruct (maybeSingle l) as [e|[c|]]
      end; try reflexivity;
      cbn [Complaint.id without_owner];
      rewrite (filter_map_rows _ without_official) by (intros x; reflexivity);
      rewrite order_desc_without_official, map_map; reflexivity.
  - intros session session' entered d. unfold handleVerify.
    destruct (String.eqb (trim entered) ""); [reflexivity|].
    unfold select_complaints. rewrite !visible_complaints_all.
    cbn [without_identities complaints].
    destruct (isTrackingCode (trim entered));
      rewrite (filter_map_rows _ without_owner) by (intros x; reflexivity);
      rewrite maybeSingle_map;
      match goal with
      | |- context [maybeSingle ?l] => destruct (maybeSingle l) as [e|[c|]]
      end; reflexivity.
Qed.

End LookupMore.

Section LookupAnswers.
Import Text TrackingCode Json Http Db Props Reading VerifyTracking.

Lemma code_exists_row : forall d code,
  code_exists (tracking_codes d) code = true ->
  exists c, In c (complaints d) /\ Complaint.tracking_code c = Some code.
Proof.
  intros d code H. unfold code_exists, tracking_codes in H.
  apply existsb_exists in H. destruct H as (tc & Hin & Htc).
  apply in_map_iff in Hin. destruct Hin as (c & <- & Hc).
  exists c. split; [exact Hc|].
  destruct (Complaint.tracking_code c) as [x|]; [|discriminate Htc].
  apply String.eqb_eq in Htc. congruence.
Qed.

Lemma code_exists_no_row : forall d code,
  code_exists (tracking_codes d) code = false ->
  filter (fun r => sql_eq_text (Complaint.tracking_code r) code) (complaints d) = [].
Proof.
  intros d code H. apply filter_none. intros c Hc.
  destruct (Complaint.tracking_code c) as [x|] eqn:Hx; [|reflexivity].
  cbn. destruct (String.eqb_spec x code) as [->|]; [|reflexivity].
  exfalso. unfold code_exists, tracking_codes in H.
  assert (Ht : existsb (fun tc => match tc with
                                  | Some c0 => String.eqb c0 code
                                  | None => false
                                  end) (map Complaint.tracking_code (complaints d)) = true).
  { apply existsb_exists. exists (Some code). split.
    - rewrite <- Hx. apply in_map. exact Hc.
    - apply String.eqb_refl. }
  congruence.
Qed.

(** X12.  The answers of [verify-tracking] to a request with a JSON object:
    400 when the object has no tracking code, or a null, false, zero or empty
    one, without a look at the table; 404 when no complaint carries the code;
    200 when one does and no two rows share a code. *)
Theorem verify_tracking_answers : forall method d,
  method <> "OPTIONS" ->
  (forall fields,
      truthy (lookup "trackingCode" fields) = false ->
      handler method (Some (JObj fields)) d
      = {| status := 400;
           content := error_body (message "Tracking code is required") |})
  /\ (forall code,
         code <> "" ->
         code_exists (tracking_codes d) code = false ->
         handler method (Some (JObj [("trackingCode", JStr code)])) d
         = {| status := 404;
              content := error_body
                           (message "Complaint not found with this tracking code") |})
  /\ (forall code,
         code <> "" ->
         code_exists (tracking_codes d) code = true ->
         unique_tracking_codes d ->
         status (handler method (Some (JObj [("trackingCode", JStr code)])) d) = 200%Z).
Proof.
  intros method d Hm. split; [|split].
  - intros fields Hf. unfold handler.
    destruct (String.eqb_spec method "OPTIONS") as [|_]; [contradiction|].
    destruct (lookup "trackingCode" fields) as [tc|]; [|reflexivity].
    rewrite Hf. reflexivity.
  - intros code Hne Hfree. unfold handler.
    destruct (String.eqb_spec method "OPTIONS") as [|_]; [contradiction|].
    cbn [lookup]. replace (String.eqb "trackingCode" "trackingCode") with true by reflexivity.
    cbn [truthy]. destruct (String.eqb_spec code "") as [|_]; [contradiction|].
    cbn [negb]. unfold select_complaints. rewrite visible_complaints_all.
    cbn [js_string]. rewrite (code_exists_no_row d code Hfree). reflexivity.
  - intros code Hne Hex Hu.
    destruct (code_exists_row d code Hex) as (c & Hin & Hc).
    destruct (handler_finds_code method d c code Hm Hin Hc Hne Hu)
      as (evidence & notes & -> & _).
    reflexivity.
Qed.

(** The theorem at the database of the examples. *)
Lemma verify_tracking_answers_witness :
  handler "POST" (Some (JObj [("code", JStr "CW-0000-0000")])) Examples.mixed_database
  = {| status := 400; content := error_body (message "Tracking code is required") |}
  /\ handler "POST" (Some (JObj [("trackingCode", JStr "CW-FFFF-FFFF")]))
             Examples.mixed_database
     = {| status := 404;
          content := error_body (message "Complaint not found with this tracking code") |}
  /\ status (handler "POST" (Some (JObj [("trackingCode", JStr "CW-0000-0000")]))
                     Examples.mixed_database) = 200%Z.
Proof.
  assert (Hm : "POST" <> "OPTIONS") by discriminate.
  destruct (verify_tracking_answers "POST" Examples.mixed_database Hm)
    as (H400 & H404 & H200).
  split; [apply H400; reflexivity|].
  split; [apply H404; [discriminate | reflexivity]|].
  apply H200; [discriminate | reflexivity |].
  repeat constructor. intros [].
Defined.

(** *** Lookup by identifier *)

Lemma string_of_uint_digits : forall d,
  forallb_string (fun c => negb (is_space c) && Ascii.eqb (upper_char c) c
                           && negb (Ascii.eqb c "C"))
                 (NilEmpty.string_of_uint d) = true.
Proof. induction d; cbn [NilEmpty.string_of_uint forallb_string]; auto. Qed.

Lemma uuid_text_inj : forall i j, uuid_text i = uuid_text j -> i = j.
Proof.
  intros i j H. unfold uuid_text in H.
  apply DecimalNat.Unsigned.to_uint_inj.
  pose proof (NilEmpty.usu (Nat.to_uint i)) as Hi.
  pose proof (NilEmpty.usu (Nat.to_uint j)) as Hj.
  rewrite H in Hi. congruence.
Qed.

Lemma uuid_text_nonempty : forall i, uuid_text i <> "".
Proof.
  intros i H. unfold uuid_text in H.
  pose proof (NilEmpty.usu (Nat.to_uint i)) as Hi. rewrite H in Hi. cbn in Hi.
  injection Hi as Hi.
  pose proof (DecimalNat.Unsigned.of_to i) as Hz. rewrite <- Hi in Hz.
  cbn in Hz. subst i. discriminate H.
Qed.

Lemma trim_no_space : forall s,
  forallb_string (fun c => negb (is_space c)) s = true -> trim s = s.
Proof.
  intros s H. unfold trim.
  assert (Hs : trim_start s = s).
  { destruct s as [|c r]; [reflexivity|]. cbn in H |- *.
    apply andb_true_iff in H. destruct H as (Hc & _).
    apply negb_true_iff in Hc. rewrite Hc. reflexivity. }
  rewrite Hs. clear Hs.
  induction s as [|c r IH]; [reflexivity|].
  cbn in H. apply andb_true_iff in H. destruct H as (Hc & Hr).
  cbn [trim_end]. rewrite (IH Hr). apply negb_true_iff in Hc.
  destruct r; [rewrite Hc|]; reflexivity.
Qed.

Lemma forallb_string_impl : forall (p q : ascii -> bool) s,
  (forall c, p c = true -> q c = true) ->
  forallb_string p s = true -> forallb_string q s = true.
Proof.
  intros p q s Hpq. induction s as [|c r IH]; [reflexivity|].
  cbn. intro H. apply andb_true_iff in H. destruct H as (Hc & Hr).
  rewrite (Hpq c Hc), (IH Hr). reflexivity.
Qed.

(** The text of an identifier is no tracking code, and [trim] leaves it as
    it is. *)
Lemma uuid_text_entered : forall i,
  trim (uuid_text i) = uuid_text i /\ isTrackingCode (uuid_text i) = false.
Proof.
  intros i. pose proof (string_of_uint_digits (Nat.to_uint i)) as Hd.
  fold (uuid_text i) in Hd. split.
  - apply trim_no_space. eapply forallb_string_impl; [|exact Hd].
    intros c Hc. apply andb_true_iff in Hc. destruct Hc as (Hc & _).
    apply andb_true_iff in Hc. tauto.
  - pose proof (uuid_text_nonempty i) as Hne.
    destruct (uuid_text i) as [|c r]; [contradiction|].
    cbn in Hd. apply andb_true_iff in Hd. destruct Hd as (Hc & _).
    apply andb_true_iff in Hc. destruct Hc as (Hc & HnC).
    apply andb_true_iff in Hc. destruct Hc as (_ & Hup).
    apply Ascii.eqb_eq in Hup. apply negb_true_iff in HnC.
    unfold isTrackingCode, matches_tracking_pattern, cw_format.
    cbn [upper]. rewrite Hup.
    destruct (String.length (String c (upper r)) =? 12)%nat; [|reflexivity].
    cbn [andb].
    assert (Hpre : String.eqb (substring 0 3 (String c (upper r))) "CW-" = false).
    { cbn [substring String.eqb]. rewrite HnC. reflexivity. }
    rewrite Hpre. reflexivity.
Qed.

Lemma filter_by_id : forall l i,
  NoDup (map Complaint.id l) ->
  filter (fun r => Nat.eqb (Complaint.id r) i) l
  = match find (fun r => Nat.eqb (Complaint.id r) i) l with
    | Some c => [c]
    | None => []
    end.
Proof.
  induction l as [|r l IH]; intros i Hnd; [reflexivity|].
  cbn [map] in Hnd. apply NoDup_cons_iff in Hnd. destruct Hnd as (Hnotin & Hnd).
  cbn [filter find]. destruct (Nat.eqb_spec (Complaint.id r) i) as [He|Hne].
  - f_equal. apply filter_none. intros x Hx. apply Nat.eqb_neq. intro Hxi.
    apply Hnotin. rewrite He, <- Hxi. apply in_map. exact Hx.
  - apply IH. exact Hnd.
Qed.

(** X13.  The Verify page by identifier: in a table without a shared
    identifier, entering the identifier of a complaint shows that complaint,
    to any visitor, and entering an identifier that no complaint has shows
    the toast of a complaint not found. *)
Theorem verify_page_finds_by_identifier : forall session d i,
  unique_ids d ->
  handleVerify session (uuid_text i) d
  = match find (fun r => Nat.eqb (Complaint.id r) i) (complaints d) with
    | Some c =>
        verified (select_columns Complaint.column
                    ["id"; "title"; "category"; "status"; "created_at"; "location";
                     "complaint_hash"] c)
    | None => not_found
    end.
Proof.
  intros session d i Hu. destruct (uuid_text_entered i) as (Htrim & Hcode).
  unfold handleVerify. rewrite Htrim, Hcode.
  destruct (String.eqb_spec (uuid_text i) "") as [He|_];
    [exfalso; exact (uuid_text_nonempty i He)|].
  unfold select_complaints. rewrite visible_complaints_all.
  assert (Hf : filter (fun r => String.eqb (uuid_text (Complaint.id r)) (uuid_text i))
                      (complaints d)
               = filter (fun r => Nat.eqb (Complaint.id r) i) (complaints d)).
  { apply filter_ext. intros r.
    destruct (Nat.eqb_spec (Complaint.id r) i) as [->|Hne];
      [apply String.eqb_refl|].
    apply String.eqb_neq. intro Habs. apply Hne, uuid_text_inj, Habs. }
  rewrite Hf, (filter_by_id _ i Hu).
  destruct (find (fun r => Nat.eqb (Complaint.id r) i) (complaints d)); reflexivity.
Qed.

(** The theorem at the two complaints of the examples, seen by user 2. *)
Lemma verify_page_finds_by_identifier_witness :
  handleVerify (Some 2%nat) (uuid_text 100) Examples.mixed_database
  = verified (select_columns Complaint.column
                ["id"; "title"; "category"; "status"; "created_at"; "location";
                 "complaint_hash"] Examples.owned_complaint)
  /\ handleVerify (Some 2%nat) (uuid_text 7) Examples.mixed_database = not_found.
Proof.
  assert (Hu : unique_ids Examples.mixed_database).
  { unfold unique_ids. cbn. repeat constructor; cbn; intuition discriminate. }
  split.
  - exact (verify_page_finds_by_identifier (Some 2%nat) Examples.mixed_database 100 Hu).
  - exact (verify_page_finds_by_identifier (Some 2%nat) Examples.mixed_database 7 Hu).
Defined.

End LookupAnswers.

(** ** Row-level security *)

Section Policies.
Import Text Db.

(** X14.  Who may attach evidence.  A caller who is not signed in may insert
    an evidence row for a complaint exactly when that complaint is marked
    anonymous, whoever filed it; a signed-in user exactly when the complaint
    is their own. *)
Theorem evidence_insert_rule :
  (forall d r,
      permitted evidence_files_policies INSERT d anon r = true
      <-> exists c, In c (complaints d)
                    /\ Complaint.id c = EvidenceFile.complaint_id r
                    /\ Complaint.is_anonymous c = true)
  /\ (forall d u r,
         permitted evidence_files_policies INSERT d (authenticated u) r = true
         <-> exists c, In c (complaints d)
                       /\ Complaint.id c = EvidenceFile.complaint_id r
                       /\ Complaint.user_id c = Some u).
Proof.
  split.
  - intros d r. cbn [permitted evidence_files_policies existsb policy_cmd policy_to
                     policy_expr command_eqb applies_to andb orb].
    rewrite visible_complaints_all, orb_false_r. rewrite existsb_exists. split.
    + intros (c & Hin & Hc). apply andb_true_iff in Hc. destruct Hc as (Hid & Han).
      apply Nat.eqb_eq in Hid. exists c. auto.
    + intros (c & Hin & Hid & Han). exists c. split; [exact Hin|].
      rewrite Hid, Nat.eqb_refl, Han. reflexivity.
  - intros d u r. cbn [permitted evidence_files_policies existsb policy_cmd policy_to
                       policy_expr command_eqb applies_to andb orb].
    rewrite visible_complaints_all, orb_false_r. rewrite existsb_exists. split.
    + intros (c & Hin & Hc). apply andb_true_iff in Hc. destruct Hc as (Hid & Hu).
      apply Nat.eqb_eq in Hid. exists c. split; [exact Hin|]. split; [exact Hid|].
      destruct (Complaint.user_id c) as [x|]; [|discriminate Hu].
      cbn in Hu. apply Nat.eqb_eq in Hu. congruence.
    + intros (c & Hin & Hid & Hu). exists c. split; [exact Hin|].
      rewrite Hid, Nat.eqb_refl, Hu. cbn. apply Nat.eqb_refl.
Qed.

(** X15.  The tables only grow under the policies: a caller other than the
    service role may delete no row of any table, may change no evidence
    row, log entry or note, and may add no log entry. *)
Theorem policies_never_delete_or_rewrite : forall d who,
  who <> service_role ->
  (forall r, permitted complaints_policies DELETE d who r = false)
  /\ (forall r cmd, cmd <> SELECT -> cmd <> INSERT ->
                   permitted evidence_files_policies cmd d who r = false)
  /\ (forall r cmd, cmd <> SELECT ->
                   permitted public_logs_policies cmd d who r = false)
  /\ (forall r cmd, cmd <> SELECT -> cmd <> INSERT ->
                   permitted gov_notes_policies cmd d who r = false).
Proof.
  intros d who Hwho.
  split; [|split; [|split]].
  - intros r. destruct who; try contradiction; reflexivity.
  - intros r cmd Hs Hi. destruct who, cmd; try contradiction; reflexivity.
  - intros r cmd Hs. destruct who, cmd; try contradiction; reflexivity.
  - intros r cmd Hs Hi. destruct who, cmd; try contradiction; reflexivity.
Qed.

(** The theorem for an officer and the tables of the examples. *)
Lemma policies_never_delete_or_rewrite_witness :
  permitted complaints_policies DELETE Examples.mixed_database (authenticated 3)
            Examples.owned_complaint = false
  /\ (forall r, permitted public_logs_policies INSERT Examples.mixed_database
                          (authenticated 3) r = false)
  /\ (forall r, permitted gov_notes_policies UPDATE Examples.mixed_database
                          (authenticated 3) r = false).
Proof.
  assert (Hwho : authenticated 3 <> service_role) by discriminate.
  destruct (policies_never_delete_or_rewrite Examples.mixed_database (authenticated 3) Hwho)
    as (Hc & _ & Hl & Hn).
  split; [apply Hc|]. split.
  - intros r. apply Hl. discriminate.
  - intros r. apply Hn; discriminate.
Defined.

End Policies.

(** ** Digests and codes *)

Section Digests.
Import Text TrackingCode Db Submit Props Reading Decoding.

Lemma byte_hex_shape : forall b,
  exists c1 c2, byte_hex b = String c1 (String c2 "")
                /\ Byte.of_N (16 * nibble_value c1 + nibble_value c2) = Some b.
Proof. intros b. destruct b; do 2 eexists; split; reflexivity. Qed.

(** X16.  [calculateFileHash] writes two characters a byte, and the digest
    can be read back from the text: files with the same hash text have the
    same digest. *)
Theorem calculateFileHash_round_trip : forall f,
  String.length (calculateFileHash f) = (2 * List.length (f_digest f))%nat
  /\ digest_of_hex (calculateFileHash f) = f_digest f.
Proof.
  intros f. unfold calculateFileHash.
  induction (f_digest f) as [|b l (IHlen & IHdec)]; [split; reflexivity|].
  cbn [map fold_right]. destruct (byte_hex_shape b) as (c1 & c2 & -> & Hb).
  cbn [String.append String.length digest_of_hex List.length]. rewrite Hb, IHlen, IHdec.
  split; [lia | reflexivity].
Qed.

Lemma upper_nibble_code : forall n, (n < 16)%N ->
  N.of_nat (nat_of_ascii (upper_char (nibble_char n)))
  = (if (n <? 10)%N then 48 + n else 55 + n)%N.
Proof.
  intros [|p] Hn; [reflexivity|].
  do 4 (destruct p as [p|p|]; try reflexivity); lia.
Qed.

Lemma upper_nibble_inj : forall n m, (n < 16)%N -> (m < 16)%N ->
  upper_char (nibble_char n) = upper_char (nibble_char m) -> n = m.
Proof.
  intros n m Hn Hm H.
  pose proof (upper_nibble_code n Hn) as Cn.
  pose proof (upper_nibble_code m Hm) as Cm.
  rewrite H, Cm in Cn.
  destruct (N.ltb_spec n 10), (N.ltb_spec m 10); lia.
Qed.

Lemma word_of_nibbles : forall x : N,
  (x mod 65536
   = (x / 4096) mod 16 * 4096 + (x / 256) mod 16 * 256 + (x / 16) mod 16 * 16
     + x mod 16)%N.
Proof.
  intros x.
  pose proof (N.Div0.div_mod x 65536) as H.
  pose proof (N.mod_lt x 65536) as HL.
  pose proof (N.Div0.div_mod x 16) as H0.
  pose proof (N.Div0.div_mod (x / 16) 16) as H1.
  pose proof (N.Div0.div_mod (x / 256) 16) as H2.
  pose proof (N.Div0.div_mod (x / 4096) 16) as H3.
  pose proof (N.mod_lt x 16) as L0.
  pose proof (N.mod_lt (x / 16) 16) as L1.
  pose proof (N.mod_lt (x / 256) 16) as L2.
  pose proof (N.mod_lt (x / 4096) 16) as L3.
  rewrite N.Div0.div_div in H1, H2, H3.
  change (16 * 16)%N with 256%N in H1.
  change (256 * 16)%N with 4096%N in H2.
  change (4096 * 16)%N with 65536%N in H3.
  generalize dependent (x / 65536)%N. generalize dependent (x / 4096)%N.
  generalize dependent (x / 256)%N. generalize dependent (x / 16)%N.
  generalize dependent (x mod 16)%N. generalize dependent (x mod 65536)%N.
  intros. 
  generalize dependent (n3 mod 16)%N.
  generalize dependent (n2 mod 16)%N.
  generalize dependent (n1 mod 16)%N.
  intros. lia.
Qed.

Lemma nibbles_of_word : forall x : N,
  ((x / 4096) mod 16 = ((x mod 65536) / 4096) mod 16
   /\ (x / 256) mod 16 = ((x mod 65536) / 256) mod 16
   /\ (x / 16) mod 16 = ((x mod 65536) / 16) mod 16
   /\ x mod 16 = (x mod 65536) mod 16)%N.
Proof.
  intros x.
  pose proof (word_of_nibbles x) as Hx.
  pose proof (word_of_nibbles (x mod 65536)) as Hl.
  rewrite N.Div0.mod_mod in Hl. rewrite Hl in Hx. clear Hl.
  set (l := (x mod 65536)%N) in *.
  pose proof (N.mod_lt x 16) as L0.
  pose proof (N.mod_lt (x / 16) 16) as L1.
  pose proof (N.mod_lt (x / 256) 16) as L2.
  pose proof (N.mod_lt (x / 4096) 16) as L3.
  pose proof (N.mod_lt l 16) as M0.
  pose proof (N.mod_lt (l / 16) 16) as M1.
  pose proof (N.mod_lt (l / 256) 16) as M2.
  pose proof (N.mod_lt (l / 4096) 16) as M3.
  generalize dependent ((x / 4096) mod 16)%N.
  generalize dependent ((x / 256) mod 16)%N.
  generalize dependent ((x / 16) mod 16)%N.
  generalize dependent (x mod 16)%N.
  generalize dependent ((l / 4096) mod 16)%N.
  generalize dependent ((l / 256) mod 16)%N.
  generalize dependent ((l / 16) mod 16)%N.
  generalize dependent (l mod 16)%N.
  intros. lia.
Qed.

Lemma digest_nibbles : forall d,
  ((d / 16 ^ 31) = d / 16 ^ 28 / 4096
   /\ (d / 16 ^ 30) = d / 16 ^ 28 / 256
   /\ (d / 16 ^ 29) = d / 16 ^ 28 / 16)%N.
Proof.
  intros d. rewrite !N.Div0.div_div.
  repeat split; f_equal; reflexivity.
Qed.

Lemma nibbles_of_leading_digits : forall d,
  ((d / 16 ^ 31) mod 16 = (leading_digits d / 4096) mod 16
   /\ (d / 16 ^ 30) mod 16 = (leading_digits d / 256) mod 16
   /\ (d / 16 ^ 29) mod 16 = (leading_digits d / 16) mod 16
   /\ (d / 16 ^ 28) mod 16 = leading_digits d mod 16)%N.
Proof.
  intros d. destruct (digest_nibbles d) as (-> & -> & ->).
  unfold leading_digits. change (16 ^ 4)%N with 65536%N.
  apply nibbles_of_word.
Qed.

Lemma leading_digits_of_nibbles : forall d,
  (leading_digits d
   = (d / 16 ^ 31) mod 16 * 4096 + (d / 16 ^ 30) mod 16 * 256
     + (d / 16 ^ 29) mod 16 * 16 + (d / 16 ^ 28) mod 16)%N.
Proof.
  intros d. destruct (digest_nibbles d) as (-> & -> & ->).
  unfold leading_digits. change (16 ^ 4)%N with 65536%N.
  apply word_of_nibbles.
Qed.

Lemma cw_string_inj : forall a1 a2 a3 a4 b1 b2 b3 b4 c1 c2 c3 c4 e1 e2 e3 e4,
  cw_string a1 a2 a3 a4 b1 b2 b3 b4 = cw_string c1 c2 c3 c4 e1 e2 e3 e4 ->
  a1 = c1 /\ a2 = c2 /\ a3 = c3 /\ a4 = c4 /\ b1 = e1 /\ b2 = e2 /\ b3 = e3 /\ b4 = e4.
Proof.
  intros a1 a2 a3 a4 b1 b2 b3 b4 c1 c2 c3 c4 e1 e2 e3 e4 H.
  unfold cw_string in H. injection H as -> -> -> -> -> -> -> ->. repeat split.
Qed.

(** X17.  A candidate code reads only the first four hexadecimal digits of
    each of its two digests: two pairs of digests give the same code exactly
    when they agree on these digits. *)
Theorem candidate_reads_leading_digits : forall d1 d2 e1 e2,
  candidate d1 d2 = candidate e1 e2
  <-> leading_digits d1 = leading_digits e1 /\ leading_digits d2 = leading_digits e2.
Proof.
  intros d1 d2 e1 e2. rewrite !candidate_shape. split.
  - intros H. apply cw_string_inj in H.
    destruct H as (A1 & A2 & A3 & A4 & B1 & B2 & B3 & B4).
    assert (L : forall x, (x mod 16 < 16)%N) by (intro; apply N.mod_lt; discriminate).
    apply upper_nibble_inj in A1, A2, A3, A4, B1, B2, B3, B4; try apply L.
    rewrite !leading_digits_of_nibbles. rewrite A1, A2, A3, A4, B1, B2, B3, B4.
    split; reflexivity.
  - intros (H1 & H2).
    destruct (nibbles_of_leading_digits d1) as (-> & -> & -> & ->).
    destruct (nibbles_of_leading_digits d2) as (-> & -> & -> & ->).
    destruct (nibbles_of_leading_digits e1) as (-> & -> & -> & ->).
    destruct (nibbles_of_leading_digits e2) as (-> & -> & -> & ->).
    rewrite H1, H2. reflexivity.
Qed.

End Digests.

(** ** Registration and roles *)

Section Roles.
Import Text Db Submit Admin Registration.

Lemma has_role_app : forall d l u r,
  has_role (with_user_roles (user_roles d ++ l)%list d) (Some u) r
  = has_role d (Some u) r
    || existsb (fun ur => Nat.eqb (fst ur) u && app_role_eqb (snd ur) r) l.
Proof. intros d l u r. cbn. apply existsb_app. Qed.

(** X18.  Registration.  For a new user, without a profile and without the
    citizen role, [handle_new_user] succeeds and the user is a citizen;
    whenever it succeeds, the government and admin roles are held by
    exactly the users who held them before, the complaints are untouched,
    and no user without the admin role can add a row to [user_roles]. *)
Theorem registration_grants_citizen_only : forall t NEW a,
  existsb (fun p => Nat.eqb (Profile.id p) (new_id NEW)) (profiles a) = false ->
  has_role (tables a) (Some (new_id NEW)) citizen = false ->
  exists a',
    handle_new_user t NEW a = inr a'
    /\ has_role (tables a') (Some (new_id NEW)) citizen = true
    /\ (forall who, is_government_or_admin (tables a') who
                    = is_government_or_admin (tables a) who)
    /\ (forall u row,
           has_role (tables a) (Some u) admin = false ->
           permitted user_roles_policies INSERT (tables a') (authenticated u) row = false)
    /\ complaints (tables a') = complaints (tables a)
    /\ gov_notes (tables a') = gov_notes (tables a).
Proof.
  intros t NEW a Hprofile Hrole. unfold handle_new_user. rewrite Hprofile, Hrole.
  eexists. split; [reflexivity|]. cbn [tables].
  assert (Hkeep : forall u r, r <> citizen ->
             has_role (with_user_roles
                         (user_roles (tables a) ++ [(new_id NEW, citizen)])%list
                         (tables a)) (Some u) r
             = has_role (tables a) (Some u) r).
  { intros u r Hr. rewrite has_role_app. cbn [existsb fst snd].
    destruct r; [contradiction | |]; cbn; rewrite !andb_false_r; apply orb_false_r. }
  split; [|split; [|split; [|split]]].
  - rewrite has_role_app. cbn. rewrite Nat.eqb_refl. apply orb_true_r.
  - intros who. unfold is_government_or_admin.
    destruct (auth_uid who) as [u|]; [|reflexivity].
    rewrite !Hkeep by discriminate. reflexivity.
  - intros u row Hadmin. cbn [permitted user_roles_policies existsb policy_cmd policy_to
                             policy_expr command_eqb applies_to andb orb auth_uid].
    rewrite Hkeep by discriminate. rewrite Hadmin. reflexivity.
  - reflexivity.
  - reflexivity.
Qed.

(** The theorem for a ninth user joining the three of the examples: the
    new user cannot make themselves an officer. *)
Lemma registration_grants_citizen_only_witness :
  exists a',
    handle_new_user 5
      {| new_id := 9; meta_name := Some "Asha"; new_email := Some "asha@example.org" |}
      {| profiles := []; tables := Examples.registered |} = inr a'
    /\ has_role (tables a') (Some 9%nat) citizen = true
    /\ is_government_or_admin (tables a') (authenticated 9) = false
    /\ permitted user_roles_policies INSERT (tables a') (authenticated 9)
                 (9%nat, government) = false.
Proof.
  destruct (registration_grants_citizen_only 5
              {| new_id := 9; meta_name := Some "Asha";
                 new_email := Some "asha@example.org" |}
              {| profiles := []; tables := Examples.registered |} eq_refl eq_refl)
    as (a' & Hrun & Hcitizen & Hofficers & Hgrant & _).
  exists a'. split; [exact Hrun|]. split; [exact Hcitizen|]. split.
  - rewrite Hofficers. reflexivity.
  - apply Hgrant. reflexivity.
Defined.

End Roles.

(** ** The officer page: analysis, counters *)

Section OfficerCalls.
Import Text Json Http Db Page GovPortal.

(** X19.  [handleAnalyzeWithAI] over [analyze-complaint]: whatever the key,
    the gateway and the reply are, the page ends with the toast of success
    and an analysis, or with the toast "Failed to analyze complaint" and
    the analysis left as it was.  Every refusal of the gateway, the rate
    limit and the missing credits included, ends in that one toast: the
    messages of the function do not reach the officer. *)
Theorem analysis_errors_show_one_toast :
  forall engine_message JSON_parse c key fetched,
    let analyze_complaint body :=
      Some (AnalyzeComplaint.handler JSON_parse "POST" (Some body) key fetched) in
    let r := handleAnalyzeWithAI engine_message (Some c) analyze_complaint in
    (r = ended None (toast_error (JStr "Failed to analyze complaint"))
     \/ exists analysis,
         r = ended (Some (Some analysis)) (toast_success "AI analysis completed"))
    /\ (forall g, fetched = Some g -> AnalyzeComplaint.ok g = false ->
                  r = ended None (toast_error (JStr "Failed to analyze complaint"))).
Proof.
  intros engine_message JSON_parse c key fetched analyze_complaint r.
  subst r analyze_complaint. unfold handleAnalyzeWithAI, AnalyzeComplaint.handler.
  replace (String.eqb "POST" "OPTIONS") with false by reflexivity.
  destruct key as [k|]; [destruct (String.eqb k "")|];
    try (split; [left; reflexivity | intros; reflexivity]).
  destruct fetched as [g|]; [|split; [left; reflexivity | intros; reflexivity]].
  destruct (AnalyzeComplaint.ok g) eqn:Hok; cbn [negb].
  - assert (Hright : forall x : analysis_end,
               (x = ended None (toast_error (JStr "Failed to analyze complaint"))
                \/ exists analysis,
                    x = ended (Some (Some analysis)) (toast_success "AI analysis completed"))
               -> (x = ended None (toast_error (JStr "Failed to analyze complaint"))
                   \/ exists analysis,
                       x = ended (Some (Some analysis))
                                 (toast_success "AI analysis completed"))
                  /\ (forall g0, Some g = Some g0 -> AnalyzeComplaint.ok g0 = false ->
                                 x = ended None
                                       (toast_error (JStr "Failed to analyze complaint")))).
    { intros x Hx. split; [exact Hx|]. intros g0 Hg Hg0. injection Hg as <-.
      rewrite Hok in Hg0. discriminate Hg0. }
    apply Hright.
    destruct (AnalyzeComplaint.gw_json g) as [data|]; [|left; reflexivity].
    destruct (AnalyzeComplaint.content_of data) as [e|[[]|]]; try (left; reflexivity).
    right. eexists. reflexivity.
  - destruct (AnalyzeComplaint.gw_status g =? 429)%Z;
      [split; [left; reflexivity | intros; reflexivity]|].
    destruct (AnalyzeComplaint.gw_status g =? 402)%Z;
      split; try (left; reflexivity); intros; reflexivity.
Qed.

(** The page at a rate-limited gateway and at a reply that is no JSON. *)
Example analysis_toasts :
  handleAnalyzeWithAI (fun _ => "") (Some Examples.owned_complaint)
    (fun body =>
       Some (AnalyzeComplaint.handler JsonText.read "POST" (Some body) (Some "key")
               (Some {| AnalyzeComplaint.gw_status := 429;
                        AnalyzeComplaint.gw_json := None |})))
  = ended None (toast_error (JStr "Failed to analyze complaint"))
  /\ handleAnalyzeWithAI (fun _ => "") (Some Examples.owned_complaint)
       (fun body =>
          Some {| status := 200;
                  content := error_body (message "Rate limit exceeded.") |})
     = ended None (toast_error (JStr "AI rate limit reached. Please try again later.")).
Proof. split; reflexivity. Qed.

End OfficerCalls.

Section Counters.
Import Text Json Http Db Page GovPortal.

Lemma count_status_cons : forall text c l,
  count_status text (c :: l)
  = step (status_is text (Complaint.status c)) (count_status text l) 1.
Proof.
  intros text c l. unfold count_status, step. cbn [filter].
  destruct (status_is text (Complaint.status c)); [|reflexivity].
  cbn [List.length]. lia.
Qed.

Lemma no_row_with_id : forall l k,
  ~ In k (map Complaint.id l) ->
  forall c, In c l -> Nat.eqb (Complaint.id c) k = false.
Proof.
  intros l k Hk c Hc. apply Nat.eqb_neq. intros <-. apply Hk, in_map, Hc.
Qed.

Lemma replace_absent : forall l k (new : Complaint.row),
  ~ In k (map Complaint.id l) ->
  map (fun c => if Nat.eqb (Complaint.id c) k then new else c) l = l.
Proof.
  intros l k new Hk. rewrite <- (map_id l) at 2. apply map_ext_in.
  intros c Hc. rewrite (no_row_with_id l k Hk c Hc). reflexivity.
Qed.

Lemma remove_absent : forall l k,
  ~ In k (map Complaint.id l) ->
  filter (fun c => negb (Nat.eqb (Complaint.id c) k)) l = l.
Proof.
  intros l k Hk. induction l as [|c l IH]; [reflexivity|].
  cbn [filter]. rewrite (no_row_with_id (c :: l) k Hk c (or_introl eq_refl)).
  cbn [negb]. f_equal. apply IH. intros Hin. apply Hk. right. exact Hin.
Qed.

Lemma find_absent : forall l k,
  ~ In k (map Complaint.id l) ->
  find (fun c => Nat.eqb (Complaint.id c) k) l = None.
Proof.
  intros l k Hk. induction l as [|c l IH]; [reflexivity|].
  cbn [find]. rewrite (no_row_with_id (c :: l) k Hk c (or_introl eq_refl)).
  apply IH. intros Hin. apply Hk. right. exact Hin.
Qed.

(** The count of a status after the row with an identifier is replaced. *)
Lemma count_status_replace : forall text l k new,
  NoDup (map Complaint.id l) ->
  count_status text (map (fun c => if Nat.eqb (Complaint.id c) k then new else c) l)
  = match find (fun c => Nat.eqb (Complaint.id c) k) l with
    | Some o =>
        step (status_is text (Complaint.status new))
             (step (status_is text (Complaint.status o)) (count_status text l) (-1)) 1
    | None => count_status text l
    end.
Proof.
  intros text l k new. induction l as [|c l IH]; intros Hnd; [reflexivity|].
  cbn [map] in Hnd. apply NoDup_cons_iff in Hnd. destruct Hnd as (Hc & Hnd).
  cbn [map find]. rewrite !count_status_cons.
  destruct (Nat.eqb_spec (Complaint.id c) k) as [He|Hne].
  - rewrite He in Hc. rewrite (replace_absent l k new Hc).
    unfold step. destruct (status_is text (Complaint.status new)),
                   (status_is text (Complaint.status c)); lia.
  - rewrite (IH Hnd).
    destruct (find (fun c0 => Nat.eqb (Complaint.id c0) k) l) as [o|]; [|reflexivity].
    unfold step. destruct (status_is text (Complaint.status new)),
                   (status_is text (Complaint.status o)),
                   (status_is text (Complaint.status c)); lia.
Qed.

(** The count of a status, and the length, after a row of the list is
    filtered out by its identifier. *)
Lemma count_status_remove : forall text l o,
  NoDup (map Complaint.id l) -> In o l ->
  count_status text (filter (fun c => negb (Nat.eqb (Complaint.id c) (Complaint.id o))) l)
  = step (status_is text (Complaint.status o)) (count_status text l) (-1)
  /\ Z.of_nat (List.length
                 (filter (fun c => negb (Nat.eqb (Complaint.id c) (Complaint.id o))) l))
     = (Z.of_nat (List.length l) - 1)%Z.
Proof.
  intros text l o. induction l as [|c l IH]; intros Hnd Hin; [destruct Hin|].
  cbn [map] in Hnd. apply NoDup_cons_iff in Hnd. destruct Hnd as (Hc & Hnd).
  cbn [filter]. destruct (Nat.eqb_spec (Complaint.id c) (Complaint.id o)) as [He|Hne].
  - assert (c = o) as ->.
    { destruct Hin as [Hin|Hin]; [exact Hin|].
      exfalso. apply Hc. rewrite He. apply in_map, Hin. }
    cbn [negb]. rewrite (remove_absent l (Complaint.id o) Hc), count_status_cons.
    split; [|cbn [List.length]; lia].
    unfold step. destruct (status_is text (Complaint.status o)); lia.
  - assert (Hin' : In o l).
    { destruct Hin as [Hin|Hin]; [|exact Hin]. subst c. contradiction. }
    destruct (IH Hnd Hin') as (IHc & IHl).
    cbn [negb]. rewrite !count_status_cons, IHc. split.
    + unfold step. destruct (status_is text (Complaint.status o)),
                     (status_is text (Complaint.status c)); lia.
    + cbn [List.length]. lia.
Qed.

Lemma status_is_same : forall text a b,
  String.eqb (status_text a) (status_text b) = true ->
  status_is text a = status_is text b.
Proof.
  intros text a b H. apply String.eqb_eq in H. unfold status_is. rewrite H. reflexivity.
Qed.

(** X20.  The counters of the officer page follow its list.  When they
    say what the list holds, and the callback sees the list of the current
    state, they still do after an INSERT; after an UPDATE of a row, in a
    list without a shared identifier; and after a DELETE of a row of such a
    list, when the event carries the status the row had. *)
Theorem counters_follow_the_list : forall st selected,
  counted st ->
  (forall new, counted (fst (on_change (complaints st) selected (INSERT_event new) st)))
  /\ (forall new,
         NoDup (map Complaint.id (complaints st)) ->
         counted (fst (on_change (complaints st) selected
                                 (UPDATE_event (Complaint.id new) new) st)))
  /\ (forall o,
         NoDup (map Complaint.id (complaints st)) ->
         In o (complaints st) ->
         counted (fst (on_change (complaints st) selected
                                 (DELETE_event (Complaint.id o)
                                               (Some (Complaint.status o))) st))).
Proof.
  intros st selected H. unfold counted in *. split; [|split].
  - intros new. cbn [on_change fst stats complaints]. rewrite H. unfold stats_of.
    cbn [Stats.total Stats.pending Stats.in_review Stats.resolved].
    rewrite !count_status_cons. f_equal. cbn [List.length]. lia.
  - intros new Hnd. cbn [on_change fst stats complaints]. unfold stats_of.
    rewrite length_map, !(count_status_replace _ _ _ _ Hnd). rewrite H.
    destruct (find (fun c => Nat.eqb (Complaint.id c) (Complaint.id new)) (complaints st))
      as [o|]; [|reflexivity].
    destruct (String.eqb (status_text (Complaint.status o))
                         (status_text (Complaint.status new))) eqn:Hsame; cbn [negb].
    + unfold stats_of. rewrite !(status_is_same _ _ _ Hsame).
      unfold step. f_equal;
        destruct (status_is _ (Complaint.status new)); lia.
    + reflexivity.
  - intros o Hnd Hin. cbn [on_change fst stats complaints]. rewrite H. unfold stats_of.
    cbn [Stats.total Stats.pending Stats.in_review Stats.resolved].
    destruct (count_status_remove "pending" _ _ Hnd Hin) as (-> & ->).
    destruct (count_status_remove "in_review" _ _ Hnd Hin) as (-> & _).
    destruct (count_status_remove "resolved" _ _ Hnd Hin) as (-> & _).
    reflexivity.
Qed.

(** The theorem at the two complaints of the examples: a third complaint
    arrives, the first is verified, the second is deleted. *)
Lemma counters_follow_the_list_witness :
  let st := {| stats := stats_of (Db.complaints Examples.mixed_database);
               complaints := Db.complaints Examples.mixed_database;
               selectedComplaint := None |} in
  counted (fst (on_change (complaints st) None
                          (INSERT_event Examples.owned_complaint) st))
  /\ counted (fst (on_change (complaints st) None
                             (UPDATE_event 100 (Complaint.set_status verified
                                                  Examples.owned_complaint)) st))
  /\ counted (fst (on_change (complaints st) None
                             (DELETE_event 101 (Some in_review)) st)).
Proof.
  intros st.
  assert (Hst : counted st) by reflexivity.
  assert (Hnd : NoDup (map Complaint.id (complaints st))).
  { cbn. repeat constructor; cbn; intuition discriminate. }
  destruct (counters_follow_the_list st None Hst) as (Hi & Hu & Hd).
  split; [apply Hi|]. split.
  - exact (Hu (Complaint.set_status verified Examples.owned_complaint) Hnd).
  - exact (Hd Examples.anonymous_complaint Hnd (or_intror (or_introl eq_refl))).
Defined.

End Counters.

(** ** The analytics page *)

Section AnalyticsFacts.
Import Text Json Db Submit Admin Page Reading Analytics.

Lemma bump_count : forall key k acc,
  count_of k (bump key acc)
  = (count_of k acc + (if String.eqb key k then 1 else 0))%Z.
Proof.
  intros key k acc. unfold count_of. induction acc as [|[k0 n] rest IH].
  - cbn. destruct (String.eqb key k); reflexivity.
  - cbn [bump]. destruct (String.eqb_spec k0 key) as [->|Hne].
    + cbn [find fst snd]. destruct (String.eqb key k).
      * cbn [snd]. destruct (n =? 0)%Z eqn:Hn; [apply Z.eqb_eq in Hn|]; lia.
      * symmetry. apply Z.add_0_r.
    + cbn [find fst]. destruct (String.eqb_spec k0 k) as [->|Hk].
      * cbn [snd]. destruct (String.eqb_spec key k); [congruence | lia].
      * exact IH.
Qed.

Lemma bump_sum : forall key acc,
  sum (map snd (bump key acc)) = (sum (map snd acc) + 1)%Z.
Proof.
  intros key acc. induction acc as [|[k0 n] rest IH]; [reflexivity|].
  cbn [bump]. destruct (String.eqb k0 key); cbn [map snd sum fold_right].
  - fold (sum (map snd rest)). destruct (n =? 0)%Z eqn:Hn; [apply Z.eqb_eq in Hn|]; lia.
  - fold (sum (map snd (bump key rest))). fold (sum (map snd rest)). rewrite IH. lia.
Qed.

Lemma bump_keys : forall key acc,
  map fst (bump key acc)
  = if existsb (String.eqb key) (map fst acc) then map fst acc
    else (map fst acc ++ [key])%list.
Proof.
  intros key acc. induction acc as [|[k0 n] rest IH]; [reflexivity|].
  cbn [bump map fst existsb]. rewrite (String.eqb_sym key k0).
  destruct (String.eqb k0 key); cbn [map fst orb]; [reflexivity|].
  rewrite IH. destruct (existsb (String.eqb key) (map fst rest)); reflexivity.
Qed.

Lemma bump_NoDup : forall key acc,
  NoDup (map fst acc) -> NoDup (map fst (bump key acc)).
Proof.
  intros key acc H. rewrite bump_keys.
  destruct (existsb (String.eqb key) (map fst acc)) eqn:He; [exact H|].
  apply NoDup_app; [exact H | repeat constructor; intros [] |].
  intros k Hk [Heq|[]]. subst k.
  assert (Ht : existsb (String.eqb key) (map fst acc) = true).
  { apply existsb_exists. exists key. split; [exact Hk | apply String.eqb_refl]. }
  congruence.
Qed.

(** What the reduction holds after a list of rows, from any object. *)
Lemma fold_bump : forall key (l : list Complaint.row) acc,
  let acc' := fold_left (fun acc c => bump (key c) acc) l acc in
  (forall k, count_of k acc'
             = (count_of k acc
                + Z.of_nat (List.length (filter (fun c => String.eqb (key c) k) l)))%Z)
  /\ sum (map snd acc') = (sum (map snd acc) + Z.of_nat (List.length l))%Z
  /\ (NoDup (map fst acc) -> NoDup (map fst acc')).
Proof.
  intros key l. induction l as [|c l IH]; intros acc acc'.
  - subst acc'. cbn [fold_left filter List.length]. split; [|split].
    + intros k. lia.
    + cbn. lia.
    + intros H. exact H.
  - subst acc'. cbn [fold_left]. destruct (IH (bump (key c) acc)) as (Hc & Hs & Hn).
    split; [|split].
    + intros k. rewrite Hc, bump_count. cbn [filter].
      destruct (String.eqb (key c) k); cbn [List.length]; lia.
    + rewrite Hs, bump_sum. cbn [List.length]. lia.
    + intros H. apply Hn, bump_NoDup, H.
Qed.

Lemma sum_chart : forall (label : string -> string) (l : list (string * Z)),
  sum (map snd (map (fun e => (label (fst e), snd e)) l)) = sum (map snd l).
Proof. intros label l. rewrite map_map. reflexivity. Qed.

(** X21.  The tallies of the analytics page.  The counts of the category
    chart, and those of the status chart, add up to the number of
    complaints; no key is tallied twice; and the count under a status is the
    number of complaints with that status, the number the officer page shows
    for it. *)
Theorem tallies_count_every_complaint : forall complaints,
  sum (map snd (chartCategoryData complaints)) = Z.of_nat (List.length complaints)
  /\ sum (map snd (chartStatusData complaints)) = Z.of_nat (List.length complaints)
  /\ NoDup (map fst (categoryData complaints))
  /\ NoDup (map fst (statusData complaints))
  /\ (forall s, count_of (status_text s) (statusData complaints)
                = GovPortal.count_status (status_text s) complaints).
Proof.
  intros complaints. unfold chartCategoryData, chartStatusData.
  rewrite (sum_chart (fun n => initial n ++ slice_1 n)).
  rewrite (sum_chart (fun n => initial n ++ replace_underscore (slice_1 n))).
  unfold categoryData, statusData, tally.
  destruct (fold_bump (fun c => replace_underscore (category_text (Complaint.category c)))
                      complaints []) as (_ & Hsum & Hnd).
  destruct (fold_bump (fun c => status_text (Complaint.status c)) complaints [])
    as (Hcount' & Hsum' & Hnd').
  split; [rewrite Hsum; reflexivity|]. split; [rewrite Hsum'; reflexivity|].
  split; [apply Hnd; constructor|]. split; [apply Hnd'; constructor|].
  intros s. rewrite Hcount'. reflexivity.
Qed.

(** The tallies of the two complaints of the examples, as the charts name
    them. *)
Example tallies_of_the_examples :
  chartCategoryData (complaints Examples.mixed_database ++ [Examples.owned_complaint])
  = [("Bribery", 2%Z); ("Misuse of_funds", 1%Z)]
  /\ chartStatusData (complaints Examples.mixed_database)
     = [("Pending", 1%Z); ("In review", 1%Z)].
Proof. split; reflexivity. Qed.

Lemma same_id_same_row : forall (l : list Complaint.row) a b,
  NoDup (map Complaint.id l) -> In a l -> In b l ->
  Complaint.id a = Complaint.id b -> a = b.
Proof.
  induction l as [|c l IH]; intros a b Hnd Ha Hb Hid; [destruct Ha|].
  cbn [map] in Hnd. apply NoDup_cons_iff in Hnd. destruct Hnd as (Hc & Hnd).
  destruct Ha as [->|Ha], Hb as [->|Hb].
  - reflexivity.
  - exfalso. apply Hc. rewrite Hid. apply in_map, Hb.
  - exfalso. apply Hc. rewrite <- Hid. apply in_map, Ha.
  - apply (IH a b Hnd Ha Hb Hid).
Qed.

(** X22.  The list of the analytics page follows a status update of the
    officer page.  In a table without a shared identifier, when an officer
    sets the status of a complaint and the page, whose list holds the rows
    of the table in some order, receives the UPDATE with the new row, its
    list holds the rows of the table after the update. *)
Theorem list_follows_a_status_update : forall E session newStatus s w o page,
  status_of_text newStatus = Some s ->
  is_government_or_admin (db w) (caller_of session) = true ->
  unique_ids (db w) ->
  In o (complaints (db w)) ->
  Permutation page (complaints (db w)) ->
  Permutation
    (on_change (UPDATE_event (Complaint.id o)
                             (Complaint.set_updated_at (now E (clock_pos w))
                                                       (Complaint.set_status s o)))
               page)
    (complaints (db (snd (handleUpdateStatus E session (Some (Complaint.id o))
                                             newStatus w)))).
Proof.
  intros E session newStatus s w o page Hs Hrole Hu Hin Hpage.
  destruct (handleUpdateStatus_spec E session (Complaint.id o) newStatus s w Hs)
    as (w' & -> & _ & Hdb).
  rewrite Hrole in Hdb. cbn [snd]. rewrite Hdb. cbn [complaints with_complaints on_change].
  set (new := Complaint.set_updated_at (now E (clock_pos w)) (Complaint.set_status s o)).
  replace (map (fun r => if Nat.eqb (Complaint.id r) (Complaint.id o)
                         then Complaint.set_updated_at (now E (clock_pos w))
                                                       (Complaint.set_status s r)
                         else r) (complaints (db w)))
    with (map (fun c => if Nat.eqb (Complaint.id c) (Complaint.id new) then new else c)
              (complaints (db w))).
  - apply Permutation_map, Hpage.
  - apply map_ext_in. intros r Hr. change (Complaint.id new) with (Complaint.id o).
    destruct (Nat.eqb_spec (Complaint.id r) (Complaint.id o)) as [He|_]; [|reflexivity].
    rewrite (same_id_same_row _ r o Hu Hr Hin He). reflexivity.
Qed.

(** The theorem at the two complaints of the examples, listed by the page
    newest first: officer 3 resolves the complaint of user 1. *)
Lemma list_follows_a_status_update_witness :
  Permutation
    (on_change (UPDATE_event 100
                  (Complaint.set_updated_at (now Examples.env 0)
                     (Complaint.set_status resolved Examples.owned_complaint)))
               [Examples.anonymous_complaint; Examples.owned_complaint])
    (complaints
       (db (snd (handleUpdateStatus Examples.env (Some 3%nat) (Some 100%nat) "resolved"
                   (with_db Examples.mixed_database empty_world))))).
Proof.
  apply (list_follows_a_status_update Examples.env (Some 3%nat) "resolved" resolved
           (with_db Examples.mixed_database empty_world) Examples.owned_complaint
           [Examples.anonymous_complaint; Examples.owned_complaint]).
  - reflexivity.
  - reflexivity.
  - unfold unique_ids. cbn. repeat constructor; cbn; intuition discriminate.
  - left. reflexivity.
  - apply perm_swap.
Defined.

End AnalyticsFacts.

(** ** The analysis function *)

Section AnalysisMore.
Import Text Json Http AnalyzeComplaint.

(** X23.  The answers of [analyze-complaint].  Its status is 200, 402, 429
    or 500, whatever the gateway answers.  Apart from the preflight, it is
    200 only when the key is configured, the gateway answered 2xx with a
    JSON body and the content of the first message is a text, and the answer
    then carries the analysis of that text; it is 429 or 402 only when the
    gateway said so. *)
Theorem analysis_answers : forall JSON_parse method req_json key fetched,
  let r := handler JSON_parse method req_json key fetched in
  (status r = 200 \/ status r = 402 \/ status r = 429 \/ status r = 500)%Z
  /\ (status r = 200%Z -> method <> "OPTIONS" ->
      exists k g data text,
        key = Some k /\ k <> "" /\ fetched = Some g /\ ok g = true
        /\ gw_json g = Some data /\ content_of data = inr (Some (JStr text))
        /\ content r = payload "analysis" (analysis_of JSON_parse text))
  /\ (forall code, (code = 429 \/ code = 402)%Z -> status r = code ->
                   exists g, fetched = Some g /\ gw_status g = code).
Proof.
  intros JSON_parse method req_json key fetched r. subst r. unfold handler.
  destruct (String.eqb_spec method "OPTIONS") as [Hm|Hm].
  { cbn. split; [auto|]. split; [intros _ H; contradiction|].
    intros code [->| ->] H; discriminate H. }
  assert (Hfail : forall x : response,
             status x = 500%Z ->
             (status x = 200 \/ status x = 402 \/ status x = 429 \/ status x = 500)%Z
             /\ (status x = 200%Z -> method <> "OPTIONS" ->
                 exists k g data text,
                   key = Some k /\ k <> "" /\ fetched = Some g /\ ok g = true
                   /\ gw_json g = Some data /\ content_of data = inr (Some (JStr text))
                   /\ content x = payload "analysis" (analysis_of JSON_parse text))
             /\ (forall code, (code = 429 \/ code = 402)%Z -> status x = code ->
                              exists g, fetched = Some g /\ gw_status g = code)).
  { intros x Hx. rewrite Hx. split; [auto|]. split; [intros H; discriminate H|].
    intros code [->| ->] H; discriminate H. }
  destruct req_json as [req|]; [|apply Hfail; reflexivity].
  destruct req; try (apply Hfail; reflexivity);
    (destruct key as [k|]; [|apply Hfail; reflexivity];
     destruct (String.eqb_spec k "") as [Hk|Hk]; [apply Hfail; reflexivity|];
     destruct fetched as [g|]; [|apply Hfail; reflexivity];
     destruct (ok g) eqn:Hok; cbn [negb];
     [ destruct (gw_json g) as [data|] eqn:Hdata; [|apply Hfail; reflexivity];
       destruct (content_of data) as [e|[[| | |text| |]|]] eqn:Hcontent;
       try (apply Hfail; reflexivity);
       cbn [status content];
       (split; [auto|]; split;
        [ intros _ _; exists k, g, data, text; repeat split; assumption
        | intros code [->| ->] H; discriminate H ])
     | destruct (Z.eqb_spec (gw_status g) 429) as [H429|H429];
       [ cbn [failure status]; split; [auto|]; split; [intros H; discriminate H|];
         intros code [->| ->] H; [exists g; auto | discriminate H]
       | destruct (Z.eqb_spec (gw_status g) 402) as [H402|H402];
         [ cbn [failure status]; split; [auto|]; split; [intros H; discriminate H|];
           intros code [->| ->] H; [discriminate H | exists g; auto]
         | apply Hfail; reflexivity ] ] ]).
Qed.

(** *** The text handed to [JSON.parse] *)

Lemma index_skip : forall a n s r,
  index (String.length a + n) s (a ++ r)
  = option_map (Nat.add (String.length a)) (index n s r).
Proof.
  intros a. induction a as [|c a IH]; intros n s r.
  - cbn. destruct (index n s r); reflexivity.
  - cbn [String.length String.append Nat.add index]. rewrite IH.
    destruct (index n s r); reflexivity.
Qed.

Lemma substring_start : forall b c, substring 0 (String.length b) (b ++ c) = b.
Proof.
  intros b. induction b as [|x b IH]; intros c.
  - destruct c; reflexivity.
  - cbn [String.length String.append].
    change (substring 0 (S (String.length b)) (String x (b ++ c)))
      with (String x (substring 0 (String.length b) (b ++ c))).
    rewrite IH. reflexivity.
Qed.

Lemma substring_mid : forall a b c,
  substring (String.length a) (String.length b) (a ++ b ++ c) = b.
Proof.
  intros a. induction a as [|x a IH]; intros b c.
  - exact (substring_start b c).
  - cbn [String.length String.append].
    change (substring (S (String.length a)) (String.length b) (String x (a ++ b ++ c)))
      with (substring (String.length a) (String.length b) (a ++ b ++ c)).
    apply IH.
Qed.

Lemma length_append : forall a b,
  String.length (a ++ b) = (String.length a + String.length b)%nat.
Proof. intros a. induction a as [|x a IH]; intros b; cbn; [|rewrite IH]; reflexivity. Qed.

Lemma append_assoc : forall a b c : string, ((a ++ b) ++ c = a ++ b ++ c)%string.
Proof. intros a. induction a as [|x a IH]; intros b c; cbn; [|rewrite IH]; reflexivity. Qed.

(** The opening fence is found behind a text without a backquote. *)
Lemma index_fence_open : forall pre rest,
  forallb_string (fun c => negb (Ascii.eqb c "`")) pre = true ->
  index 0 fence_open (pre ++ fence_open ++ rest) = Some (String.length pre).
Proof.
  intros pre. induction pre as [|c pre IH]; intros rest H.
  - cbn. destruct rest; reflexivity.
  - cbn [forallb_string] in H. apply andb_true_iff in H. destruct H as (Hc & H).
    apply negb_true_iff, Ascii.eqb_neq in Hc.
    cbn [String.append String.length].
    change (index 0 fence_open (String c (pre ++ fence_open ++ rest)))
      with (if prefix fence_open (String c (pre ++ fence_open ++ rest)) then Some 0%nat
            else match index 0 fence_open (pre ++ fence_open ++ rest) with
                 | Some n => Some (S n)
                 | None => None
                 end).
    rewrite (IH rest H).
    replace (prefix fence_open (String c (pre ++ fence_open ++ rest))) with false;
      [reflexivity|].
    unfold fence_open. cbn [String.append prefix].
    destruct (ascii_dec "`" c) as [He|_]; [congruence | reflexivity].
Qed.

(** The closing fence is found behind a text without a backquote. *)
Lemma index_fence_close : forall body rest,
  forallb_string (fun c => negb (Ascii.eqb c "`")) body = true ->
  index 0 fence_close (body ++ fence_close ++ rest) = Some (String.length body).
Proof.
  intros body. induction body as [|c body IH]; intros rest H.
  - cbn. destruct rest; reflexivity.
  - cbn [forallb_string] in H. apply andb_true_iff in H. destruct H as (Hc & H).
    cbn [String.append String.length].
    change (index 0 fence_close (String c (body ++ fence_close ++ rest)))
      with (if prefix fence_close (String c (body ++ fence_close ++ rest)) then Some 0%nat
            else match index 0 fence_close (body ++ fence_close ++ rest) with
                 | Some n => Some (S n)
                 | None => None
                 end).
    rewrite (IH rest H).
    replace (prefix fence_close (String c (body ++ fence_close ++ rest))) with false;
      [reflexivity|].
    unfold fence_close, newline. cbn [String.append prefix].
    destruct (ascii_dec (ascii_of_nat 10) c) as [_|_]; [|reflexivity].
    destruct body as [|d body].
    + reflexivity.
    + cbn [forallb_string] in H. apply andb_true_iff in H. destruct H as (Hd & _).
      apply negb_true_iff, Ascii.eqb_neq in Hd.
      cbn [String.append prefix].
      destruct (ascii_dec "`" d) as [He|_]; [congruence | reflexivity].
Qed.

(** X24.  A fenced reply.  When the reply of the model is some prose, the
    fence [```json], a text, the closing fence and more prose, and neither
    the prose before nor the text holds a backquote, then the text, when it
    is not empty, is what [JSON.parse] is given. *)
Theorem fenced_reply_is_extracted : forall pre body post,
  forallb_string (fun c => negb (Ascii.eqb c "`")) pre = true ->
  forallb_string (fun c => negb (Ascii.eqb c "`")) body = true ->
  body <> "" ->
  jsonStr (pre ++ fence_open ++ body ++ fence_close ++ post) = body.
Proof.
  intros pre body post Hpre Hbody Hne.
  unfold jsonStr, match_fenced. rewrite (index_fence_open pre _ Hpre).
  assert (Hclose : index (String.length pre + 8) fence_close
                         (pre ++ fence_open ++ body ++ fence_close ++ post)
                   = Some (String.length pre + 8 + String.length body)%nat).
  { rewrite <- (append_assoc pre fence_open).
    replace (String.length pre + 8)%nat
      with (String.length (pre ++ fence_open) + 0)%nat
      by (rewrite length_append; cbn; lia).
    rewrite index_skip, (index_fence_close body post Hbody). cbn [option_map].
    f_equal. lia. }
  rewrite Hclose.
  replace (String.length pre + 8 + String.length body - (String.length pre + 8))%nat
    with (String.length body) by lia.
  assert (Hgroup : substring (String.length pre + 8) (String.length body)
                             (pre ++ fence_open ++ body ++ fence_close ++ post) = body).
  { rewrite <- (append_assoc pre fence_open).
    replace (String.length pre + 8)%nat with (String.length (pre ++ fence_open))
      by (rewrite length_append; reflexivity).
    apply substring_mid. }
  rewrite Hgroup.
  destruct (String.eqb_spec body "") as [|_]; [contradiction | reflexivity].
Qed.

(** The theorem at a reply with prose around the fence. *)
Lemma fenced_reply_is_extracted_witness :
  jsonStr ("Here is the analysis:" ++ newline ++ fence_open
           ++ "{ }" ++ fence_close ++ newline ++ "Let me know.")
  = "{ }".
Proof.
  apply (fenced_reply_is_extracted ("Here is the analysis:" ++ newline) "{ }"
                                   (newline ++ "Let me know."));
    [reflexivity | reflexivity | discriminate].
Defined.

End AnalysisMore.

(** ** The function of drafts and suggestions *)

Section Suggestions.
Import Text Json Http Db AnalyzeComplaint GenerateResponse.

(** X25.  [generate-response] needs the complaint for its two actions: with
    the key configured, a request for a draft note or for a suggestion that
    has no complaint, or a null one, is answered 500 with the message of
    the type error, and the gateway is not asked, for its answer does not
    matter. *)
Theorem generate_response_needs_a_complaint :
  forall JSON_parse method req key fetched,
    method <> "OPTIONS" -> key <> "" ->
    is_action "draft_note" (member "action" req) = true
    \/ is_action "suggest_status" (member "action" req) = true ->
    member "complaint" req = None \/ member "complaint" req = Some JNull ->
    GenerateResponse.handler JSON_parse method (Some req) (Some key) fetched
    = {| status := 500; content := error_body (message_of TypeError) |}.
Proof.
  intros JSON_parse method req key fetched Hm Hk Haction Hcomplaint.
  unfold GenerateResponse.handler.
  destruct (String.eqb_spec method "OPTIONS") as [|_]; [contradiction|].
  destruct (String.eqb_spec key "") as [|_]; [contradiction|].
  assert (Hthrows : prompt_throws (member "complaint" req) = true)
    by (destruct Hcomplaint as [-> | ->]; reflexivity).
  assert (Hact : is_action "draft_note" (member "action" req)
                 || is_action "suggest_status" (member "action" req) = true)
    by (destruct Haction as [-> | ->]; [reflexivity | apply orb_true_r]).
  rewrite Hthrows, Hact.
  destruct req; reflexivity.
Qed.

(** The theorem at a request for a draft note that names no complaint, with
    a gateway that would answer. *)
Lemma generate_response_needs_a_complaint_witness :
  GenerateResponse.handler JsonText.read "POST"
    (Some (JObj [("action", JStr "draft_note")])) (Some "key")
    (Some {| gw_status := 200; gw_json := Some (JObj []) |})
  = {| status := 500; content := error_body (message_of TypeError) |}.
Proof.
  apply generate_response_needs_a_complaint.
  - discriminate.
  - discriminate.
  - left. reflexivity.
  - left. reflexivity.
Defined.

(** X26.  A reply never fails a suggestion.  With the key configured and a
    prompt that could be written, when the gateway answers 2xx with a JSON
    body that has a first message, the answer is 200 whatever the content
    of that message is.  For [suggest_status] it is the value parsed from
    the content, or else the suggestion [in_review], a status of the
    enumeration, with the content as the reason; for every other action it
    is the content under [text], unparsed. *)
Theorem reply_never_fails_a_suggestion :
  forall JSON_parse method req key g data reply,
    method <> "OPTIONS" -> req <> JNull -> key <> "" ->
    prompt_throws (member "complaint" req) = false ->
    ok g = true -> gw_json g = Some data -> content_of data = inr reply ->
    exists result,
      GenerateResponse.handler JSON_parse method (Some req) (Some key) (Some g)
      = {| status := 200; content := json_body result |}
      /\ (is_action "suggest_status" (member "action" req) = true ->
          (exists text, reply = Some (JStr text)
                        /\ JSON_parse (jsonStr text) = Some result)
          \/ (result = GenerateResponse.fallback reply
              /\ lookup "suggested_status" (match result with
                                            | JObj fields => fields
                                            | _ => []
                                            end) = Some (JStr "in_review")
              /\ Admin.status_of_text "in_review" = Some in_review))
      /\ (is_action "suggest_status" (member "action" req) = false ->
          result = text_of reply).
Proof.
  intros JSON_parse method req key g data reply Hm Hreq Hk Hprompt Hok Hdata Hreply.
  exists (if is_action "suggest_status" (member "action" req)
          then suggestion_of JSON_parse reply else text_of reply).
  split; [|split].
  - unfold GenerateResponse.handler.
    destruct (String.eqb_spec method "OPTIONS") as [|_]; [contradiction|].
    destruct (String.eqb_spec key "") as [|_]; [contradiction|].
    rewrite Hprompt, andb_false_r, Hok, Hdata, Hreply. cbn [negb].
    destruct req; try reflexivity. contradiction.
  - intros ->. unfold suggestion_of.
    destruct reply as [[| | |text| |]|]; try (right; repeat split; reflexivity).
    destruct (JSON_parse (jsonStr text)) as [result|] eqn:Hparse.
    + left. exists text. split; [reflexivity | exact Hparse].
    + right. repeat split; reflexivity.
  - intros ->. reflexivity.
Qed.

(** The theorem at a reply that is a sentence, for a suggestion and for a
    draft note. *)
Lemma reply_never_fails_a_suggestion_witness :
  let reply := JObj [("choices",
                      JArr [JObj [("message",
                                   JObj [("content", JStr "Keep it pending.")])]])] in
  let complaint := JObj [("title", JStr "Bribe at the land office")] in
  GenerateResponse.handler JsonText.read "POST"
    (Some (JObj [("complaint", complaint); ("action", JStr "suggest_status")]))
    (Some "key") (Some {| gw_status := 200; gw_json := Some reply |})
  = {| status := 200;
       content := json_body (JObj [("suggested_status", JStr "in_review");
                                   ("reason", JStr "Keep it pending.")]) |}
  /\ GenerateResponse.handler JsonText.read "POST"
       (Some (JObj [("complaint", complaint); ("action", JStr "draft_note")]))
       (Some "key") (Some {| gw_status := 200; gw_json := Some reply |})
     = {| status := 200;
          content := json_body (JObj [("text", JStr "Keep it pending.")]) |}.
Proof.
  intros reply complaint. split.
  - destruct (reply_never_fails_a_suggestion JsonText.read "POST"
                (JObj [("complaint", complaint); ("action", JStr "suggest_status")])
                "key" {| gw_status := 200; gw_json := Some reply |} reply
                (Some (JStr "Keep it pending.")))
      as (result & Hrun & Hsuggest & _);
      [discriminate | discriminate | discriminate | reflexivity | reflexivity
       | reflexivity | reflexivity |].
    rewrite Hrun. destruct (Hsuggest eq_refl) as [(text & Ht & Hparse)|(-> & _)].
    + injection Ht as <-. vm_compute in Hparse. discriminate Hparse.
    + reflexivity.
  - destruct (reply_never_fails_a_suggestion JsonText.read "POST"
                (JObj [("complaint", complaint); ("action", JStr "draft_note")])
                "key" {| gw_status := 200; gw_json := Some reply |} reply
                (Some (JStr "Keep it pending.")))
      as (result & Hrun & _ & Htext);
      [discriminate | discriminate | discriminate | reflexivity | reflexivity
       | reflexivity | reflexivity |].
    rewrite Hrun, (Htext eq_refl). reflexivity.
Defined.

End Suggestions.
